(** * Risk & Alert Engine: a shallow embedding of the trading services

    The development follows the Python sources of the repository:
    - [risk-management-service/main.py]: the risk statistics
      ([calculate_var], [calculate_expected_shortfall],
      [calculate_sharpe_ratio], [calculate_sortino_ratio],
      [calculate_max_drawdown]) and the [resolve_alert] handler;
    - [monitoring-services/alert_manager.py]: [AlertManager.check_thresholds];
    - [monitoring-services/app/alert_manager.py]: [check_metrics],
      [_send_alert], [send_alert], [_check_cooldown];
    - [monitoring-services/alert_sender.py]: [send_email], [send_slack],
      [send_alert];
    - [monitoring-services/main.py] and [monitoring-services/app/api.py]:
      the [resolve_alert] handlers;
    - [monitoring-services/health_check.py]: [record_failure],
      [should_alert], [send_alert], [check_all_services].

    Numbers.  The services compute on binary64 floats.  Here a finite float
    is idealised as a rational ([Q], exact arithmetic, compared with [==]);
    the special values that NumPy produces instead of raising (division by
    zero, mean of an empty array) are kept explicitly in [Np.float64].
    Python exceptions are values of [Py.exn], and a call that may raise
    returns a [Py.result]. *)

From Stdlib Require Import ZArith QArith Qround Qminmax Lia Lqa List String.
From Stdlib Require Import PrimFloat.
From stdpp Require Import gmap strings pretty.
Import ListNotations.

(** ** Python: exceptions and results *)

Module Py.

Inductive exn : Type :=
| IndexError
| ValueError
| TypeError
| KeyError
| UnboundLocalError
| DatabaseError
| OSError
| HTTPException (status_code : Z) (detail : string).

Inductive result (A : Type) : Type :=
| Return (a : A)
| Raise (e : exn).
Arguments Return {A} a.
Arguments Raise {A} e.

Definition bind {A B} (r : result A) (k : A -> result B) : result B :=
  match r with
  | Return a => k a
  | Raise e => Raise e
  end.

Definition raises {A} (r : result A) : bool :=
  match r with Return _ => false | Raise _ => true end.

End Py.

#[global] Instance result_ret : MRet Py.result := @Py.Return.
#[global] Instance result_bind : MBind Py.result := fun A B k r => Py.bind r k.

(** ** NumPy: the array operations the risk statistics use *)

Module Np.
Local Open Scope Q_scope.

(** A float64 scalar: a finite value or one of the IEEE specials. *)
Inductive float64 : Type :=
| Fin (q : Q)
| PosInf
| NegInf
| NaN.

Definition Qlt_bool (x y : Q) : bool := negb (Qle_bool y x).
Definition Qis_zero (q : Q) : bool := Qeq_bool q 0.

(** [a / b] on float64 scalars.  NumPy does not raise on a zero divisor:
    it warns and yields [inf], [-inf] or [nan].  A zero divisor is taken
    as [+0.0], the only zero that [np.std] and a running maximum give. *)
Definition divide (a b : float64) : float64 :=
  match a, b with
  | NaN, _ | _, NaN => NaN
  | Fin x, Fin y =>
      if Qis_zero y then
        if Qis_zero x then NaN
        else if Qlt_bool 0 x then PosInf else NegInf
      else Fin (x / y)
  | Fin _, (PosInf | NegInf) => Fin 0
  | PosInf, Fin y => if Qlt_bool y 0 then NegInf else PosInf
  | NegInf, Fin y => if Qlt_bool y 0 then PosInf else NegInf
  | (PosInf | NegInf), (PosInf | NegInf) => NaN
  end.

(** [np.minimum]: the smaller scalar, [nan] if either is [nan]. *)
Definition minimum (a b : float64) : float64 :=
  match a, b with
  | NaN, _ | _, NaN => NaN
  | NegInf, _ | _, NegInf => NegInf
  | PosInf, y => y
  | x, PosInf => x
  | Fin x, Fin y => if Qle_bool x y then Fin x else Fin y
  end.

(** [np.min] of a one-dimensional array: a zero-size array has no
    identity for the reduction and raises [ValueError]. *)
Definition min (a : list float64) : Py.result float64 :=
  match a with
  | [] => Py.Raise Py.ValueError
  | x :: rest => Py.Return (fold_left minimum rest x)
  end.

Definition sum (a : list Q) : Q := fold_left Qplus a 0.

(** [np.mean]: sum over count; [nan] (with a warning) on an empty array. *)
Definition mean (a : list Q) : float64 :=
  divide (Fin (sum a)) (Fin (inject_Z (Z.of_nat (List.length a)))).

(** [np.sqrt] on the rational model.  The root of [n/d] is
    [sqrt (n*d) / d]; the integer root is taken on a grid of [2^-53 / d],
    so rational squares have their exact root and the other values are
    rounded down to that grid, where binary64 rounds to its own.  The
    root of zero is zero and the root of a positive number is positive. *)
Definition sqrt_scale : positive := Eval cbv in (2 ^ 53)%positive.

Definition sqrt (x : Q) : Q :=
  Z.sqrt (Qnum x * Zpos (Qden x) * (Zpos sqrt_scale * Zpos sqrt_scale))
    # (Qden x * sqrt_scale).

(** [np.std] (population standard deviation, [ddof=0]):
    [sqrt(mean(abs(x - x.mean())**2))]. *)
Definition std (a : list Q) : float64 :=
  match mean a with
  | Fin m =>
      match mean (List.map (fun x => (x - m) * (x - m)) a) with
      | Fin v => Fin (sqrt v)
      | other => other
      end
  | other => other
  end.

(** [np.cumprod]: running product, first element unchanged. *)
Fixpoint cumprod_from (acc : Q) (a : list Q) : list Q :=
  match a with
  | [] => []
  | x :: rest => let acc' := acc * x in acc' :: cumprod_from acc' rest
  end.

Definition cumprod (a : list Q) : list Q :=
  match a with
  | [] => []
  | x :: rest => x :: cumprod_from x rest
  end.

(** [np.maximum.accumulate]: running maximum. *)
Definition Qmaximum (x y : Q) : Q := if Qle_bool x y then y else x.

Fixpoint maximum_accumulate_from (acc : Q) (a : list Q) : list Q :=
  match a with
  | [] => []
  | x :: rest =>
      let acc' := Qmaximum acc x in acc' :: maximum_accumulate_from acc' rest
  end.

Definition maximum_accumulate (a : list Q) : list Q :=
  match a with
  | [] => []
  | x :: rest => x :: maximum_accumulate_from x rest
  end.

(** Sorting, as [ndarray.partition] leaves the selected ranks. *)
Fixpoint insert_sorted (x : Q) (l : list Q) : list Q :=
  match l with
  | [] => [x]
  | y :: rest => if Qle_bool x y then x :: l else y :: insert_sorted x rest
  end.

Fixpoint sort (l : list Q) : list Q :=
  match l with
  | [] => []
  | x :: rest => insert_sorted x (sort rest)
  end.

(** [_lerp(a, b, t)]: [a + (b-a)*t], computed from [b] when [t >= 0.5]. *)
Definition lerp (a b t : Q) : Q :=
  if Qlt_bool t (1 # 2) then a + (b - a) * t
  else b - (b - a) * (1 - t).

(** [np.percentile(a, q)] with the default [method='linear'].

    [q / 100] outside [0, 1] raises [ValueError] before the data is
    looked at; a zero-size array raises [IndexError] when its last
    element is inspected.  Otherwise the virtual index is
    [(n - 1) * q / 100]; the previous index is its floor and the next
    index one more, both replaced by the last index ([-1]) when the
    virtual index is at or above [n - 1]; the result interpolates the
    sorted values at the two indexes with weight
    [gamma = virtual - previous]. *)
Definition percentile (a : list Q) (q : Q) : Py.result Q :=
  let quant := q / 100 in
  if negb (Qle_bool 0 quant && Qle_bool quant 1) then Py.Raise Py.ValueError
  else
    match a with
    | [] => Py.Raise Py.IndexError
    | _ =>
        let n := Z.of_nat (List.length a) in
        let s := sort a in
        let virtual := inject_Z (n - 1) * quant in
        let above := Qle_bool (inject_Z (n - 1)) virtual in
        let previous := if above then (-1)%Z else Qfloor virtual in
        let next := if above then (-1)%Z else (Qfloor virtual + 1)%Z in
        let at_index (i : Z) : Q :=
          nth (Z.to_nat (if (i <? 0)%Z then n + i else i)%Z) s 0 in
        let gamma := virtual - inject_Z previous in
        Py.Return (lerp (at_index previous) (at_index next) gamma)
    end.

End Np.

(** ** risk-management-service/main.py: the risk statistics *)

Module RiskManagement.
Local Open Scope Q_scope.

(** [calculate_var(returns, confidence_level=0.95)]:
    [np.percentile(returns, (1 - confidence_level) * 100)]. *)
Definition calculate_var (returns : list Q) (confidence_level : Q)
  : Py.result Q :=
  Np.percentile returns ((1 - confidence_level) * 100).

(** [calculate_expected_shortfall]: the mean of the returns at or below
    the VaR; an exception of [calculate_var] propagates. *)
Definition calculate_expected_shortfall
    (returns : list Q) (confidence_level : Q) : Py.result Np.float64 :=
  var ← calculate_var returns confidence_level;
  mret (Np.mean (List.filter (fun r => Qle_bool r var) returns)).

(** [np.array(returns) - risk_free_rate]. *)
Definition excess (returns : list Q) (risk_free_rate : Q) : list Q :=
  List.map (fun r => r - risk_free_rate) returns.

(** [calculate_sharpe_ratio(returns, risk_free_rate=0.0)]:
    [np.mean(excess_returns) / np.std(excess_returns)], no guard. *)
Definition calculate_sharpe_ratio (returns : list Q) (risk_free_rate : Q)
  : Np.float64 :=
  let excess_returns := excess returns risk_free_rate in
  Np.divide (Np.mean excess_returns) (Np.std excess_returns).

(** [calculate_sortino_ratio(returns, risk_free_rate=0.0)]. *)
Definition calculate_sortino_ratio (returns : list Q) (risk_free_rate : Q)
  : Np.float64 :=
  let excess_returns := excess returns risk_free_rate in
  let downside_returns :=
    List.filter (fun x => Np.Qlt_bool x 0) excess_returns in
  if (List.length downside_returns =? 0)%nat then Np.Fin 0
  else Np.divide (Np.mean excess_returns) (Np.std downside_returns).

(** [calculate_max_drawdown(returns)]. *)
Definition calculate_max_drawdown (returns : list Q)
  : Py.result Np.float64 :=
  let cumulative := Np.cumprod (List.map (fun r => 1 + r) returns) in
  let running_max := Np.maximum_accumulate cumulative in
  let drawdown :=
    zip_with (fun c m => Np.divide (Np.Fin (c - m)) (Np.Fin m))
             cumulative running_max in
  Np.min drawdown.

End RiskManagement.

(** ** The drawdown pipeline on binary64 numbers

    The same steps as [RiskManagement.calculate_max_drawdown], on the
    binary64 numbers of the kernel instead of rationals: every product,
    difference and quotient is rounded, and a product above the range
    is [infinity].  It is used to evaluate the code where the range of
    the numbers decides. *)

Module Binary64.
Local Open Scope float_scope.

(** [np.maximum] and [np.minimum] on two scalars: a [nan] wins. *)
Definition maximum (a b : float) : float :=
  if orb (b <=? a) (is_nan a) then a else b.

Definition minimum (a b : float) : float :=
  if orb (a <=? b) (is_nan a) then a else b.

Fixpoint cumprod_from (acc : float) (a : list float) : list float :=
  match a with
  | [] => []
  | x :: rest => let acc' := acc * x in acc' :: cumprod_from acc' rest
  end.

Definition cumprod (a : list float) : list float :=
  match a with
  | [] => []
  | x :: rest => x :: cumprod_from x rest
  end.

Fixpoint maximum_accumulate_from (acc : float) (a : list float)
  : list float :=
  match a with
  | [] => []
  | x :: rest =>
      let acc' := maximum acc x in acc' :: maximum_accumulate_from acc' rest
  end.

Definition maximum_accumulate (a : list float) : list float :=
  match a with
  | [] => []
  | x :: rest => x :: maximum_accumulate_from x rest
  end.

Definition min (a : list float) : Py.result float :=
  match a with
  | [] => Py.Raise Py.ValueError
  | x :: rest => Py.Return (fold_left minimum rest x)
  end.

(** [calculate_max_drawdown(returns)]. *)
Definition calculate_max_drawdown (returns : list float)
  : Py.result float :=
  let cumulative := cumprod (List.map (fun r => 1 + r) returns) in
  let running_max := maximum_accumulate cumulative in
  let drawdown :=
    zip_with (fun c m => (c - m) / m) cumulative running_max in
  min drawdown.

End Binary64.

(** ** The statistics as the design document words them *)

Module RiskSpec.
Local Open Scope Q_scope.

(** Percentile by linear interpolation between ranks: with the values in
    ascending order [x_0 <= ... <= x_(n-1)], the [p]-th percentile sits at
    rank [h = (n-1) * p / 100] and is
    [x_floor(h) + (h - floor(h)) * (x_ceil(h) - x_floor(h))]. *)
Definition percentile_linear (xs : list Q) (p : Q) : Q :=
  let s := Np.sort xs in
  let h := inject_Z (Z.of_nat (List.length xs) - 1) * (p / 100) in
  let lo := nth (Z.to_nat (Qfloor h)) s 0 in
  let hi := nth (Z.to_nat (Qceiling h)) s 0 in
  lo + (h - inject_Z (Qfloor h)) * (hi - lo).

(** Ascending order: every element is at most each later one. *)
Inductive ascending : list Q -> Prop :=
| ascending_nil : ascending []
| ascending_cons x l :
    Forall (fun y => x <= y) l -> ascending l -> ascending (x :: l).

(** Excess returns, and the negative ones among them. *)
Definition excess_returns (returns : list Q) (risk_free_rate : Q) : list Q :=
  List.map (fun r => r - risk_free_rate) returns.

Definition negative_excess_returns (returns : list Q) (risk_free_rate : Q)
  : list Q :=
  List.filter (fun x => Np.Qlt_bool x 0)
    (excess_returns returns risk_free_rate).


(** The cumulative product of [(1 + r)] up to and including period [i]. *)
Definition cumulative_at (returns : list Q) (i : nat) : Q :=
  fold_right (fun r acc => (1 + r) * acc) 1 (firstn (S i) returns).

(** The running maximum of the cumulative product up to period [i]. *)
Fixpoint running_max_at (returns : list Q) (i : nat) : Q :=
  match i with
  | O => cumulative_at returns O
  | S j => Qmax (running_max_at returns j) (cumulative_at returns i)
  end.

Definition drawdown_at (returns : list Q) (i : nat) : Q :=
  (cumulative_at returns i - running_max_at returns i)
  / running_max_at returns i.

(** The minimum of the drawdown over the periods [0 .. k]. *)
Fixpoint min_drawdown_upto (returns : list Q) (k : nat) : Q :=
  match k with
  | O => drawdown_at returns O
  | S j => Qmin (min_drawdown_upto returns j) (drawdown_at returns k)
  end.

Definition max_drawdown (returns : list Q) : Q :=
  min_drawdown_upto returns (List.length returns - 1).

(** *** Ranks, means and deviations, stated on the series itself

    None of the following goes through an array routine of the code:
    a rank is told by counting, a mean by the sum it has to reproduce,
    a root by its square. *)

(** How many of the values are below [x], and how many at most [x]. *)
Fixpoint count_below (xs : list Q) (x : Q) : nat :=
  match xs with
  | [] => O
  | y :: rest =>
      (if Qle_bool x y then O else 1%nat) + count_below rest x
  end.

Fixpoint count_at_most (xs : list Q) (x : Q) : nat :=
  match xs with
  | [] => O
  | y :: rest =>
      (if Qle_bool y x then 1%nat else O) + count_at_most rest x
  end.

(** [x] is the value of rank [k] (counted from 0) of [xs]: a value of
    the series with at most [k] values below it and more than [k]
    values at or below it. *)
Definition has_rank (xs : list Q) (k : nat) (x : Q) : Prop :=
  In x xs /\ (count_below xs x <= k < count_at_most xs x)%nat.

(** [v] is the [p]-th percentile of [xs] by linear interpolation
    between ranks: with [h = (n - 1) * p / 100], the value of rank
    [floor h] plus the fractional part of [h] times the step to the
    value of rank [ceil h]. *)
Definition is_percentile (xs : list Q) (p v : Q) : Prop :=
  let h := inject_Z (Z.of_nat (List.length xs) - 1) * (p / 100) in
  exists lo hi,
    has_rank xs (Z.to_nat (Qfloor h)) lo
    /\ has_rank xs (Z.to_nat (Qceiling h)) hi
    /\ v == lo + (h - inject_Z (Qfloor h)) * (hi - lo).










(** The running product of [(1 + r)] stays within [2^1023].  A product
    below this bound is a finite binary64 number also after the
    rounding of every step (the largest one is [(2 - 2^-52) * 2^1023]);
    above the range the arithmetic of the code gives [inf]. *)
Definition float_bound : Q := inject_Z (2 ^ 1023).

Definition in_float_range (returns : list Q) : Prop :=
  forall i, (i < List.length returns)%nat ->
    cumulative_at returns i <= float_bound.

End RiskSpec.

(** ** Effects: state that survives an exception

    A method that mutates its object or the outside world and may raise is
    a function from the state before the call to its outcome and the state
    after it.  What was written before an exception stays written. *)

Module Eff.

Definition M (S A : Type) : Type := S -> Py.result A * S.

Definition ret {S A} (a : A) : M S A := fun s => (Py.Return a, s).

Definition bind {S A B} (m : M S A) (k : A -> M S B) : M S B :=
  fun s =>
    match m s with
    | (Py.Return a, s') => k a s'
    | (Py.Raise e, s') => (Py.Raise e, s')
    end.

Definition raise {S A} (e : Py.exn) : M S A := fun s => (Py.Raise e, s).

Definition lift {S A} (r : Py.result A) : M S A := fun s => (r, s).

Definition modify {S} (f : S -> S) : M S unit :=
  fun s => (Py.Return tt, f s).

Definition gets {S A} (f : S -> A) : M S A := fun s => (Py.Return (f s), s).

(** [try: body / except Exception as e: handler e]. *)
Definition try_except {S A} (body : M S A) (handler : Py.exn -> M S A)
  : M S A :=
  fun s =>
    match body s with
    | (Py.Return a, s') => (Py.Return a, s')
    | (Py.Raise e, s') => handler e s'
    end.

End Eff.

#[global] Instance eff_ret {S} : MRet (Eff.M S) := @Eff.ret S.
#[global] Instance eff_bind {S} : MBind (Eff.M S) :=
  fun A B k m => Eff.bind m k.

(** Log records: the level and the call site that wrote them. *)
Inductive log_level : Type := INFO | WARNING | ERROR.

Definition log_record : Type := (log_level * string)%type.

(** ** monitoring-services/alert_sender.py *)

Module AlertSender.

(** The two notification channels. *)
Inductive channel : Type := Email | Slack.

(** What left the process: the channel and the template it used.  Of the
    [data] dict only the keys decide what a send does, so [data] is the
    list of its keys. *)
Definition delivery : Type := (channel * string)%type.

(** The settings read from the environment in [__init__]; [os.getenv]
    gives [None] for an unset variable. *)
Record sender : Type := {
  smtp_user : option string;
  smtp_password : option string;
  smtp_from : option string;
  smtp_to : option string;
  slack_webhook_url : option string
}.

(** The outside world of one call: whether the SMTP session and the
    webhook request go through. *)
Record network : Type := {
  smtp_delivers : bool;
  webhook_delivers : bool
}.

Record state : Type := {
  outbox : list delivery;
  log : list log_record
}.

Definition logger (lvl : log_level) (site : string) : Eff.M state unit :=
  Eff.modify (fun st =>
    {| outbox := outbox st; log := log st ++ [(lvl, site)] |}).

Definition deliver (c : channel) (template : string) : Eff.M state unit :=
  Eff.modify (fun st =>
    {| outbox := outbox st ++ [(c, template)]; log := log st |}).

(** Truth value of an optional string: [None] and [''] are false. *)
Definition truthy (v : option string) : bool :=
  match v with
  | Some s => negb (String.eqb s "")
  | None => false
  end.

(** [self.templates]: the placeholders of each template besides
    [timestamp], which the sender supplies itself. *)
Definition templates (template : string) : option (list string) :=
  if String.eqb template "service_down"
  then Some ["service_name"; "details"]
  else if String.eqb template "high_resource"
  then Some ["resource_type"; "usage"; "threshold"]
  else None.

Definition mem (k : string) (keys : list string) : bool :=
  existsb (String.eqb k) keys.

(** [text.format(timestamp=..., **data)] for a known template:
    [TypeError] when [data] repeats the keyword [timestamp], [KeyError]
    when a placeholder has no entry in [data]. *)
Definition format (placeholders data : list string) : Py.result unit :=
  if mem "timestamp" data then Py.Raise Py.TypeError
  else if forallb (fun k => mem k data) placeholders then Py.Return tt
  else Py.Raise Py.KeyError.

(** The body of a send after the settings check: look the template up,
    format it, hand it to the transport. *)
Definition render_and_transmit (template : string) (data : list string)
    (delivers : bool) : Py.result unit :=
  match templates template with
  | None => Py.Raise Py.KeyError
  | Some placeholders =>
      _ ← format placeholders data;
      if delivers then Py.Return tt else Py.Raise Py.OSError
  end.

(** [send_email(template, data) -> bool]. *)
Definition send_email (self : sender) (net : network)
    (template : string) (data : list string) : Eff.M state bool :=
  if negb (truthy (smtp_user self) && truthy (smtp_password self)
           && truthy (smtp_from self) && truthy (smtp_to self))
  then _ ← logger ERROR "send_email: incomplete settings"; mret false
  else
    Eff.try_except
      (_ ← Eff.lift (render_and_transmit template data (smtp_delivers net));
       _ ← deliver Email template;
       _ ← logger INFO "send_email: sent";
       mret true)
      (fun _ => _ ← logger ERROR "send_email: failed"; mret false).

(** [send_slack(template, data) -> bool]. *)
Definition send_slack (self : sender) (net : network)
    (template : string) (data : list string) : Eff.M state bool :=
  if negb (truthy (slack_webhook_url self))
  then _ ← logger ERROR "send_slack: no webhook"; mret false
  else
    Eff.try_except
      (_ ← Eff.lift
             (render_and_transmit template data (webhook_delivers net));
       _ ← deliver Slack template;
       _ ← logger INFO "send_slack: sent";
       mret true)
      (fun _ => _ ← logger ERROR "send_slack: failed"; mret false).

(** [send_alert(alert_type, data) -> None]. *)
Definition send_alert (self : sender) (net : network)
    (alert_type : string) (data : list string) : Eff.M state unit :=
  match templates alert_type with
  | None => logger ERROR "send_alert: unknown alert type"
  | Some _ =>
      email_sent ← send_email self net alert_type data;
      slack_sent ← send_slack self net alert_type data;
      if negb email_sent && negb slack_sent
      then logger ERROR "send_alert: all sends failed"
      else mret tt
  end.

(** [send_service_down_alert(service_name, details)]. *)
Definition send_service_down_alert (self : sender) (net : network)
  : Eff.M state unit :=
  send_alert self net "service_down" ["service_name"; "details"].

(** [send_resource_alert(resource_type, usage, threshold)]. *)
Definition send_resource_alert (self : sender) (net : network)
  : Eff.M state unit :=
  send_alert self net "high_resource" ["resource_type"; "usage"; "threshold"].

End AlertSender.

(** ** monitoring-services/alert_manager.py *)

Module AlertManager.
Local Open Scope Q_scope.

(** [self.thresholds] is a dict from the metric name to its limit;
    [__init__] fills the keys [cpu], [memory] and [disk]. *)
Abbreviation thresholds := (gmap string Q) (only parsing).

Definition __init__ (cpu memory disk : Q) : thresholds :=
  <["cpu" := cpu]> (<["memory" := memory]> (<["disk" := disk]> ∅)).

(** A candidate alert: the type, the measured value and the threshold
    (the message is the fixed template of its type rendered with these
    two numbers). *)
Record alert : Type := {
  type : string;
  value : Q;
  threshold : Q
}.

(** [metrics[key]] on a dict: [KeyError] for a missing key. *)
Definition getitem (metrics : gmap string Q) (key : string) : Py.result Q :=
  match metrics !! key with
  | Some v => Py.Return v
  | None => Py.Raise Py.KeyError
  end.

(** [if value > threshold: alerts.append({...})]. *)
Definition append_if_exceeds (alerts : list alert) (name : string)
    (v limit : Q) : list alert :=
  if Np.Qlt_bool limit v
  then alerts ++ [{| type := name; value := v; threshold := limit |}]
  else alerts.

(** One [if metrics[name] > self.thresholds[name]: alerts.append(...)]. *)
Definition check_one (self : thresholds) (metrics : gmap string Q)
    (name : string) (alerts : list alert) : Py.result (list alert) :=
  v ← getitem metrics name;
  limit ← getitem self name;
  mret (append_if_exceeds alerts name v limit).

(** [check_thresholds(metrics)]. *)
Definition check_thresholds (self : thresholds) (metrics : gmap string Q)
  : Py.result (list alert) :=
  alerts ← check_one self metrics "cpu" [];
  alerts ← check_one self metrics "memory" alerts;
  alerts ← check_one self metrics "disk" alerts;
  mret alerts.

End AlertManager.

(** ** monitoring-services/app/alert_manager.py *)

Module App.
Local Open Scope Q_scope.

(** The attributes of the configuration row that the manager reads. *)
Record AlertConfig : Type := {
  enabled : bool;
  email_enabled : bool;
  slack_enabled : bool;
  email_recipients : option string;
  cpu_threshold : Q;
  memory_threshold : Q;
  disk_threshold : Q;
  network_in_threshold : Q;
  network_out_threshold : Q
}.

(** The alert dict handed to [_send_alert]: [check_metrics] fills
    [type], [value] and [threshold]; [check_service_status] fills
    [type] and [service_name]. *)
Record alert : Type := {
  type : string;
  service_name : option string;
  value : option Q;
  threshold : option Q
}.

(** A call on [self.alert_sender]. *)
Inductive sender_call : Type :=
| send_service_down_alert (name : string)
| send_resource_alert (resource_type : string) (usage limit : Q).

(** A notification that went out. *)
Inductive notification : Type :=
| via_sender (c : sender_call)
| email_alert (alert_type severity message : string)
| slack_alert (alert_type severity message : string).

(** A committed row of [alert_history]. *)
Record AlertHistory : Type := {
  h_alert_type : string;
  h_severity : string;
  h_message : string
}.

(** The collaborators of one call.  [alert_sender] stands for the
    [AlertSender] of [app/alert_sender.py]: what a call on it does is an
    input of the model. *)
Record env : Type := {
  session : bool;
  first_config : Py.result (option AlertConfig);
  commit : bool;
  alert_sender : sender_call -> Py.result unit;
  smtp : bool;
  slack_webhook_url : option string;
  webhook : bool
}.

(** The manager ([cooldown_period], [last_alert_time]) and what it
    leaves outside itself. *)
Record state : Type := {
  cooldown_period : Z;
  last_alert_time : gmap string Q;
  sent : list notification;
  alert_history : list AlertHistory;
  log : list log_record
}.

Definition M : Type -> Type := Eff.M state.

Definition logger (lvl : log_level) (site : string) : M unit :=
  Eff.modify (fun st =>
    {| cooldown_period := cooldown_period st;
       last_alert_time := last_alert_time st;
       sent := sent st;
       alert_history := alert_history st;
       log := log st ++ [(lvl, site)] |}).

Definition notify (n : notification) : M unit :=
  Eff.modify (fun st =>
    {| cooldown_period := cooldown_period st;
       last_alert_time := last_alert_time st;
       sent := sent st ++ [n];
       alert_history := alert_history st;
       log := log st |}).

Definition add_history (h : AlertHistory) : M unit :=
  Eff.modify (fun st =>
    {| cooldown_period := cooldown_period st;
       last_alert_time := last_alert_time st;
       sent := sent st;
       alert_history := alert_history st ++ [h];
       log := log st |}).

(** [self.last_alert_time[key] = t]. *)
Definition set_last_alert_time (key : string) (t : Q) : M unit :=
  Eff.modify (fun st =>
    {| cooldown_period := cooldown_period st;
       last_alert_time := <[key := t]> (last_alert_time st);
       sent := sent st;
       alert_history := alert_history st;
       log := log st |}).

Definition default_thresholds : AlertConfig :=
  {| enabled := true; email_enabled := true; slack_enabled := true;
     email_recipients := None;
     cpu_threshold := 80; memory_threshold := 85; disk_threshold := 90;
     network_in_threshold := 1000000000;
     network_out_threshold := 1000000000 |}.

(** [d[key]] on a dict entry that may be absent. *)
Definition getitem {A} (entry : option A) : Py.result A :=
  match entry with
  | Some v => Py.Return v
  | None => Py.Raise Py.KeyError
  end.

(** [_get_alert_config()].  When no session is obtained, [db] is never
    bound and the [finally] clause raises on [if db:]. *)
Definition _get_alert_config (e : env) : M (option AlertConfig) :=
  if session e then
    match first_config e with
    | Py.Return row => mret row
    | Py.Raise _ => _ ← logger ERROR "_get_alert_config"; mret None
    end
  else _ ← logger ERROR "_get_alert_config"; Eff.raise Py.UnboundLocalError.

(** [_create_default_config()]. *)
Definition _create_default_config (e : env) : M AlertConfig :=
  if session e then
    if commit e then mret default_thresholds
    else _ ← logger ERROR "_create_default_config";
         Eff.raise Py.DatabaseError
  else _ ← logger ERROR "_create_default_config";
       Eff.raise Py.UnboundLocalError.

(** The class body binds [_save_alert_history] twice: first with the
    parameter [(alert)], later with [(alert_type, severity, message)].
    The later binding is the method of the class; a call is either of
    the two shapes the file contains. *)
Inductive arguments : Type :=
| positional1 (a : alert)
| positional3 (alert_type severity message : string).

(** [_save_alert_history(alert_type, severity, message)]: a call with a
    single argument leaves two required parameters unfilled. *)
Definition _save_alert_history (e : env) (args : arguments) : M unit :=
  match args with
  | positional1 _ => Eff.raise Py.TypeError
  | positional3 alert_type severity message =>
      if session e then
        if commit e then
          add_history {| h_alert_type := alert_type;
                         h_severity := severity;
                         h_message := message |}
        else logger ERROR "_save_alert_history"
      else _ ← logger ERROR "_save_alert_history";
           Eff.raise Py.UnboundLocalError
  end.

(** [_check_cooldown(alert_type)]; [now] is the reading of
    [time.time()]. *)
Definition _check_cooldown (now : Q) (alert_type : string) : M bool :=
  Eff.gets (fun st =>
    match last_alert_time st !! alert_type with
    | None => true
    | Some last => Qle_bool (inject_Z (cooldown_period st)) (now - last)
    end).

Definition call_sender (e : env) (c : sender_call) : M unit :=
  _ ← Eff.lift (alert_sender e c);
  notify (via_sender c).

(** The key [f"{alert['type']}_{alert.get('service_name', '')}"]. *)
Definition alert_key (a : alert) : string :=
  (type a ++ "_" ++ default "" (service_name a))%string.

(** [_send_alert(alert)]; [now] is the reading of [time.time()] in the
    cooldown test, [later] the reading stored at the end. *)
Definition _send_alert (e : env) (now later : Q) (a : alert) : M unit :=
  Eff.try_except
    (st ← Eff.gets id;
     let in_cooldown :=
       match last_alert_time st !! alert_key a with
       | Some last =>
           Np.Qlt_bool (now - last) (inject_Z (cooldown_period st))
       | None => false
       end in
     if in_cooldown then mret tt
     else
       _ ← (if String.eqb (type a) "service_down"
            then name ← Eff.lift (getitem (service_name a));
                 call_sender e (send_service_down_alert name)
            else v ← Eff.lift (getitem (value a));
                 t ← Eff.lift (getitem (threshold a));
                 call_sender e (send_resource_alert (type a) v t));
       _ ← _save_alert_history e (positional1 a);
       set_last_alert_time (alert_key a) later)
    (fun _ => logger ERROR "_send_alert").

(** [_send_email_alert]: everything sits inside one [try]. *)
Definition _send_email_alert (e : env)
    (alert_type severity message : string) (recipients : option string)
  : M unit :=
  match recipients with
  | None => logger ERROR "_send_email_alert"
  | Some _ =>
      if smtp e then
        _ ← notify (email_alert alert_type severity message);
        logger INFO "_send_email_alert"
      else logger ERROR "_send_email_alert"
  end.

(** [_send_slack_alert]. *)
Definition _send_slack_alert (e : env)
    (alert_type severity message : string) : M unit :=
  if negb (AlertSender.truthy (slack_webhook_url e))
  then logger WARNING "_send_slack_alert"
  else if webhook e then
    _ ← notify (slack_alert alert_type severity message);
    logger INFO "_send_slack_alert"
  else logger ERROR "_send_slack_alert".

(** [send_alert(alert_type, severity, message)]. *)
Definition send_alert (e : env) (now later : Q)
    (alert_type severity message : string) : M unit :=
  Eff.try_except
    (allowed ← _check_cooldown now alert_type;
     if negb allowed then logger INFO "send_alert: cooldown"
     else
       alert_config ← _get_alert_config e;
       match alert_config with
       | None => logger WARNING "send_alert: no config"
       | Some c =>
           if negb (enabled c) then logger INFO "send_alert: disabled"
           else
             _ ← (if email_enabled c
                  then _send_email_alert e alert_type severity message
                         (email_recipients c)
                  else mret tt);
             _ ← (if slack_enabled c
                  then _send_slack_alert e alert_type severity message
                  else mret tt);
             _ ← _save_alert_history e
                   (positional3 alert_type severity message);
             set_last_alert_time alert_type later
       end)
    (fun _ => logger ERROR "send_alert").

(** The candidates of [check_metrics]: one per metric above its
    threshold, in the order cpu, memory, disk, network in, network out. *)
Definition exceeds (alerts : list alert) (name : string) (v limit : Q)
  : list alert :=
  if Np.Qlt_bool limit v
  then alerts ++ [{| type := name; service_name := None;
                     value := Some v; threshold := Some limit |}]
  else alerts.

(** The attribute of the configuration that [check_metrics] compares
    each metric with. *)
Definition limit_for (c : AlertConfig) (name : string) : option Q :=
  if String.eqb name "cpu_usage" then Some (cpu_threshold c)
  else if String.eqb name "memory_usage" then Some (memory_threshold c)
  else if String.eqb name "disk_usage" then Some (disk_threshold c)
  else if String.eqb name "network_in" then Some (network_in_threshold c)
  else if String.eqb name "network_out" then Some (network_out_threshold c)
  else None.

Definition candidates (c : AlertConfig) (metrics : gmap string Q)
  : Py.result (list alert) :=
  let alerts := [] in
  v ← AlertManager.getitem metrics "cpu_usage";
  let alerts := exceeds alerts "cpu_usage" v (cpu_threshold c) in
  v ← AlertManager.getitem metrics "memory_usage";
  let alerts := exceeds alerts "memory_usage" v (memory_threshold c) in
  v ← AlertManager.getitem metrics "disk_usage";
  let alerts := exceeds alerts "disk_usage" v (disk_threshold c) in
  v ← AlertManager.getitem metrics "network_in";
  let alerts := exceeds alerts "network_in" v (network_in_threshold c) in
  v ← AlertManager.getitem metrics "network_out";
  let alerts := exceeds alerts "network_out" v (network_out_threshold c) in
  mret alerts.

(** [for alert in alerts: self._send_alert(alert)]; [clock i] gives the
    two readings of [time.time()] while the [i]-th alert is handled. *)
Fixpoint send_all (e : env) (clock : nat -> Q * Q) (i : nat)
    (alerts : list alert) : M unit :=
  match alerts with
  | [] => mret tt
  | a :: rest =>
      _ ← _send_alert e (fst (clock i)) (snd (clock i)) a;
      send_all e clock (S i) rest
  end.

(** [check_metrics(metrics)]. *)
Definition check_metrics (e : env) (clock : nat -> Q * Q)
    (metrics : gmap string Q) : M unit :=
  Eff.try_except
    (stored ← _get_alert_config e;
     alert_config ← match stored with
                    | Some c => mret c
                    | None => _create_default_config e
                    end;
     alerts ← Eff.lift (candidates alert_config metrics);
     send_all e clock 0 alerts)
    (fun _ => logger ERROR "check_metrics").

(** [check_service_status(service_name, is_healthy)]. *)
Definition check_service_status (e : env) (now later : Q)
    (name : string) (is_healthy : bool) : M unit :=
  Eff.try_except
    (if negb is_healthy
     then _send_alert e now later
            {| type := "service_down"; service_name := Some name;
               value := None; threshold := None |}
     else mret tt)
    (fun _ => logger ERROR "check_service_status").

(** A run of threshold breaches through [_send_alert], one per entry:
    the two clock readings and the alert. *)
Fixpoint breaches (e : env) (events : list (Q * Q * alert)) : M unit :=
  match events with
  | [] => mret tt
  | (now, later, a) :: rest =>
      _ ← _send_alert e now later a;
      breaches e rest
  end.

End App.

(** ** The resolve handlers

    A table is a finite map from the primary key to the row;
    [query.filter(id == k).first()] is the lookup, assigning to an
    attribute of the row and [db.commit()] is the insertion of the changed
    row.  [now] is the reading of [datetime.utcnow()].  The session the
    handler is given may fail at the query, at the commit or at the
    refresh. *)

Module Db.

(** What the database does during one request: whether the query, the
    commit and the refresh go through, and the text of the exception
    the driver raises when one does not. *)
Record session : Type := {
  query_works : bool;
  commit_works : bool;
  refresh_works : bool;
  message : string
}.

Definition working : session :=
  {| query_works := true; commit_works := true; refresh_works := true;
     message := "" |}.

(** [db.query(Model).filter(...).first()]. *)
Definition first {T A} (db : session) (read : T -> A) : Eff.M T A :=
  if query_works db then Eff.gets read else Eff.raise Py.DatabaseError.

(** [db.commit()] with the pending change [write]: the change reaches
    the table only when the commit goes through. *)
Definition commit {T} (db : session) (write : T -> T) : Eff.M T unit :=
  if commit_works db then Eff.modify write
  else Eff.raise Py.DatabaseError.

(** [db.refresh(row)]. *)
Definition refresh {T} (db : session) : Eff.M T unit :=
  if refresh_works db then Eff.ret tt else Eff.raise Py.DatabaseError.

(** [str(e)] of an exception met by a handler. *)
Definition str (db : session) (e : Py.exn) : string :=
  match e with
  | Py.HTTPException code detail => (pretty code ++ ": " ++ detail)%string
  | _ => message db
  end.

End Db.

(** *** risk-management-service/main.py *)

Module RiskAlerts.

Record RiskAlert : Type := {
  user_id : Z;
  alert_type : string;
  severity : string;
  message : string;
  created_at : Q;
  resolved_at : option Q
}.

Abbreviation table := (gmap Z RiskAlert) (only parsing).

Definition set_resolved_at (a : RiskAlert) (t : Q) : RiskAlert :=
  {| user_id := user_id a; alert_type := alert_type a;
     severity := severity a; message := message a;
     created_at := created_at a; resolved_at := Some t |}.

(** [PUT /risk-alerts/{alert_id}/resolve].  The 404 is raised inside
    the [try], like a failure of the query or of the commit, and the
    [except Exception] clause turns each of them into a 500. *)
Definition resolve_alert (db : Db.session) (now : Q) (alert_id : Z)
  : Eff.M table RiskAlert :=
  Eff.try_except
    (alert ← Db.first db (fun t : table => t !! alert_id);
     match alert with
     | None => Eff.raise (Py.HTTPException 404 "Alert not found")
     | Some a =>
         let a' := set_resolved_at a now in
         _ ← Db.commit db (fun t : table => <[alert_id := a']> t);
         mret a'
     end)
    (fun _ => Eff.raise (Py.HTTPException 500 "Failed to resolve alert")).

End RiskAlerts.

(** *** monitoring-services/main.py *)

Module Monitoring.

Record Alert : Type := {
  service : string;
  severity : string;
  message : string;
  timestamp : Q;
  resolved : bool
}.

Abbreviation table := (gmap Z Alert) (only parsing).

Definition set_resolved (a : Alert) : Alert :=
  {| service := service a; severity := severity a; message := message a;
     timestamp := timestamp a; resolved := true |}.

(** [PUT /alerts/{alert_id}/resolve]: the answer is the message.  The
    404, a failing query and a failing commit all leave through the
    [except Exception] clause as a 500 that carries [str(e)]. *)
Definition resolve_alert (db : Db.session) (alert_id : Z)
  : Eff.M table string :=
  Eff.try_except
    (alert ← Db.first db (fun t : table => t !! alert_id);
     match alert with
     | Some a =>
         _ ← Db.commit db (fun t : table => <[alert_id := set_resolved a]> t);
         mret ("Alert " ++ pretty alert_id ++ " resolved")%string
     | None => Eff.raise (Py.HTTPException 404 "Alert not found")
     end)
    (fun e => Eff.raise (Py.HTTPException 500 (Db.str db e))).

End Monitoring.

(** *** monitoring-services/app/api.py *)

Module AppApi.

Record AlertHistory : Type := {
  alert_type : string;
  severity : string;
  message : string;
  timestamp : Q;
  resolved : bool;
  resolved_at : option Q;
  resolved_by : option string
}.

Abbreviation table := (gmap Z AlertHistory) (only parsing).

Definition resolve_row (h : AlertHistory) (who : string) (t : Q)
  : AlertHistory :=
  {| alert_type := alert_type h; severity := severity h;
     message := message h; timestamp := timestamp h;
     resolved := true; resolved_at := Some t; resolved_by := Some who |}.

(** [PUT /alerts/history/{history_id}/resolve?resolved_by=...].  Here
    the query and the 404 come before the [try]: a failing query leaves
    as the driver's exception, a missing row as the 404.  The [try]
    holds the commit and the refresh; its [except] rolls back and
    raises a 500 that carries [str(e)].  A commit that went through is
    not undone by the rollback after a failing refresh. *)
Definition resolve_alert (db : Db.session) (now : Q) (history_id : Z)
    (who : string) : Eff.M table AlertHistory :=
  db_history ← Db.first db (fun t : table => t !! history_id);
  match db_history with
  | None =>
      Eff.raise (Py.HTTPException 404 "알림 이력을 찾을 수 없습니다.")
  | Some h =>
      Eff.try_except
        (let h' := resolve_row h who now in
         _ ← Db.commit db (fun t : table => <[history_id := h']> t);
         _ ← Db.refresh db;
         mret h')
        (fun e => Eff.raise (Py.HTTPException 500 (Db.str db e)))
  end.

End AppApi.

(** ** Statements and sample inputs *)

Module ThresholdSpec.
Local Open Scope Q_scope.

(** An alert of [check_thresholds] carries the measured value and the
    limit of its metric, and the value is above the limit. *)
Definition breach (self : AlertManager.thresholds) (metrics : gmap string Q)
    (a : AlertManager.alert) : Prop :=
  metrics !! AlertManager.type a = Some (AlertManager.value a)
  /\ self !! AlertManager.type a = Some (AlertManager.threshold a)
  /\ AlertManager.threshold a < AlertManager.value a.

(** The same for a candidate of [check_metrics]. *)
Definition app_breach (c : App.AlertConfig) (metrics : gmap string Q)
    (a : App.alert) : Prop :=
  exists v limit,
    App.value a = Some v /\ App.threshold a = Some limit
    /\ metrics !! App.type a = Some v
    /\ App.limit_for c (App.type a) = Some limit
    /\ limit < v.

End ThresholdSpec.

Module SampleSeries.
Local Open Scope Q_scope.

(** [0.01, -0.02, 0.03, -0.01, 0.04] *)
Definition reference : list Q :=
  [1 # 100; - (2 # 100); 3 # 100; - (1 # 100); 4 # 100].

(** [0.1, -0.5, 0.1] *)
Definition dip : list Q := [1 # 10; - (5 # 10); 1 # 10].

(** [0.1, 0.5, 0.1] *)
Definition rising : list Q := [1 # 10; 5 # 10; 1 # 10].

End SampleSeries.

Module ThresholdSample.
Local Open Scope Q_scope.

Definition self : gmap string Q := AlertManager.__init__ 80 85 90.

Definition metrics : gmap string Q :=
  <["cpu" := 80]> (<["memory" := 90]> (<["disk" := 10]> ∅)).

Definition metrics' : gmap string Q :=
  <["cpu_usage" := 80]> (<["memory_usage" := 90]> (<["disk_usage" := 10]>
    (<["network_in" := 5]> (<["network_out" := 1000000001]> ∅)))).

Definition alerts : list AlertManager.alert :=
  [ {| AlertManager.type := "memory"; AlertManager.value := 90;
       AlertManager.threshold := 85 |} ].

Definition alerts' : list App.alert :=
  [ {| App.type := "memory_usage"; App.service_name := None;
       App.value := Some 90; App.threshold := Some 85 |};
    {| App.type := "network_out"; App.service_name := None;
       App.value := Some 1000000001; App.threshold := Some 1000000000 |} ].

End ThresholdSample.

Module CooldownSample.
Local Open Scope Q_scope.

(** Collaborators that all work: a session, an enabled configuration
    row, commits, a sender that returns, both transports. *)
Definition working : App.env :=
  {| App.session := true;
     App.first_config :=
       Py.Return (Some
         {| App.enabled := true; App.email_enabled := true;
            App.slack_enabled := true;
            App.email_recipients := Some "ops@example.org";
            App.cpu_threshold := 80; App.memory_threshold := 85;
            App.disk_threshold := 90;
            App.network_in_threshold := 1000000000;
            App.network_out_threshold := 1000000000 |});
     App.commit := true;
     App.alert_sender := fun _ => Py.Return tt;
     App.smtp := true;
     App.slack_webhook_url := Some "https://hooks.example.org/T";
     App.webhook := true |}.

(** [AlertManager(cooldown_period=300)] before any alert. *)
Definition fresh : App.state :=
  {| App.cooldown_period := 300;
     App.last_alert_time := ∅;
     App.sent := [];
     App.alert_history := [];
     App.log := [] |}.

(** The same manager with [last_alert_time["cpu_usage_"] = 0]. *)
Definition fired_at_zero : App.state :=
  {| App.cooldown_period := 300;
     App.last_alert_time := <["cpu_usage_" := 0]> ∅;
     App.sent := [];
     App.alert_history := [];
     App.log := [] |}.

(** A CPU reading of 85 against the threshold 80. *)
Definition cpu_breach : App.alert :=
  {| App.type := "cpu_usage"; App.service_name := None;
     App.value := Some 85; App.threshold := Some 80 |}.

Definition cpu_notification : App.notification :=
  App.via_sender (App.send_resource_alert "cpu_usage" 85 80).

End CooldownSample.

(** ** Dispatch: what the design document asks of the result *)

Module DispatchSpec.

Inductive outcome : Type := Success | AllChannelsFailed.

(** Whether at least one of the two channel sends of a dispatch
    reports success. *)
Definition some_channel_succeeds (self : AlertSender.sender)
    (net : AlertSender.network) (alert_type : string) (data : list string)
    (st : AlertSender.state) : bool :=
  let '(email_sent, st1) := AlertSender.send_email self net alert_type data st in
  let '(slack_sent, _) := AlertSender.send_slack self net alert_type data st1 in
  match email_sent, slack_sent with
  | Py.Return false, Py.Return false => false
  | _, _ => true
  end.

(** The result of a dispatch is surfaced when the caller can read from
    what [send_alert] hands back whether some channel went through. *)
Definition result_surfaced : Prop :=
  exists read : Py.result unit -> outcome,
    forall self net alert_type data st,
      read (fst (AlertSender.send_alert self net alert_type data st))
      = if some_channel_succeeds self net alert_type data st
        then Success else AllChannelsFailed.

Definition add_log (st : AlertSender.state) (r : log_record)
  : AlertSender.state :=
  {| AlertSender.outbox := AlertSender.outbox st;
     AlertSender.log := AlertSender.log st ++ [r] |}.

End DispatchSpec.

Module DispatchSample.

Definition configured : AlertSender.sender :=
  {| AlertSender.smtp_user := Some "monitor";
     AlertSender.smtp_password := Some "secret";
     AlertSender.smtp_from := Some "monitor@example.org";
     AlertSender.smtp_to := Some "ops@example.org";
     AlertSender.slack_webhook_url := Some "https://hooks.example.org/T" |}.

Definition both_down : AlertSender.network :=
  {| AlertSender.smtp_delivers := false;
     AlertSender.webhook_delivers := false |}.

Definition slack_only : AlertSender.network :=
  {| AlertSender.smtp_delivers := false;
     AlertSender.webhook_delivers := true |}.

Definition quiet : AlertSender.state :=
  {| AlertSender.outbox := []; AlertSender.log := [] |}.

Definition resource_data : list string :=
  ["resource_type"; "usage"; "threshold"].

End DispatchSample.

Module ResolveSample.
Local Open Scope Q_scope.

Definition drawdown_alert : RiskAlerts.RiskAlert :=
  {| RiskAlerts.user_id := 7; RiskAlerts.alert_type := "drawdown";
     RiskAlerts.severity := "high";
     RiskAlerts.message := "Maximum drawdown exceeded";
     RiskAlerts.created_at := 0; RiskAlerts.resolved_at := None |}.

Definition risk_alerts : gmap Z RiskAlerts.RiskAlert :=
  <[1%Z := drawdown_alert]> ∅.

Definition cpu_history : AppApi.AlertHistory :=
  {| AppApi.alert_type := "high_cpu_usage"; AppApi.severity := "warning";
     AppApi.message := "CPU above 80%"; AppApi.timestamp := 0;
     AppApi.resolved := false; AppApi.resolved_at := None;
     AppApi.resolved_by := None |}.

Definition history : gmap Z AppApi.AlertHistory := <[1%Z := cpu_history]> ∅.

Definition system_alert : Monitoring.Alert :=
  {| Monitoring.service := "system"; Monitoring.severity := "warning";
     Monitoring.message := "High CPU usage"; Monitoring.timestamp := 0;
     Monitoring.resolved := false |}.

Definition alerts : gmap Z Monitoring.Alert := <[1%Z := system_alert]> ∅.

(** A session whose commit is refused. *)
Definition commit_fails : Db.session :=
  {| Db.query_works := true; Db.commit_works := false;
     Db.refresh_works := true; Db.message := "connection lost" |}.

End ResolveSample.

(** ** The alert manager: when an alert goes out *)

Module AppSpec.
Local Open Scope Q_scope.

(** The cooldown of [alert_type] is over at [now]. *)
Definition cooled_down (st : App.state) (now : Q) (alert_type : string)
  : bool :=
  match App.last_alert_time st !! alert_type with
  | None => true
  | Some last => Qle_bool (inject_Z (App.cooldown_period st)) (now - last)
  end.

(** The configuration row that lets alerts out: read through a
    session, and enabled. *)
Definition enabled_config (e : App.env) : option App.AlertConfig :=
  match App.first_config e with
  | Py.Return (Some c) =>
      if App.session e && App.enabled c then Some c else None
  | _ => None
  end.

(** The notifications of one [send_alert] under a configuration. *)
Definition notifications (e : App.env) (c : App.AlertConfig)
    (alert_type severity message : string) : list App.notification :=
  (if App.email_enabled c
      && bool_decide (is_Some (App.email_recipients c)) && App.smtp e
   then [App.email_alert alert_type severity message] else [])
  ++ (if App.slack_enabled c
         && AlertSender.truthy (App.slack_webhook_url e) && App.webhook e
      then [App.slack_alert alert_type severity message] else []).

(** A notification of [check_metrics] for a metric above its limit. *)
Definition breach_notification (metrics : gmap string Q)
    (n : App.notification) : Prop :=
  exists name v limit,
    n = App.via_sender (App.send_resource_alert name v limit)
    /\ metrics !! name = Some v /\ limit < v.

End AppSpec.

Module ManagerSample.
Local Open Scope Q_scope.

(** The configuration row of [CooldownSample.working]. *)
Definition config : App.AlertConfig :=
  {| App.enabled := true; App.email_enabled := true;
     App.slack_enabled := true;
     App.email_recipients := Some "ops@example.org";
     App.cpu_threshold := 80; App.memory_threshold := 85;
     App.disk_threshold := 90;
     App.network_in_threshold := 1000000000;
     App.network_out_threshold := 1000000000 |}.

End ManagerSample.


(** ** monitoring-services/health_check.py *)

Module HealthCheck.
Local Open Scope Q_scope.

(** The settings [__init__] reads from the environment; no method
    assigns them again. *)
Record settings : Type := {
  retry_count : Z;
  retry_delay : Z;
  failure_threshold : Z;
  failure_window : Z
}.

(** What the methods change: [self.failure_history], from a service
    name to the times of its recent failures, and the log.  A time is a
    [datetime], counted in seconds from [datetime.min]. *)
Record state : Type := {
  failure_history : gmap string (list Q);
  log : list log_record
}.

(** What can be raised here: [OverflowError] by [datetime] arithmetic
    that leaves its range, [ValueError] by [time.sleep] on a negative
    length. *)
Inductive exn : Type := OverflowError | ValueError.

Inductive result (A : Type) : Type :=
| Return (a : A)
| Raise (e : exn).
Arguments Return {A} a.
Arguments Raise {A} e.

Definition M (A : Type) : Type := state -> result A * state.

Definition ret {A} (a : A) : M A := fun s => (Return a, s).

Definition bind {A B} (m : M A) (k : A -> M B) : M B :=
  fun s =>
    match m s with
    | (Return a, s') => k a s'
    | (Raise e, s') => (Raise e, s')
    end.

Definition raise {A} (e : exn) : M A := fun s => (Raise e, s).

Definition gets {A} (f : state -> A) : M A := fun s => (Return (f s), s).

Definition modify (f : state -> state) : M unit :=
  fun s => (Return tt, f s).

#[global] Instance health_ret : MRet M := @ret.
#[global] Instance health_bind : MBind M := fun A B k m => bind m k.

Definition logger (lvl : log_level) (site : string) : M unit :=
  modify (fun st =>
    {| failure_history := failure_history st;
       log := log st ++ [(lvl, site)] |}).

(** [self.failure_history[service] = failures]. *)
Definition setitem (service : string) (failures : list Q) : M unit :=
  modify (fun st =>
    {| failure_history := <[service := failures]> (failure_history st);
       log := log st |}).

(** [del self.failure_history[service]]. *)
Definition delitem (service : string) : M unit :=
  modify (fun st =>
    {| failure_history := delete service (failure_history st);
       log := log st |}).

(** The answer to one [requests.get]: a status code, or an exception. *)
Inductive response : Type :=
| status_code (code : Z)
| no_response.

(** The body the five [check_*] methods share: [True] on status 200,
    [False] on another status, [False] and an error line when the
    request raises. *)
Definition check (site : string) (r : response) : M bool :=
  match r with
  | status_code code => mret (code =? 200)%Z
  | no_response => _ ← logger ERROR site; mret false
  end.

Definition check_api : response -> M bool := check "check_api".
Definition check_consul : response -> M bool := check "check_consul".
Definition check_prometheus : response -> M bool :=
  check "check_prometheus".
Definition check_alertmanager : response -> M bool :=
  check "check_alertmanager".
Definition check_grafana : response -> M bool := check "check_grafana".

(** [datetime.max], 9999-12-31 23:59:59.999999, in seconds from
    [datetime.min]. *)
Definition datetime_max : Q := 315537897599999999 # 1000000.

(** [timedelta(seconds=n)]: at most 999999999 days either way. *)
Definition timedelta (seconds : Z) : M Q :=
  if (999999999 <? Z.abs (seconds / 86400))%Z
  then raise OverflowError
  else mret (inject_Z seconds).

(** [t - delta] on a [datetime]: the result has to be a [datetime]. *)
Definition datetime_sub (t delta : Q) : M Q :=
  let r := t - delta in
  if Qle_bool 0 r && Qle_bool r datetime_max
  then mret r
  else raise OverflowError.

(** [time.sleep(seconds)]. *)
Definition sleep (seconds : Z) : M unit :=
  if (seconds <? 0)%Z then raise ValueError else mret tt.

(** [record_failure], with [now] the reading of [datetime.now()]. *)
Definition record_failure (self : settings) (now : Q) (service : string)
  : M unit :=
  known ← gets (fun st =>
    bool_decide (is_Some (failure_history st !! service)));
  _ ← (if known : bool then mret tt else setitem service []);
  failures ← gets (fun st => default [] (failure_history st !! service));
  _ ← setitem service (failures ++ [now]);
  delta ← timedelta (failure_window self);
  cutoff ← datetime_sub now delta;
  failures ← gets (fun st => default [] (failure_history st !! service));
  setitem service (List.filter (fun t => Np.Qlt_bool cutoff t) failures).

Definition should_alert (self : settings) (service : string) : M bool :=
  gets (fun st =>
    match failure_history st !! service with
    | None => false
    | Some failures =>
        (failure_threshold self <=? Z.of_nat (length failures))%Z
    end).

Definition send_alert (self : settings) (now : Q) (service : string)
    (status : bool) : M unit :=
  if negb status then
    _ ← record_failure self now service;
    alert ← should_alert self service;
    if alert : bool then logger WARNING "send_alert" else mret tt
  else
    known ← gets (fun st =>
      bool_decide (is_Some (failure_history st !! service)));
    if known : bool then delitem service else mret tt.

(** The retry loop of [check_all_services]: [status = False], then up
    to [count] calls of [check_func], leaving at the first [True] and
    sleeping after every [False].  [attempt] numbers the call. *)
Fixpoint retry (delay : Z) (check_func : nat -> M bool)
    (count attempt : nat) : M bool :=
  match count with
  | O => mret false
  | S count' =>
      status ← check_func attempt;
      if status : bool then mret true
      else _ ← sleep delay; retry delay check_func count' (S attempt)
  end.

(** The [services] dict, in its order. *)
Definition services : list (string * (response -> M bool)) :=
  [("api", check_api); ("consul", check_consul);
   ("prometheus", check_prometheus);
   ("alertmanager", check_alertmanager); ("grafana", check_grafana)].

(** The outside world of one pass: the answer to each request of a
    service, and the clock when its failure is recorded. *)
Record world : Type := {
  probe : string -> nat -> response;
  clock : string -> Q
}.

(** One turn of the loop over [services.items()]. *)
Definition check_service (self : settings) (w : world)
    (item : string * (response -> M bool)) : M unit :=
  let '(service_name, check_func) := item in
  status ← retry (retry_delay self)
              (fun attempt => check_func (probe w service_name attempt))
              (Z.to_nat (retry_count self)) 0;
  _ ← send_alert self (clock w service_name) service_name status;
  logger INFO "check_all_services".

Fixpoint for_each {A} (body : A -> M unit) (l : list A) : M unit :=
  match l with
  | [] => mret tt
  | x :: rest => _ ← body x; for_each body rest
  end.

Definition check_all_services (self : settings) (w : world) : M unit :=
  for_each (check_service self w) services.

End HealthCheck.

(** ** The health check: what a pass leaves behind *)

Module HealthSpec.
Local Open Scope Q_scope.

(** The request was answered with status 200. *)
Definition ok (r : HealthCheck.response) : bool :=
  match r with
  | HealthCheck.status_code code => (code =? 200)%Z
  | HealthCheck.no_response => false
  end.

(** One of the [count] requests from [attempt] on is answered with
    status 200. *)
Fixpoint answers (probe : nat -> HealthCheck.response)
    (count attempt : nat) : bool :=
  match count with
  | O => false
  | S count' =>
      if ok (probe attempt) then true
      else answers probe count' (S attempt)
  end.

(** [service] failing at each of [times] in turn. *)
Definition failures (self : HealthCheck.settings) (service : string)
    (times : list Q) : HealthCheck.M unit :=
  HealthCheck.for_each
    (fun now => HealthCheck.send_alert self now service false) times.

(** The cutoff [now - timedelta(seconds=window)] is a [datetime]. *)
Definition cutoff_in_range (window : Z) (now : Q) : Prop :=
  0 <= now - inject_Z window <= HealthCheck.datetime_max.

Definition warning : log_record := (WARNING, "send_alert"%string).

End HealthSpec.

Module HealthSample.
Local Open Scope Q_scope.

(** The defaults of [__init__]. *)
Definition self : HealthCheck.settings :=
  {| HealthCheck.retry_count := 3; HealthCheck.retry_delay := 5;
     HealthCheck.failure_threshold := 3;
     HealthCheck.failure_window := 300 |}.

Definition fresh : HealthCheck.state :=
  {| HealthCheck.failure_history := ∅; HealthCheck.log := [] |}.

(** 2026-01-01 00:00:00 in seconds from [datetime.min]. *)
Definition new_year : Q := 63902822400.

(** Three failures a minute apart. *)
Definition outage : list Q := [new_year; new_year + 60; new_year + 120].

Definition with_window (window : Z) : HealthCheck.settings :=
  {| HealthCheck.retry_count := 3; HealthCheck.retry_delay := 5;
     HealthCheck.failure_threshold := 3;
     HealthCheck.failure_window := window |}.

Definition with_retries (count delay : Z) : HealthCheck.settings :=
  {| HealthCheck.retry_count := count; HealthCheck.retry_delay := delay;
     HealthCheck.failure_threshold := 3;
     HealthCheck.failure_window := 300 |}.

(** A pass in which the API answers 503 and the rest answer 200. *)
Definition api_down : HealthCheck.world :=
  {| HealthCheck.probe := fun name _ =>
       if String.eqb name "api" then HealthCheck.status_code 503
       else HealthCheck.status_code 200;
     HealthCheck.clock := fun _ => new_year |}.

End HealthSample.
(** * Properties *)

(** ** Comparisons and results *)

(** Unfold the sequencing of results and of effects. *)
Ltac py_simpl :=
  unfold mbind, mret, result_bind, result_ret, eff_bind, eff_ret in *;
  unfold Eff.try_except, Eff.bind, Eff.ret, Eff.raise, Eff.lift,
    Eff.modify, Eff.gets in *;
  cbn [Py.bind fst snd] in *.

Module NpFacts.
Local Open Scope Q_scope.

Lemma Qlt_bool_iff (x y : Q) : Np.Qlt_bool x y = true <-> x < y.
Proof.
  unfold Np.Qlt_bool. rewrite negb_true_iff.
  split; intros H.
  - apply Qnot_le_lt. intros Hle. apply Qle_bool_iff in Hle. congruence.
  - destruct (Qle_bool y x) eqn:E; [|reflexivity].
    apply Qle_bool_iff in E. exfalso. apply (Qlt_not_le _ _ H E).
Qed.

Lemma Qlt_bool_false_iff (x y : Q) : Np.Qlt_bool x y = false <-> y <= x.
Proof.
  unfold Np.Qlt_bool. rewrite negb_false_iff. apply Qle_bool_iff.
Qed.

Lemma Qle_bool_false_iff (x y : Q) : Qle_bool x y = false <-> y < x.
Proof.
  rewrite <- Qlt_bool_iff. unfold Np.Qlt_bool.
  destruct (Qle_bool x y); simpl; split; congruence.
Qed.

Lemma Qis_zero_iff (x : Q) : Np.Qis_zero x = true <-> x == 0.
Proof. unfold Np.Qis_zero. apply Qeq_bool_iff. Qed.

Lemma Qis_zero_false_iff (x : Q) : Np.Qis_zero x = false <-> ~ x == 0.
Proof.
  rewrite <- Qis_zero_iff. destruct (Np.Qis_zero x); split; congruence.
Qed.

End NpFacts.

(** ** ThresholdEvaluator: the comparison is strict *)

Module ThresholdFacts.
Import ThresholdSpec.
Local Open Scope Q_scope.

Lemma check_one_breach self metrics name alerts alerts' :
  AlertManager.check_one self metrics name alerts = Py.Return alerts' ->
  Forall (breach self metrics) alerts ->
  Forall (breach self metrics) alerts'.
Proof.
  unfold AlertManager.check_one, AlertManager.getitem.
  destruct (metrics !! name) as [v|] eqn:Hm; py_simpl; [|discriminate].
  destruct (self !! name) as [limit|] eqn:Hl; py_simpl; [|discriminate].
  intros [= <-] Hall. unfold AlertManager.append_if_exceeds.
  destruct (Np.Qlt_bool limit v) eqn:E; [|assumption].
  apply Forall_app. split; [assumption|].
  constructor; [|constructor].
  unfold breach; cbn. apply NpFacts.Qlt_bool_iff in E. auto.
Qed.

Lemma check_thresholds_breach self metrics alerts :
  AlertManager.check_thresholds self metrics = Py.Return alerts ->
  Forall (breach self metrics) alerts.
Proof.
  unfold AlertManager.check_thresholds.
  destruct (AlertManager.check_one self metrics "cpu" []) as [l1|] eqn:E1;
    py_simpl; [|discriminate].
  destruct (AlertManager.check_one self metrics "memory" l1) as [l2|] eqn:E2;
    py_simpl; [|discriminate].
  destruct (AlertManager.check_one self metrics "disk" l2) as [l3|] eqn:E3;
    py_simpl; [|discriminate].
  intros [= <-].
  eapply check_one_breach; [exact E3|].
  eapply check_one_breach; [exact E2|].
  eapply check_one_breach; [exact E1|].
  constructor.
Qed.

Lemma exceeds_breach c metrics name alerts v limit :
  metrics !! name = Some v ->
  App.limit_for c name = Some limit ->
  Forall (app_breach c metrics) alerts ->
  Forall (app_breach c metrics) (App.exceeds alerts name v limit).
Proof.
  intros Hm Hl Hall. unfold App.exceeds.
  destruct (Np.Qlt_bool limit v) eqn:E; [|assumption].
  apply Forall_app. split; [assumption|].
  constructor; [|constructor].
  exists v, limit. cbn. apply NpFacts.Qlt_bool_iff in E. auto.
Qed.

Lemma candidates_breach c metrics alerts :
  App.candidates c metrics = Py.Return alerts ->
  Forall (app_breach c metrics) alerts.
Proof.
  unfold App.candidates, AlertManager.getitem.
  destruct (metrics !! "cpu_usage") as [v1|] eqn:E1;
    py_simpl; [|discriminate].
  destruct (metrics !! "memory_usage") as [v2|] eqn:E2;
    py_simpl; [|discriminate].
  destruct (metrics !! "disk_usage") as [v3|] eqn:E3;
    py_simpl; [|discriminate].
  destruct (metrics !! "network_in") as [v4|] eqn:E4;
    py_simpl; [|discriminate].
  destruct (metrics !! "network_out") as [v5|] eqn:E5;
    py_simpl; [|discriminate].
  intros [= <-].
  repeat (apply exceeds_breach; [assumption|reflexivity|]).
  constructor.
Qed.

(** C2.  Every candidate alert of the threshold evaluators
    ([check_thresholds] and the candidates of [check_metrics]) is for a
    metric whose observed value is strictly greater than its configured
    threshold; a metric whose value equals its threshold gets no
    candidate. *)
Theorem threshold_comparison_is_strict
    (self : AlertManager.thresholds) (c : App.AlertConfig)
    (metrics metrics' : gmap string Q)
    (alerts : list AlertManager.alert) (alerts' : list App.alert)
    (Hroot : AlertManager.check_thresholds self metrics = Py.Return alerts)
    (Happ : App.candidates c metrics' = Py.Return alerts') :
  (forall a, In a alerts -> breach self metrics a)
  /\ (forall name v limit,
        metrics !! name = Some v -> self !! name = Some limit ->
        v == limit ->
        forall a, In a alerts -> AlertManager.type a <> name)
  /\ (forall a, In a alerts' -> app_breach c metrics' a)
  /\ (forall name v limit,
        metrics' !! name = Some v -> App.limit_for c name = Some limit ->
        v == limit ->
        forall a, In a alerts' -> App.type a <> name).
Proof.
  pose proof (check_thresholds_breach _ _ _ Hroot) as Hr.
  pose proof (candidates_breach _ _ _ Happ) as Ha.
  rewrite List.Forall_forall in Hr, Ha.
  split; [|split; [|split]].
  - intros a Hin. apply (Hr a Hin).
  - intros name v limit Hm Hl Heq a Hin Hty.
    destruct (Hr a Hin) as (Hv & Ht & Hlt). subst name.
    rewrite Hm in Hv. rewrite Hl in Ht.
    injection Hv as Hv. injection Ht as Ht.
    rewrite <- Hv, <- Ht, Heq in Hlt. exact (Qlt_irrefl _ Hlt).
  - intros a Hin. apply (Ha a Hin).
  - intros name v limit Hm Hl Heq a Hin Hty.
    destruct (Ha a Hin) as (v' & l' & _ & _ & Hv & Ht & Hlt). subst name.
    rewrite Hm in Hv. rewrite Hl in Ht.
    injection Hv as Hv. injection Ht as Ht.
    rewrite <- Hv, <- Ht, Heq in Hlt. exact (Qlt_irrefl _ Hlt).
Qed.

End ThresholdFacts.

Module ThresholdWitness.
Import ThresholdSample.
Local Open Scope Q_scope.

Lemma threshold_comparison_is_strict_witness :
  AlertManager.check_thresholds self metrics = Py.Return alerts
  /\ App.candidates App.default_thresholds metrics' = Py.Return alerts'
  /\ (forall a, In a alerts -> AlertManager.type a <> "cpu")
  /\ (forall a, In a alerts' -> App.type a <> "cpu_usage").
Proof.
  assert (H1 : AlertManager.check_thresholds self metrics = Py.Return alerts)
    by (vm_compute; reflexivity).
  assert (H2 : App.candidates App.default_thresholds metrics'
               = Py.Return alerts') by (vm_compute; reflexivity).
  destruct (ThresholdFacts.threshold_comparison_is_strict
              self App.default_thresholds metrics metrics' alerts alerts'
              H1 H2) as (_ & Hb & _ & Hb').
  split; [exact H1|]. split; [exact H2|]. split.
  - apply (Hb "cpu" 80 80); vm_compute; reflexivity.
  - apply (Hb' "cpu_usage" 80 80); vm_compute; reflexivity.
Defined.

End ThresholdWitness.

(** ** Sums, means and roots *)

Module MeanFacts.
Local Open Scope Q_scope.

Lemma fold_left_Qplus (l : list Q) (a : Q) :
  fold_left Qplus l a == a + Np.sum l.
Proof.
  unfold Np.sum. revert a.
  induction l as [|x l IH]; intros a; simpl.
  - ring.
  - rewrite (IH (a + x)), (IH (0 + x)). ring.
Qed.

Lemma sum_cons (x : Q) (l : list Q) : Np.sum (x :: l) == x + Np.sum l.
Proof.
  unfold Np.sum at 1. simpl. rewrite fold_left_Qplus. ring.
Qed.

Lemma sum_all_equal (c : Q) (l : list Q) :
  Forall (fun x => x == c) l ->
  Np.sum l == inject_Z (Z.of_nat (List.length l)) * c.
Proof.
  induction 1 as [|x l Hx _ IH].
  - reflexivity.
  - rewrite sum_cons, IH, Hx.
    replace (Z.of_nat (List.length (c :: l)))
      with (Z.of_nat (List.length l) + 1)%Z by (simpl List.length; lia).
    rewrite inject_Z_plus. ring.
Qed.

Lemma length_pos_nonzero {A} (l : list A) :
  l <> [] -> ~ inject_Z (Z.of_nat (List.length l)) == 0.
Proof.
  intros Hne Heq. destruct l as [|x l]; [congruence|].
  unfold Qeq in Heq. simpl in Heq. lia.
Qed.

(** On a non-empty array the mean is an ordinary quotient. *)
Lemma mean_nonempty (l : list Q) :
  l <> [] ->
  Np.mean l = Np.Fin (Np.sum l / inject_Z (Z.of_nat (List.length l))).
Proof.
  intros Hne. unfold Np.mean, Np.divide.
  destruct (Np.Qis_zero (inject_Z (Z.of_nat (List.length l)))) eqn:E.
  - apply NpFacts.Qis_zero_iff in E.
    exfalso. exact (length_pos_nonzero l Hne E).
  - reflexivity.
Qed.

Lemma mean_empty : Np.mean [] = Np.NaN.
Proof. reflexivity. Qed.

Lemma mean_all_equal (c : Q) (l : list Q) :
  l <> [] -> Forall (fun x => x == c) l ->
  exists m, Np.mean l = Np.Fin m /\ m == c.
Proof.
  intros Hne Hall. rewrite (mean_nonempty l Hne).
  eexists. split; [reflexivity|].
  rewrite (sum_all_equal c l Hall).
  field. exact (length_pos_nonzero l Hne).
Qed.

Lemma sqrt_zero (x : Q) : x == 0 -> Np.sqrt x == 0.
Proof.
  intros H. unfold Qeq in H. simpl in H.
  unfold Np.sqrt, Qeq. simpl.
  replace (Qnum x) with 0%Z by lia. reflexivity.
Qed.

(** The standard deviation of a constant non-empty array is zero. *)
Lemma std_all_equal (c : Q) (l : list Q) :
  l <> [] -> Forall (fun x => x == c) l ->
  exists s, Np.std l = Np.Fin s /\ s == 0.
Proof.
  intros Hne Hall. unfold Np.std.
  destruct (mean_all_equal c l Hne Hall) as (m & -> & Hm).
  assert (Hsq : Forall (fun y => y == 0)
                  (List.map (fun x => (x - m) * (x - m)) l)).
  { apply List.Forall_map. eapply List.Forall_impl; [|exact Hall].
    intros x Hx. cbn beta. rewrite Hx, Hm. ring. }
  assert (Hne' : List.map (fun x => (x - m) * (x - m)) l <> []).
  { destruct l; [congruence|discriminate]. }
  destruct (mean_all_equal 0 _ Hne' Hsq) as (v & -> & Hv).
  exists (Np.sqrt v). split; [reflexivity|]. exact (sqrt_zero v Hv).
Qed.

Lemma Qis_zero_proper (x y : Q) : x == y -> Np.Qis_zero x = Np.Qis_zero y.
Proof.
  intros H. unfold Np.Qis_zero.
  destruct (Qeq_bool x 0) eqn:E1, (Qeq_bool y 0) eqn:E2; try reflexivity.
  - apply Qeq_bool_iff in E1. apply Qeq_bool_neq in E2.
    exfalso. apply E2. rewrite <- H. exact E1.
  - apply Qeq_bool_iff in E2. apply Qeq_bool_neq in E1.
    exfalso. apply E1. rewrite H. exact E2.
Qed.

Lemma Qlt_bool_proper (x x' y y' : Q) :
  x == x' -> y == y' -> Np.Qlt_bool x y = Np.Qlt_bool x' y'.
Proof.
  intros Hx Hy.
  destruct (Np.Qlt_bool x y) eqn:E1, (Np.Qlt_bool x' y') eqn:E2;
    try reflexivity.
  - apply NpFacts.Qlt_bool_iff in E1. apply NpFacts.Qlt_bool_false_iff in E2.
    rewrite Hx, Hy in E1. exfalso. exact (Qlt_not_le _ _ E1 E2).
  - apply NpFacts.Qlt_bool_iff in E2. apply NpFacts.Qlt_bool_false_iff in E1.
    rewrite Hx, Hy in E1. exfalso. exact (Qlt_not_le _ _ E2 E1).
Qed.

End MeanFacts.

(** ** Mean, deviation and quotient against the series itself *)

Module DeviationFacts.
Local Open Scope Q_scope.












End DeviationFacts.

(** ** Sharpe and Sortino ratios *)

Module RatioFacts.
Import RiskManagement.
Local Open Scope Q_scope.

Lemma excess_repeat (c rf : Q) (n : nat) :
  excess (repeat c n) rf = repeat (c - rf) n.
Proof.
  unfold excess. induction n as [|n IH]; simpl; [reflexivity|].
  now rewrite IH.
Qed.

Lemma repeat_all_equal (c : Q) (n : nat) :
  Forall (fun x => x == c) (repeat c n).
Proof.
  induction n as [|n IH]; simpl; constructor; [reflexivity|exact IH].
Qed.

(** C3.  On a constant return series the Sharpe ratio of the code is
    the quotient of the mean excess return by a zero standard
    deviation: [nan] when the mean excess is zero, otherwise [inf] with
    the sign of the mean excess; it is never the number [0]. *)
Theorem sharpe_ratio_of_constant_series (c rf : Q) (n : nat) :
  calculate_sharpe_ratio (repeat c (S n)) rf =
    (if Np.Qis_zero (c - rf) then Np.NaN
     else if Np.Qlt_bool 0 (c - rf) then Np.PosInf else Np.NegInf)
  /\ calculate_sharpe_ratio (repeat c (S n)) rf <> Np.Fin 0.
Proof.
  assert (E : calculate_sharpe_ratio (repeat c (S n)) rf =
    (if Np.Qis_zero (c - rf) then Np.NaN
     else if Np.Qlt_bool 0 (c - rf) then Np.PosInf else Np.NegInf)).
  { unfold calculate_sharpe_ratio. rewrite excess_repeat.
    assert (Hne : repeat (c - rf) (S n) <> []) by discriminate.
    destruct (MeanFacts.mean_all_equal (c - rf) _ Hne
                (repeat_all_equal _ _)) as (m & -> & Hm).
    destruct (MeanFacts.std_all_equal (c - rf) _ Hne
                (repeat_all_equal _ _)) as (s & -> & Hs).
    unfold Np.divide.
    apply NpFacts.Qis_zero_iff in Hs. rewrite Hs.
    rewrite (MeanFacts.Qis_zero_proper m (c - rf) Hm).
    rewrite (MeanFacts.Qlt_bool_proper 0 0 m (c - rf) (Qeq_refl 0) Hm).
    reflexivity. }
  split; [exact E|]. rewrite E.
  destruct (Np.Qis_zero (c - rf)); [discriminate|].
  destruct (Np.Qlt_bool 0 (c - rf)); discriminate.
Qed.

(** The series of the design document: three returns of one percent. *)
Example sharpe_ratio_flat_one_percent :
  calculate_sharpe_ratio [1 # 100; 1 # 100; 1 # 100] 0 = Np.PosInf.
Proof. vm_compute. reflexivity. Qed.





End RatioFacts.

(** ** Sorting and percentiles *)

Module PercentileFacts.
Local Open Scope Q_scope.

Lemma insert_sorted_length (x : Q) (l : list Q) :
  List.length (Np.insert_sorted x l) = S (List.length l).
Proof.
  induction l as [|y l IH]; simpl; [reflexivity|].
  destruct (Qle_bool x y); simpl; [reflexivity|]. now rewrite IH.
Qed.

Lemma sort_length (l : list Q) : List.length (Np.sort l) = List.length l.
Proof.
  induction l as [|x l IH]; simpl; [reflexivity|].
  now rewrite insert_sorted_length, IH.
Qed.

Lemma insert_sorted_In (x y : Q) (l : list Q) :
  In y (Np.insert_sorted x l) <-> y = x \/ In y l.
Proof.
  induction l as [|z l IH]; simpl.
  - intuition.
  - destruct (Qle_bool x z); simpl; [intuition|].
    rewrite IH. intuition.
Qed.

Lemma sort_In (y : Q) (l : list Q) : In y (Np.sort l) <-> In y l.
Proof.
  induction l as [|x l IH]; simpl; [reflexivity|].
  rewrite insert_sorted_In, IH. intuition.
Qed.

Lemma insert_sorted_ascending (x : Q) (l : list Q) :
  RiskSpec.ascending l -> RiskSpec.ascending (Np.insert_sorted x l).
Proof.
  induction 1 as [|y l Hy Hl IH]; simpl.
  - constructor; constructor.
  - destruct (Qle_bool x y) eqn:E.
    + apply Qle_bool_iff in E.
      constructor; [|constructor; assumption].
      constructor; [exact E|].
      eapply List.Forall_impl; [|exact Hy].
      intros z Hz. cbn beta in *. eapply Qle_trans; eassumption.
    + apply NpFacts.Qle_bool_false_iff in E.
      constructor; [|exact IH].
      rewrite List.Forall_forall. intros z Hz.
      apply insert_sorted_In in Hz. destruct Hz as [->|Hz].
      * apply Qlt_le_weak, E.
      * rewrite List.Forall_forall in Hy. apply Hy, Hz.
Qed.

Lemma sort_ascending (l : list Q) : RiskSpec.ascending (Np.sort l).
Proof.
  induction l as [|x l IH]; simpl.
  - constructor.
  - apply insert_sorted_ascending, IH.
Qed.

Lemma ascending_nth (l : list Q) :
  RiskSpec.ascending l ->
  forall i j, (i <= j)%nat -> (j < List.length l)%nat ->
  nth i l 0 <= nth j l 0.
Proof.
  induction 1 as [|x l Hx Hl IH]; intros i j Hij Hj; simpl in Hj.
  - lia.
  - destruct i as [|i], j as [|j]; simpl.
    + apply Qle_refl.
    + rewrite List.Forall_forall in Hx. apply Hx, nth_In. lia.
    + lia.
    + apply IH; lia.
Qed.

Lemma lerp_eq (a b t : Q) : Np.lerp a b t == a + (b - a) * t.
Proof.
  unfold Np.lerp. destruct (Np.Qlt_bool t (1 # 2)); ring.
Qed.

(** A quantile in [0, 1] passes the range check. *)
Lemma quantile_in_range (c : Q) :
  0 <= c <= 1 ->
  negb (Qle_bool 0 ((1 - c) * 100 / 100)
        && Qle_bool ((1 - c) * 100 / 100) 1) = false.
Proof.
  intros [H0 H1].
  assert (E : (1 - c) * 100 / 100 == 1 - c) by (field; discriminate).
  apply negb_false_iff, andb_true_iff.
  split; apply Qle_bool_iff; rewrite E; lra.
Qed.

Lemma Qceiling_floor_cases (x : Q) :
  Qceiling x = (Qfloor x + 1)%Z
  \/ (Qceiling x = Qfloor x /\ x == inject_Z (Qfloor x)).
Proof.
  pose proof (Qfloor_le x) as H1.
  pose proof (Qlt_floor x) as H2.
  pose proof (Qle_ceiling x) as H3.
  pose proof (Qceiling_lt x) as H4.
  assert (Hlo : (Qfloor x <= Qceiling x)%Z).
  { rewrite Zle_Qle. eapply Qle_trans; eassumption. }
  assert (Hhi : (Qceiling x - 1 < Qfloor x + 1)%Z).
  { rewrite Zlt_Qlt. eapply Qlt_trans; eassumption. }
  destruct (Z.eq_dec (Qceiling x) (Qfloor x)) as [E|E].
  - right. split; [exact E|].
    apply Qle_antisym; [|exact H1]. rewrite <- E. exact H3.
  - left. lia.
Qed.

(** The shape of [np.percentile] on a non-empty array and a valid
    percentage: the value at the floor rank plus the fractional part of
    the rank times the step to the next value; the floor rank is a
    position of the array and the step is not negative. *)
Lemma percentile_nonempty (a : list Q) (q : Q) :
  a <> [] -> 0 <= q / 100 <= 1 ->
  exists (v : Q) (i j : nat) (g : Q),
    Np.percentile a q = Py.Return v
    /\ (i <= j)%nat /\ (j < List.length a)%nat /\ 0 <= g
    /\ v == nth i (Np.sort a) 0
            + (nth j (Np.sort a) 0 - nth i (Np.sort a) 0) * g
    /\ v == RiskSpec.percentile_linear a q.
Proof.
  intros Hne [Hq0 Hq1].
  unfold Np.percentile.
  assert (Hrange : negb (Qle_bool 0 (q / 100) && Qle_bool (q / 100) 1)
                   = false).
  { apply negb_false_iff, andb_true_iff.
    split; apply Qle_bool_iff; assumption. }
  rewrite Hrange.
  destruct a as [|x0 rest] eqn:Ea; [congruence|]. rewrite <- Ea in *.
  set (n := Z.of_nat (List.length a)).
  assert (Hn : (1 <= n)%Z) by (subst n a; simpl List.length; lia).
  set (h := inject_Z (n - 1) * (q / 100)).
  assert (Hh0 : 0 <= h).
  { subst h. apply Qmult_le_0_compat; [|exact Hq0].
    change 0 with (inject_Z 0). rewrite <- Zle_Qle. lia. }
  assert (Hh1 : h <= inject_Z (n - 1)).
  { subst h.
    assert (Hn0 : 0 <= inject_Z (n - 1)).
    { change 0 with (inject_Z 0). rewrite <- Zle_Qle. lia. }
    nra. }
  unfold RiskSpec.percentile_linear. fold n. fold h.
  destruct (Qle_bool (inject_Z (n - 1)) h) eqn:Eabove.
  - (* the rank is the last position *)
    apply Qle_bool_iff in Eabove.
    assert (Eh : h == inject_Z (n - 1)) by (apply Qle_antisym; assumption).
    assert (Ef : Qfloor h = (n - 1)%Z).
    { rewrite (Qfloor_comp _ _ Eh). apply Qfloor_Z. }
    assert (Ec : Qceiling h = (n - 1)%Z).
    { rewrite (Qceiling_comp _ _ Eh). apply Qceiling_Z. }
    exists (Np.lerp (nth (Z.to_nat (n - 1)) (Np.sort a) 0)
                    (nth (Z.to_nat (n - 1)) (Np.sort a) 0)
                    (h - inject_Z (-1))).
    exists (Z.to_nat (n - 1)), (Z.to_nat (n - 1)), 0.
    split.
    { change ((-1 <? 0)%Z) with true. cbn iota.
      replace (n + -1)%Z with (n - 1)%Z by lia. reflexivity. }
    split; [lia|]. split; [subst n; lia|]. split; [apply Qle_refl|].
    rewrite lerp_eq, Ef, Ec. split; ring.
  - (* the rank is inside the array *)
    apply NpFacts.Qle_bool_false_iff in Eabove.
    set (f := Qfloor h).
    assert (Hf0 : (0 <= f)%Z).
    { subst f. change 0%Z with (Qfloor 0). apply Qfloor_resp_le, Hh0. }
    assert (Hf1 : (f < n - 1)%Z).
    { subst f. rewrite Zlt_Qlt.
      eapply Qle_lt_trans; [apply Qfloor_le|exact Eabove]. }
    assert (Hg0 : 0 <= h - inject_Z f).
    { subst f. pose proof (Qfloor_le h). lra. }
    exists (Np.lerp (nth (Z.to_nat f) (Np.sort a) 0)
                    (nth (Z.to_nat (f + 1)) (Np.sort a) 0)
                    (h - inject_Z f)).
    exists (Z.to_nat f), (Z.to_nat (f + 1)), (h - inject_Z f).
    split.
    { replace (f <? 0)%Z with false by (symmetry; apply Z.ltb_ge; lia).
      replace (f + 1 <? 0)%Z with false by (symmetry; apply Z.ltb_ge; lia).
      reflexivity. }
    split; [lia|]. split; [subst n; lia|]. split; [exact Hg0|].
    rewrite lerp_eq. split; [reflexivity|].
    destruct (Qceiling_floor_cases h) as [Ec|[Ec Eh]]; fold f in Ec.
    + rewrite Ec. ring.
    + fold f in Eh. rewrite Ec.
      assert (Ez : h - inject_Z f == 0) by (rewrite Eh; ring).
      rewrite Ez. ring.
Qed.

End PercentileFacts.

(** ** Ranks by counting *)

Module RankFacts.
Local Open Scope Q_scope.

Lemma count_below_insert_sorted (x z : Q) (l : list Q) :
  RiskSpec.count_below (Np.insert_sorted x l) z
  = RiskSpec.count_below (x :: l) z.
Proof.
  induction l as [|y l IH]; [reflexivity|].
  cbn [Np.insert_sorted]. destruct (Qle_bool x y); [reflexivity|].
  cbn [RiskSpec.count_below] in *. rewrite IH. lia.
Qed.

Lemma count_at_most_insert_sorted (x z : Q) (l : list Q) :
  RiskSpec.count_at_most (Np.insert_sorted x l) z
  = RiskSpec.count_at_most (x :: l) z.
Proof.
  induction l as [|y l IH]; [reflexivity|].
  cbn [Np.insert_sorted]. destruct (Qle_bool x y); [reflexivity|].
  cbn [RiskSpec.count_at_most] in *. rewrite IH. lia.
Qed.

(** Sorting keeps the counts: it only rearranges. *)
Lemma count_below_sort (z : Q) (l : list Q) :
  RiskSpec.count_below (Np.sort l) z = RiskSpec.count_below l z.
Proof.
  induction l as [|x l IH]; [reflexivity|].
  cbn [Np.sort]. rewrite count_below_insert_sorted.
  cbn [RiskSpec.count_below]. rewrite IH. reflexivity.
Qed.

Lemma count_at_most_sort (z : Q) (l : list Q) :
  RiskSpec.count_at_most (Np.sort l) z = RiskSpec.count_at_most l z.
Proof.
  induction l as [|x l IH]; [reflexivity|].
  cbn [Np.sort]. rewrite count_at_most_insert_sorted.
  cbn [RiskSpec.count_at_most]. rewrite IH. reflexivity.
Qed.

Lemma count_below_lower_bound (x : Q) (l : list Q) :
  Forall (fun y => x <= y) l -> RiskSpec.count_below l x = O.
Proof.
  induction 1 as [|y l Hy _ IH]; [reflexivity|].
  cbn [RiskSpec.count_below]. apply Qle_bool_iff in Hy. rewrite Hy.
  exact IH.
Qed.

(** In an ascending list the value at position [k] has rank [k]. *)
Lemma ascending_rank (s : list Q) :
  RiskSpec.ascending s ->
  forall k, (k < List.length s)%nat ->
    (RiskSpec.count_below s (nth k s 0%Q) <= k
     < RiskSpec.count_at_most s (nth k s 0%Q))%nat.
Proof.
  induction 1 as [|x l Hx Hl IH]; intros k Hk; cbn [List.length] in Hk.
  - lia.
  - destruct k as [|k]; cbn [nth RiskSpec.count_below RiskSpec.count_at_most].
    + rewrite (count_below_lower_bound x l Hx).
      assert (E : Qle_bool x x = true) by (apply Qle_bool_iff, Qle_refl).
      rewrite E. lia.
    + assert (Hle : x <= nth k l 0).
      { rewrite List.Forall_forall in Hx. apply Hx, nth_In. lia. }
      apply Qle_bool_iff in Hle. rewrite Hle.
      specialize (IH k ltac:(lia)).
      destruct (Qle_bool (nth k l 0) x); lia.
Qed.

(** The value the sort leaves at position [k] is the value of rank [k]
    of the series. *)
Lemma sort_has_rank (xs : list Q) (k : nat) :
  (k < List.length xs)%nat ->
  RiskSpec.has_rank xs k (nth k (Np.sort xs) 0).
Proof.
  intros Hk. split.
  - apply PercentileFacts.sort_In, nth_In.
    rewrite PercentileFacts.sort_length. exact Hk.
  - rewrite <- (count_below_sort _ xs), <- (count_at_most_sort _ xs).
    apply ascending_rank; [apply PercentileFacts.sort_ascending|].
    rewrite PercentileFacts.sort_length. exact Hk.
Qed.

Lemma count_at_most_le_count_below (x y : Q) (xs : list Q) :
  x < y ->
  (RiskSpec.count_at_most xs x <= RiskSpec.count_below xs y)%nat.
Proof.
  intros Hxy. induction xs as [|v xs IH]; [reflexivity|].
  cbn [RiskSpec.count_at_most RiskSpec.count_below].
  destruct (Qle_bool v x) eqn:E1, (Qle_bool y v) eqn:E2; try lia.
  apply Qle_bool_iff in E1, E2. exfalso.
  apply (Qlt_not_le _ _ Hxy). eapply Qle_trans; eassumption.
Qed.

(** A rank names one value: two values of the same rank are equal. *)
Lemma has_rank_unique (xs : list Q) (k : nat) (x y : Q) :
  RiskSpec.has_rank xs k x -> RiskSpec.has_rank xs k y -> x == y.
Proof.
  intros [_ [Hx1 Hx2]] [_ [Hy1 Hy2]].
  destruct (Q_dec x y) as [[Hlt|Hgt]|Heq]; [| |exact Heq]; exfalso.
  - pose proof (count_at_most_le_count_below x y xs Hlt). lia.
  - pose proof (count_at_most_le_count_below y x xs Hgt). lia.
Qed.


(** Both ranks of a percentile in range are positions of the series. *)
Lemma percentile_ranks_in_range (n : Z) (quant : Q) :
  (1 <= n)%Z -> 0 <= quant <= 1 ->
  let h := inject_Z (n - 1) * quant in
  (0 <= Qfloor h <= n - 1)%Z /\ (0 <= Qceiling h <= n - 1)%Z.
Proof.
  intros Hn [H0 H1] h.
  assert (Hn0 : 0 <= inject_Z (n - 1)).
  { change 0 with (inject_Z 0). rewrite <- Zle_Qle. lia. }
  assert (Hh0 : 0 <= h) by (subst h; apply Qmult_le_0_compat; assumption).
  assert (Hh1 : h <= inject_Z (n - 1)) by (subst h; nra).
  split; split.
  - change 0%Z with (Qfloor 0). apply Qfloor_resp_le, Hh0.
  - rewrite <- (Qfloor_Z (n - 1)). apply Qfloor_resp_le, Hh1.
  - change 0%Z with (Qceiling 0). apply Qceiling_resp_le, Hh0.
  - rewrite <- (Qceiling_Z (n - 1)). apply Qceiling_resp_le, Hh1.
Qed.

(** What [np.percentile] returns on a non-empty array is the percentile
    by linear interpolation between ranks. *)
Lemma percentile_is_percentile (a : list Q) (q : Q) :
  a <> [] -> 0 <= q / 100 <= 1 ->
  exists v, Np.percentile a q = Py.Return v /\ RiskSpec.is_percentile a q v.
Proof.
  intros Hne Hq.
  destruct (PercentileFacts.percentile_nonempty a q Hne Hq)
    as (v & _ & _ & _ & Hv & _ & _ & _ & _ & Hspec).
  exists v. split; [exact Hv|].
  assert (Hn : (1 <= Z.of_nat (List.length a))%Z).
  { destruct a; [congruence|cbn [List.length]; lia]. }
  destruct (percentile_ranks_in_range _ (q / 100) Hn Hq) as [Hf Hc].
  unfold RiskSpec.is_percentile.
  exists (nth (Z.to_nat (Qfloor (inject_Z (Z.of_nat (List.length a) - 1)
                                 * (q / 100)))) (Np.sort a) 0),
         (nth (Z.to_nat (Qceiling (inject_Z (Z.of_nat (List.length a) - 1)
                                   * (q / 100)))) (Np.sort a) 0).
  split; [apply sort_has_rank; lia|].
  split; [apply sort_has_rank; lia|].
  exact Hspec.
Qed.

End RankFacts.

(** ** Value at Risk and Expected Shortfall *)

Module VarFacts.
Import RiskManagement.
Local Open Scope Q_scope.

Lemma confidence_quantile (c : Q) :
  0 <= c <= 1 -> 0 <= (1 - c) * 100 / 100 <= 1.
Proof.
  intros [H0 H1].
  assert (E : (1 - c) * 100 / 100 == 1 - c) by (field; discriminate).
  rewrite E. lra.
Qed.

Lemma calculate_var_empty (c : Q) :
  0 <= c <= 1 -> calculate_var [] c = Py.Raise Py.IndexError.
Proof.
  intros Hc. unfold calculate_var, Np.percentile.
  now rewrite (PercentileFacts.quantile_in_range c Hc).
Qed.

Lemma calculate_var_nonempty (returns : list Q) (c : Q) :
  returns <> [] -> 0 <= c <= 1 ->
  exists v,
    calculate_var returns c = Py.Return v
    /\ v == RiskSpec.percentile_linear returns ((1 - c) * 100).
Proof.
  intros Hne Hc.
  destruct (PercentileFacts.percentile_nonempty returns
              ((1 - c) * 100) Hne (confidence_quantile _ Hc))
    as (v & i & j & g & Hv & _ & _ & _ & _ & Hspec).
  exists v. split; assumption.
Qed.

(** C4, as the code has it.  For a confidence level in [0, 1],
    [calculate_var] fails exactly when the return series is empty, and
    then with the [IndexError] of [np.percentile]: the code has no error
    of its own for a missing series.  On a non-empty series it returns
    the [(1 - confidence) * 100]-th percentile by linear interpolation
    between ranks, the ranks being told by counting the returns below
    and at most a value. *)
Theorem var_is_interpolated_percentile
    (returns : list Q) (confidence : Q) (Hc : 0 <= confidence <= 1) :
  (Py.raises (calculate_var returns confidence) = true <-> returns = [])
  /\ (returns = [] ->
      calculate_var returns confidence = Py.Raise Py.IndexError)
  /\ (returns <> [] ->
      exists v,
        calculate_var returns confidence = Py.Return v
        /\ RiskSpec.is_percentile returns ((1 - confidence) * 100) v).
Proof.
  assert (Hok : returns <> [] ->
      exists v,
        calculate_var returns confidence = Py.Return v
        /\ RiskSpec.is_percentile returns ((1 - confidence) * 100) v).
  { intros Hne.
    exact (RankFacts.percentile_is_percentile returns _ Hne
             (confidence_quantile _ Hc)). }
  split; [|split].
  - split.
    + intros Hr. destruct returns as [|r rest]; [reflexivity|].
      destruct Hok as (v & Hv & _); [discriminate|].
      rewrite Hv in Hr. discriminate.
    + intros ->. now rewrite (calculate_var_empty _ Hc).
  - intros ->. exact (calculate_var_empty _ Hc).
  - exact Hok.
Qed.

Lemma var_is_interpolated_percentile_witness :
  calculate_var [] (95 # 100) = Py.Raise Py.IndexError
  /\ exists v,
       calculate_var SampleSeries.reference (95 # 100) = Py.Return v
       /\ RiskSpec.is_percentile SampleSeries.reference
            ((1 - (95 # 100)) * 100) v.
Proof.
  assert (Hc : 0 <= 95 # 100 <= 1) by (split; discriminate).
  split.
  - apply (var_is_interpolated_percentile [] (95 # 100) Hc).
    reflexivity.
  - apply (var_is_interpolated_percentile
             SampleSeries.reference (95 # 100) Hc).
    discriminate.
Defined.

(** C4, as stated, fails: a series that is not empty makes
    [calculate_var] fail when the confidence level is out of range, and
    the failure on the empty series is NumPy's [IndexError]. *)
Lemma var_fails_on_a_series_that_is_not_empty :
  [1 # 100] <> []
  /\ calculate_var [1 # 100] 2 = Py.Raise Py.ValueError
  /\ calculate_var [] (95 # 100) = Py.Raise Py.IndexError.
Proof. split; [discriminate|]. split; vm_compute; reflexivity. Qed.


(** The reference series of the design document: the 5th percentile of
    [0.01, -0.02, 0.03, -0.01, 0.04] is [-0.018]. *)
Example var_reference_value :
  exists v, calculate_var SampleSeries.reference (95 # 100) = Py.Return v
            /\ v == - (18 # 1000).
Proof. eexists. split; [vm_compute; reflexivity|reflexivity]. Qed.








End VarFacts.

(** ** Maximum drawdown *)

Module DrawdownFacts.
Import RiskManagement.
Local Open Scope Q_scope.

(** *** The arrays of the code, position by position *)

Lemma cumprod_from_length (l : list Q) (acc : Q) :
  List.length (Np.cumprod_from acc l) = List.length l.
Proof.
  revert acc. induction l as [|x l IH]; intros acc; simpl; [reflexivity|].
  now rewrite IH.
Qed.

Lemma cumprod_length (l : list Q) :
  List.length (Np.cumprod l) = List.length l.
Proof. destruct l; simpl; [reflexivity|]. now rewrite cumprod_from_length. Qed.

Lemma maximum_accumulate_from_length (l : list Q) (acc : Q) :
  List.length (Np.maximum_accumulate_from acc l) = List.length l.
Proof.
  revert acc. induction l as [|x l IH]; intros acc; simpl; [reflexivity|].
  now rewrite IH.
Qed.

Lemma maximum_accumulate_length (l : list Q) :
  List.length (Np.maximum_accumulate l) = List.length l.
Proof.
  destruct l; simpl; [reflexivity|].
  now rewrite maximum_accumulate_from_length.
Qed.

Lemma cumprod_from_step (l : list Q) (acc : Q) (i : nat) :
  (S i < List.length l)%nat ->
  nth (S i) (Np.cumprod_from acc l) 0
  = nth i (Np.cumprod_from acc l) 0 * nth (S i) l 0.
Proof.
  revert acc i. induction l as [|x l IH]; intros acc i Hi; simpl in Hi.
  - lia.
  - destruct i as [|i].
    + destruct l as [|y l]; simpl in *; [lia|reflexivity].
    + change (nth (S (S i)) (Np.cumprod_from acc (x :: l)) 0)
        with (nth (S i) (Np.cumprod_from (acc * x) l) 0).
      rewrite IH by lia. reflexivity.
Qed.

Lemma cumprod_step (c : list Q) (i : nat) :
  (S i < List.length c)%nat ->
  nth (S i) (Np.cumprod c) 0 = nth i (Np.cumprod c) 0 * nth (S i) c 0.
Proof.
  destruct c as [|x l]; simpl; intros Hi; [lia|].
  destruct i as [|i].
  - destruct l as [|y l]; simpl in *; [lia|reflexivity].
  - apply cumprod_from_step. lia.
Qed.

Lemma maximum_accumulate_from_step (l : list Q) (acc : Q) (i : nat) :
  (S i < List.length l)%nat ->
  nth (S i) (Np.maximum_accumulate_from acc l) 0
  = Np.Qmaximum (nth i (Np.maximum_accumulate_from acc l) 0) (nth (S i) l 0).
Proof.
  revert acc i. induction l as [|x l IH]; intros acc i Hi; simpl in Hi.
  - lia.
  - destruct i as [|i].
    + destruct l as [|y l]; simpl in *; [lia|reflexivity].
    + change (nth (S (S i)) (Np.maximum_accumulate_from acc (x :: l)) 0)
        with (nth (S i)
                (Np.maximum_accumulate_from (Np.Qmaximum acc x) l) 0).
      rewrite IH by lia. reflexivity.
Qed.

Lemma maximum_accumulate_step (c : list Q) (i : nat) :
  (S i < List.length c)%nat ->
  nth (S i) (Np.maximum_accumulate c) 0
  = Np.Qmaximum (nth i (Np.maximum_accumulate c) 0) (nth (S i) c 0).
Proof.
  destruct c as [|x l]; simpl; intros Hi; [lia|].
  destruct i as [|i].
  - destruct l as [|y l]; simpl in *; [lia|reflexivity].
  - apply maximum_accumulate_from_step. lia.
Qed.

Lemma nth_zip_with {A B C} (f : A -> B -> C) (l : list A) (k : list B)
    (i : nat) (a : A) (b : B) (c : C) :
  (i < List.length l)%nat -> (i < List.length k)%nat ->
  nth i (zip_with f l k) c = f (nth i l a) (nth i k b).
Proof.
  revert k i. induction l as [|x l IH]; intros k i Hl Hk; simpl in Hl.
  - lia.
  - destruct k as [|y k]; simpl in Hk; [lia|].
    destruct i as [|i]; simpl; [reflexivity|]. apply IH; lia.
Qed.

Lemma zip_with_length_same {A B C} (f : A -> B -> C)
    (l : list A) (k : list B) :
  List.length l = List.length k ->
  List.length (zip_with f l k) = List.length l.
Proof.
  revert k. induction l as [|x l IH]; intros [|y k] H; simpl in *;
    try reflexivity; try discriminate.
  f_equal. apply IH. lia.
Qed.

Lemma Qmaximum_max (x x' y y' : Q) :
  x == x' -> y == y' -> Np.Qmaximum x y == Qmax x' y'.
Proof.
  intros Hx Hy. unfold Np.Qmaximum. rewrite <- Hx, <- Hy.
  destruct (Qle_bool x y) eqn:E.
  - apply Qle_bool_iff in E. symmetry. apply Q.max_r, E.
  - apply NpFacts.Qle_bool_false_iff in E.
    symmetry. apply Q.max_l, Qlt_le_weak, E.
Qed.

(** *** The quantities of the design document *)

Lemma cumulative_at_zero (returns : list Q) :
  (0 < List.length returns)%nat ->
  RiskSpec.cumulative_at returns 0 == 1 + nth 0 returns 0.
Proof.
  destruct returns as [|r rest]; simpl; intros H; [lia|].
  unfold RiskSpec.cumulative_at. simpl. ring.
Qed.

Lemma cumprod_first (c : list Q) : nth 0 (Np.cumprod c) 0 = nth 0 c 0.
Proof. destruct c; reflexivity. Qed.

Lemma maximum_accumulate_first (c : list Q) :
  nth 0 (Np.maximum_accumulate c) 0 = nth 0 c 0.
Proof. destruct c; reflexivity. Qed.

Lemma cumulative_at_step (returns : list Q) (i : nat) :
  (S i < List.length returns)%nat ->
  RiskSpec.cumulative_at returns (S i)
  == RiskSpec.cumulative_at returns i * (1 + nth (S i) returns 0).
Proof.
  unfold RiskSpec.cumulative_at.
  revert i. induction returns as [|x l IH]; intros i Hi; simpl in Hi.
  - lia.
  - destruct i as [|i].
    + destruct l as [|y l]; simpl in *; [lia|]. ring.
    + change (firstn (S (S (S i))) (x :: l))
        with (x :: firstn (S (S i)) l).
      change (firstn (S (S i)) (x :: l)) with (x :: firstn (S i) l).
      change (nth (S (S i)) (x :: l) 0) with (nth (S i) l 0).
      cbn [fold_right]. rewrite IH by lia. ring.
Qed.

Section Series.
Variable returns : list Q.
Hypothesis above_minus_one : Forall (fun r => -1 < r) returns.

Lemma growth_positive (i : nat) :
  (i < List.length returns)%nat -> 0 < 1 + nth i returns 0.
Proof.
  intros Hi. rewrite List.Forall_forall in above_minus_one.
  pose proof (above_minus_one _ (nth_In returns 0 Hi)). lra.
Qed.

Lemma cumulative_positive (i : nat) :
  (i < List.length returns)%nat -> 0 < RiskSpec.cumulative_at returns i.
Proof.
  induction i as [|i IH]; intros Hi.
  - rewrite cumulative_at_zero by exact Hi.
    apply growth_positive, Hi.
  - rewrite cumulative_at_step by exact Hi.
    apply Qmult_lt_0_compat; [apply IH; lia|apply growth_positive, Hi].
Qed.

Lemma running_max_ge_cumulative (i : nat) :
  RiskSpec.cumulative_at returns i <= RiskSpec.running_max_at returns i.
Proof.
  destruct i as [|i]; simpl; [apply Qle_refl|apply Q.le_max_r].
Qed.

Lemma running_max_positive (i : nat) :
  (i < List.length returns)%nat -> 0 < RiskSpec.running_max_at returns i.
Proof.
  intros Hi. eapply Qlt_le_trans; [apply cumulative_positive, Hi|].
  apply running_max_ge_cumulative.
Qed.

Lemma drawdown_nonpositive (i : nat) :
  (i < List.length returns)%nat -> RiskSpec.drawdown_at returns i <= 0.
Proof.
  intros Hi. unfold RiskSpec.drawdown_at.
  pose proof (running_max_positive i Hi) as Hm.
  pose proof (running_max_ge_cumulative i) as Hc.
  apply Qle_shift_div_r; [exact Hm|]. lra.
Qed.

Lemma min_drawdown_nonpositive (k : nat) :
  (k < List.length returns)%nat ->
  RiskSpec.min_drawdown_upto returns k <= 0.
Proof.
  induction k as [|k IH]; intros Hk; simpl.
  - apply drawdown_nonpositive, Hk.
  - eapply Qle_trans; [apply Q.le_min_l|]. apply IH. lia.
Qed.

(** The cumulative array and its running maximum are the quantities
    of the design document at every position. *)
Lemma arrays_agree (i : nat) :
  (i < List.length returns)%nat ->
  let cumulative := Np.cumprod (List.map (fun r => 1 + r) returns) in
  nth i cumulative 0 == RiskSpec.cumulative_at returns i
  /\ nth i (Np.maximum_accumulate cumulative) 0
     == RiskSpec.running_max_at returns i.
Proof.
  intros Hi cumulative.
  assert (Hlen : List.length (List.map (fun r => 1 + r) returns)
                 = List.length returns) by apply List.length_map.
  assert (Hgrow : forall j, (j < List.length returns)%nat ->
            nth j (List.map (fun r => 1 + r) returns) 0
            = 1 + nth j returns 0).
  { intros j Hj.
    rewrite (nth_indep _ 0 (1 + 0)) by (rewrite Hlen; exact Hj).
    apply (map_nth (fun r => 1 + r)). }
  induction i as [|i IH].
  - rewrite maximum_accumulate_first. subst cumulative.
    cbn [RiskSpec.running_max_at].
    rewrite cumprod_first, Hgrow, cumulative_at_zero by exact Hi.
    split; reflexivity.
  - destruct IH as [IHc IHm]; [lia|].
    assert (Ec : nth (S i) cumulative 0
                 == RiskSpec.cumulative_at returns (S i)).
    { subst cumulative. rewrite cumprod_step by (rewrite Hlen; exact Hi).
      rewrite Hgrow by exact Hi.
      rewrite cumulative_at_step by exact Hi.
      rewrite IHc. reflexivity. }
    split; [exact Ec|].
    rewrite maximum_accumulate_step
      by (subst cumulative; rewrite cumprod_length, Hlen; exact Hi).
    cbn [RiskSpec.running_max_at].
    apply Qmaximum_max; assumption.
Qed.

(** Each entry of the drawdown array is a finite number, the drawdown
    of its period. *)
Lemma drawdown_entry (i : nat) :
  (i < List.length returns)%nat ->
  let cumulative := Np.cumprod (List.map (fun r => 1 + r) returns) in
  let running_max := Np.maximum_accumulate cumulative in
  exists d,
    nth i (zip_with (fun c m => Np.divide (Np.Fin (c - m)) (Np.Fin m))
             cumulative running_max) Np.NaN = Np.Fin d
    /\ d == RiskSpec.drawdown_at returns i.
Proof.
  intros Hi cumulative running_max.
  destruct (arrays_agree i Hi) as [Hc Hm].
  fold cumulative in Hc, Hm. fold running_max in Hm.
  assert (Hlc : List.length cumulative = List.length returns).
  { subst cumulative. now rewrite cumprod_length, List.length_map. }
  assert (Hlm : List.length running_max = List.length returns).
  { subst running_max. now rewrite maximum_accumulate_length. }
  rewrite (nth_zip_with _ cumulative running_max i 0 0)
    by (rewrite ?Hlc, ?Hlm; exact Hi).
  pose proof (running_max_positive i Hi) as Hpos.
  assert (Hnz : ~ nth i running_max 0 == 0).
  { rewrite Hm. intros E. rewrite E in Hpos.
    exact (Qlt_irrefl _ Hpos). }
  unfold Np.divide.
  rewrite (proj2 (NpFacts.Qis_zero_false_iff _) Hnz).
  eexists. split; [reflexivity|].
  unfold RiskSpec.drawdown_at. rewrite Hc, Hm. reflexivity.
Qed.

End Series.

(** *** The minimum of the drawdown array *)

Lemma fold_left_firstn_step {A B} (f : A -> B -> A) (l : list B)
    (k : nat) (a : A) (d : B) :
  (k < List.length l)%nat ->
  fold_left f (firstn (S k) l) a = f (fold_left f (firstn k l) a) (nth k l d).
Proof.
  revert k a. induction l as [|x l IH]; intros k a Hk; simpl in Hk.
  - lia.
  - destruct k as [|k]; [reflexivity|].
    change (firstn (S (S k)) (x :: l)) with (x :: firstn (S k) l).
    change (firstn (S k) (x :: l)) with (x :: firstn k l).
    cbn [fold_left nth]. apply IH. lia.
Qed.

Lemma minimum_finite (a a' b b' : Q) :
  a == a' -> b == b' ->
  exists q, Np.minimum (Np.Fin a) (Np.Fin b) = Np.Fin q /\ q == Qmin a' b'.
Proof.
  intros Ha Hb. cbn [Np.minimum].
  destruct (Qle_bool a b) eqn:E; eexists; (split; [reflexivity|]);
    rewrite <- Ha, <- Hb.
  - apply Qle_bool_iff in E. symmetry. apply Q.min_l, E.
  - apply NpFacts.Qle_bool_false_iff in E.
    symmetry. apply Q.min_r, Qlt_le_weak, E.
Qed.

Lemma running_minimum (returns : list Q) (d0 : Np.float64)
    (rest : list Np.float64) :
  Forall (fun r => -1 < r) returns ->
  (let cumulative := Np.cumprod (List.map (fun r => 1 + r) returns) in
   zip_with (fun c m => Np.divide (Np.Fin (c - m)) (Np.Fin m))
     cumulative (Np.maximum_accumulate cumulative)) = d0 :: rest ->
  List.length returns = S (List.length rest) ->
  forall k, (k <= List.length rest)%nat ->
  exists q, fold_left Np.minimum (firstn k rest) d0 = Np.Fin q
            /\ q == RiskSpec.min_drawdown_upto returns k.
Proof.
  intros Hgt HD Hlen k. induction k as [|k IH]; intros Hk.
  - destruct (drawdown_entry returns Hgt 0 ltac:(lia)) as (d & Hd & Ed).
    cbv zeta in Hd, HD. rewrite HD in Hd. simpl in Hd.
    exists d. split; [exact Hd|exact Ed].
  - destruct IH as (q & Hq & Eq); [lia|].
    destruct (drawdown_entry returns Hgt (S k) ltac:(lia)) as (d & Hd & Ed).
    cbv zeta in Hd, HD. rewrite HD in Hd.
    change (nth (S k) (d0 :: rest) Np.NaN) with (nth k rest Np.NaN) in Hd.
    rewrite (fold_left_firstn_step Np.minimum rest k d0 Np.NaN) by lia.
    rewrite Hq, Hd.
    destruct (minimum_finite q (RiskSpec.min_drawdown_upto returns k)
                d (RiskSpec.drawdown_at returns (S k)) Eq Ed)
      as (m & Hm & Em).
    exists m. split; [exact Hm|exact Em].
Qed.

(** *** A series that only rises *)

Section Rising.
Variable returns : list Q.
Hypothesis all_positive : Forall (fun r => 0 < r) returns.

Lemma rising_above_minus_one : Forall (fun r => -1 < r) returns.
Proof.
  eapply List.Forall_impl; [|exact all_positive].
  intros r Hr. cbn beta in *. lra.
Qed.

Lemma rising_running_max (i : nat) :
  (i < List.length returns)%nat ->
  RiskSpec.running_max_at returns i == RiskSpec.cumulative_at returns i.
Proof.
  induction i as [|i IH]; intros Hi; [reflexivity|].
  cbn [RiskSpec.running_max_at]. rewrite IH by lia.
  apply Q.max_r. rewrite cumulative_at_step by exact Hi.
  pose proof (cumulative_positive returns rising_above_minus_one i
                ltac:(lia)) as Hpos.
  rewrite List.Forall_forall in all_positive.
  pose proof (all_positive _ (nth_In returns 0 Hi)) as Hr.
  cbn beta in Hr. nra.
Qed.

Lemma rising_drawdown (i : nat) :
  (i < List.length returns)%nat -> RiskSpec.drawdown_at returns i == 0.
Proof.
  intros Hi. unfold RiskSpec.drawdown_at.
  rewrite (rising_running_max i Hi). unfold Qdiv. ring.
Qed.

Lemma rising_min_drawdown (k : nat) :
  (k < List.length returns)%nat ->
  RiskSpec.min_drawdown_upto returns k == 0.
Proof.
  induction k as [|k IH]; intros Hk; cbn [RiskSpec.min_drawdown_upto].
  - apply rising_drawdown, Hk.
  - rewrite IH by lia. rewrite (rising_drawdown (S k) Hk).
    apply Q.min_l, Qle_refl.
Qed.

End Rising.

(** C8, as the code has it.  For a non-empty return series with every
    return above [-1] whose running product of [(1 + r)] stays within
    the range of binary64 numbers, [calculate_max_drawdown] returns a
    finite number: the minimum over the periods of
    [(cumulative - runningMax) / runningMax], with [cumulative] the
    running product and [runningMax] its running maximum.  The number
    is never positive, and it is zero when every return is positive.
    The rational numbers of the model have no largest one; the
    hypothesis on the range marks where they stand for the code's. *)
Theorem max_drawdown_is_minimum_running_drawdown
    (returns : list Q)
    (Hne : returns <> [])
    (Hgt : Forall (fun r => -1 < r) returns)
    (Hrange : RiskSpec.in_float_range returns) :
  exists q,
    calculate_max_drawdown returns = Py.Return (Np.Fin q)
    /\ q == RiskSpec.max_drawdown returns
    /\ q <= 0
    /\ (Forall (fun r => 0 < r) returns -> q == 0).
Proof.
  unfold calculate_max_drawdown.
  set (cumulative := Np.cumprod (List.map (fun r => 1 + r) returns)).
  set (D := zip_with (fun c m => Np.divide (Np.Fin (c - m)) (Np.Fin m))
              cumulative (Np.maximum_accumulate cumulative)).
  assert (HlenD : List.length D = List.length returns).
  { subst D. rewrite zip_with_length_same.
    - subst cumulative. now rewrite cumprod_length, List.length_map.
    - now rewrite maximum_accumulate_length. }
  destruct D as [|d0 rest] eqn:ED.
  { destruct returns; [congruence|discriminate]. }
  simpl in HlenD.
  destruct (running_minimum returns d0 rest Hgt ED (eq_sym HlenD)
              (List.length rest) (Nat.le_refl _)) as (q & Hq & Eq).
  rewrite List.firstn_all in Hq.
  assert (Hspec : q == RiskSpec.max_drawdown returns).
  { unfold RiskSpec.max_drawdown. rewrite <- HlenD.
    replace (S (List.length rest) - 1)%nat with (List.length rest) by lia.
    exact Eq. }
  exists q. split; [cbn [Np.min]; now rewrite Hq|].
  split; [exact Hspec|]. split.
  - rewrite Eq. apply min_drawdown_nonpositive; [exact Hgt|lia].
  - intros Hpos. rewrite Eq. apply rising_min_drawdown; [exact Hpos|lia].
Qed.

Lemma max_drawdown_is_minimum_running_drawdown_witness :
  exists q,
    calculate_max_drawdown SampleSeries.dip = Py.Return (Np.Fin q)
    /\ q == RiskSpec.max_drawdown SampleSeries.dip
    /\ q <= 0
    /\ (Forall (fun r => 0 < r) SampleSeries.dip -> q == 0).
Proof.
  apply (max_drawdown_is_minimum_running_drawdown SampleSeries.dip).
  - discriminate.
  - repeat constructor.
  - intros [|[|[|i]]] Hi; [| | |cbn in Hi; lia];
      apply Qle_bool_iff; vm_compute; reflexivity.
Defined.

(** C8, as stated, fails: on binary64 numbers the running product of a
    rising series can leave the range.  Eleven hundred returns of 100
    percent, and two returns of [2^1023], are series of positive
    returns; the product overflows to [inf], the drawdown there is
    [(inf - inf) / inf], and the result is [nan], not [0]. *)
Lemma max_drawdown_of_rising_series_overflows :
  forallb (fun r => PrimFloat.ltb 0 r) (repeat 1%float 1100) = true
  /\ Binary64.calculate_max_drawdown (repeat 1%float 1100)
     = Py.Return PrimFloat.nan
  /\ Binary64.calculate_max_drawdown [0x1p1023%float; 0x1p1023%float]
     = Py.Return PrimFloat.nan
  /\ PrimFloat.nan <> 0%float.
Proof.
  split; [vm_compute; reflexivity|].
  split; [vm_compute; reflexivity|].
  split; [vm_compute; reflexivity|].
  intros H.
  assert (E : PrimFloat.is_nan PrimFloat.nan = PrimFloat.is_nan 0%float)
    by (rewrite H; reflexivity).
  discriminate E.
Qed.

(** Inside the range the two pipelines agree: the series of the design
    document on binary64 numbers. *)
Example max_drawdown_dip_binary64 :
  Binary64.calculate_max_drawdown [0x1.999999999999ap-4; -0.5; 0x1.999999999999ap-4]%float
  = Py.Return (-0.5)%float.
Proof. vm_compute. reflexivity. Qed.

(** The two series of the design document: [0.1, -0.5, 0.1] loses half
    from its peak; a rising series has no drawdown. *)
Example max_drawdown_dip :
  exists q, calculate_max_drawdown SampleSeries.dip = Py.Return (Np.Fin q)
            /\ q == - (1 # 2).
Proof. eexists. split; [vm_compute; reflexivity|reflexivity]. Qed.

Example max_drawdown_rising :
  exists q, calculate_max_drawdown SampleSeries.rising
            = Py.Return (Np.Fin q) /\ q == 0.
Proof. eexists. split; [vm_compute; reflexivity|reflexivity]. Qed.

End DrawdownFacts.

(** ** CooldownGate *)

Module CooldownFacts.
Import App.
Local Open Scope Q_scope.

(** [_check_cooldown] admits exactly when the key has no entry or the
    cooldown has elapsed, and it changes nothing. *)
Lemma check_cooldown_passes_iff (now : Q) (alert_type : string) (st : state) :
  snd (_check_cooldown now alert_type st) = st
  /\ (fst (_check_cooldown now alert_type st) = Py.Return true <->
      last_alert_time st !! alert_type = None
      \/ exists last, last_alert_time st !! alert_type = Some last
                      /\ inject_Z (cooldown_period st) <= now - last).
Proof.
  unfold _check_cooldown. cbn. split; [reflexivity|].
  destruct (last_alert_time st !! alert_type) as [last|].
  - split.
    + intros [= H]. right. exists last. split; [reflexivity|].
      apply Qle_bool_iff, H.
    + intros [H|(l & [= <-] & H)]; [discriminate|].
      f_equal. apply Qle_bool_iff, H.
  - split; [intros _; left; reflexivity|reflexivity].
Qed.

(** The single-argument call of [_save_alert_history] raises and
    leaves the state as it was. *)
Lemma save_alert_history_one_argument (e : env) (a : alert) (st : state) :
  _save_alert_history e (positional1 a) st = (Py.Raise Py.TypeError, st).
Proof. reflexivity. Qed.

Lemma logger_last_alert_time lvl site st :
  last_alert_time (snd (logger lvl site st)) = last_alert_time st.
Proof. reflexivity. Qed.

(** [_send_alert] never stores a firing time: whatever the sender
    does, the call of [_save_alert_history] with the alert dict raises
    before the assignment to [last_alert_time] is reached. *)
Lemma send_alert_dict_never_records
    (e : env) (now later : Q) (a : alert) (st : state) :
  fst (_send_alert e now later a st) = Py.Return tt
  /\ last_alert_time (snd (_send_alert e now later a st))
     = last_alert_time st
  /\ alert_history (snd (_send_alert e now later a st)) = alert_history st.
Proof.
  unfold _send_alert, call_sender, getitem. py_simpl. unfold id.
  destruct (match last_alert_time st !! alert_key a with
            | Some last =>
                Np.Qlt_bool (now - last) (inject_Z (cooldown_period st))
            | None => false
            end); [cbn; auto|].
  destruct (String.eqb (type a) "service_down").
  - destruct (service_name a) as [name|]; [|cbn; auto].
    destruct (alert_sender e (send_service_down_alert name));
      cbn; auto.
  - destruct (value a) as [v|]; [|cbn; auto].
    destruct (threshold a) as [t|]; [|cbn; auto].
    destruct (alert_sender e (send_resource_alert (type a) v t));
      cbn; auto.
Qed.

(** C1.  Two CPU breaches ten seconds apart, with a cooldown of 300
    seconds and collaborators that all work, go through [_send_alert]:
    both reach the sender, and no firing time is stored. *)
Theorem two_breaches_within_window_both_sent :
  let st := snd (breaches CooldownSample.working
                   [(0, 0, CooldownSample.cpu_breach);
                    (10, 10, CooldownSample.cpu_breach)]
                   CooldownSample.fresh) in
  sent st = [CooldownSample.cpu_notification;
             CooldownSample.cpu_notification]
  /\ last_alert_time st = ∅
  /\ log st = [(ERROR, "_send_alert"); (ERROR, "_send_alert")].
Proof. vm_compute. auto. Qed.

(** The path through [send_alert(alert_type, severity, message)] does
    store the time: with collaborators that work, calls at 0, 10 and
    301 seconds leave two history rows and the last firing time 301. *)
Example send_alert_path_honours_cooldown :
  let run :=
    (_ ← send_alert CooldownSample.working 0 0 "cpu_usage" "warning" "85";
     _ ← send_alert CooldownSample.working 10 10 "cpu_usage" "warning" "85";
     send_alert CooldownSample.working 301 301 "cpu_usage" "warning" "85")
    : M unit in
  let st := snd (run CooldownSample.fresh) in
  List.length (alert_history st) = 2%nat
  /\ last_alert_time st !! "cpu_usage" = Some 301.
Proof. vm_compute. auto. Qed.

(** C10.  A candidate inside the cooldown window of its key is dropped
    without a trace in the manager: [_send_alert] returns with the
    state as it was, and [send_alert] changes nothing but the log (one
    INFO record): no notification, no history row, the stored firing
    time as before. *)
Theorem suppressed_alert_changes_nothing
    (e : env) (st : state) (now later last : Q) (a : alert)
    (severity message : string)
    (Hlast : last_alert_time st !! alert_key a = Some last)
    (Hwindow : now - last < inject_Z (cooldown_period st)) :
  _send_alert e now later a st = (Py.Return tt, st)
  /\ (let st' := snd (send_alert e now later (alert_key a)
                        severity message st) in
      fst (send_alert e now later (alert_key a) severity message st)
        = Py.Return tt
      /\ last_alert_time st' = last_alert_time st
      /\ sent st' = sent st
      /\ alert_history st' = alert_history st
      /\ cooldown_period st' = cooldown_period st
      /\ log st' = log st ++ [(INFO, "send_alert: cooldown")]).
Proof.
  split.
  - unfold _send_alert. py_simpl. unfold id. rewrite Hlast.
    rewrite (proj2 (NpFacts.Qlt_bool_iff _ _) Hwindow). reflexivity.
  - unfold send_alert, _check_cooldown. py_simpl. rewrite Hlast.
    rewrite (proj2 (NpFacts.Qle_bool_false_iff _ _) Hwindow).
    cbn. auto 10.
Qed.

Lemma suppressed_alert_changes_nothing_witness :
  _send_alert CooldownSample.working 10 10 CooldownSample.cpu_breach
    CooldownSample.fired_at_zero
  = (Py.Return tt, CooldownSample.fired_at_zero)
  /\ last_alert_time
       (snd (send_alert CooldownSample.working 10 10 "cpu_usage_"
               "warning" "85" CooldownSample.fired_at_zero))
     = last_alert_time CooldownSample.fired_at_zero.
Proof.
  destruct (suppressed_alert_changes_nothing CooldownSample.working
              CooldownSample.fired_at_zero 10 10 0
              CooldownSample.cpu_breach "warning" "85")
    as (H1 & _ & H2 & _).
  - vm_compute. reflexivity.
  - vm_compute. reflexivity.
  - split; [exact H1|exact H2].
Defined.

End CooldownFacts.

(** ** NotificationDispatcher *)

Module DispatchFacts.
Import AlertSender.

(** A channel send never raises: it answers [True] or [False]. *)
Lemma send_email_returns self net template data st :
  exists sent_ok st',
    send_email self net template data st = (Py.Return sent_ok, st').
Proof.
  unfold send_email.
  destruct (negb _); [cbn; eauto|].
  py_simpl.
  destruct (render_and_transmit template data (smtp_delivers net));
    cbn; eauto.
Qed.

Lemma send_slack_returns self net template data st :
  exists sent_ok st',
    send_slack self net template data st = (Py.Return sent_ok, st').
Proof.
  unfold send_slack.
  destruct (negb _); [cbn; eauto|].
  py_simpl.
  destruct (render_and_transmit template data (webhook_delivers net));
    cbn; eauto.
Qed.

(** C7, as the code has it.  [send_alert] never raises and hands back
    [None] whatever the channels did.  For a known alert type it
    attempts the e-mail and then the Slack send, the second whatever
    the first answered; when both answer [False] the only trace is one
    ERROR log record.  For an unknown alert type it logs an error and
    attempts nothing. *)
Theorem dispatch_returns_none_and_logs_total_failure
    (self : sender) (net : network) (alert_type : string)
    (data : list string) (st : state) :
  fst (send_alert self net alert_type data st) = Py.Return tt
  /\ (templates alert_type <> None ->
      exists email_sent slack_sent st1 st2,
        send_email self net alert_type data st = (Py.Return email_sent, st1)
        /\ send_slack self net alert_type data st1
           = (Py.Return slack_sent, st2)
        /\ snd (send_alert self net alert_type data st)
           = if negb email_sent && negb slack_sent
             then DispatchSpec.add_log st2
                    (ERROR, "send_alert: all sends failed")
             else st2)
  /\ (templates alert_type = None ->
      snd (send_alert self net alert_type data st)
      = DispatchSpec.add_log st (ERROR, "send_alert: unknown alert type")).
Proof.
  unfold send_alert.
  destruct (templates alert_type) as [placeholders|] eqn:Et.
  - destruct (send_email_returns self net alert_type data st)
      as (email_sent & st1 & He).
    destruct (send_slack_returns self net alert_type data st1)
      as (slack_sent & st2 & Hs).
    py_simpl. rewrite He, Hs.
    split; [|split].
    + destruct (negb email_sent && negb slack_sent); reflexivity.
    + intros _. exists email_sent, slack_sent, st1, st2.
      split; [first [exact He|reflexivity]|].
      split; [first [exact Hs|reflexivity]|].
      destruct (negb email_sent && negb slack_sent); reflexivity.
    + discriminate.
  - split; [reflexivity|]. split; [congruence|]. reflexivity.
Qed.

Lemma dispatch_returns_none_and_logs_total_failure_witness :
  snd (send_alert DispatchSample.configured DispatchSample.both_down
         "high_resource" DispatchSample.resource_data DispatchSample.quiet)
  = {| outbox := [];
       log := [(ERROR, "send_email: failed");
               (ERROR, "send_slack: failed");
               (ERROR, "send_alert: all sends failed")] |}.
Proof.
  destruct (dispatch_returns_none_and_logs_total_failure
              DispatchSample.configured DispatchSample.both_down
              "high_resource" DispatchSample.resource_data
              DispatchSample.quiet) as (_ & H & _).
  destruct H as (e & s & st1 & st2 & He & Hs & Hfinal);
    [vm_compute; discriminate|].
  rewrite Hfinal.
  vm_compute in He. injection He as <- <-.
  vm_compute in Hs. injection Hs as <- <-.
  reflexivity.
Defined.

(** Both channels down, and the Slack channel up: the caller receives
    the same [None]. *)
Example dispatch_both_down :
  send_alert DispatchSample.configured DispatchSample.both_down
    "high_resource" DispatchSample.resource_data DispatchSample.quiet
  = (Py.Return tt,
     {| outbox := [];
        log := [(ERROR, "send_email: failed");
                (ERROR, "send_slack: failed");
                (ERROR, "send_alert: all sends failed")] |}).
Proof. reflexivity. Qed.

Example dispatch_slack_only :
  send_alert DispatchSample.configured DispatchSample.slack_only
    "high_resource" DispatchSample.resource_data DispatchSample.quiet
  = (Py.Return tt,
     {| outbox := [(Slack, "high_resource")];
        log := [(ERROR, "send_email: failed");
                (INFO, "send_slack: sent")] |}).
Proof. reflexivity. Qed.

(** C7, as stated, fails: nothing the caller receives from
    [send_alert] separates a dispatch whose channels all failed from
    one where a channel succeeded. *)
Lemma dispatch_result_not_surfaced : ~ DispatchSpec.result_surfaced.
Proof.
  intros (read & Hread).
  pose proof (Hread DispatchSample.configured DispatchSample.both_down
                "high_resource" DispatchSample.resource_data
                DispatchSample.quiet) as Hdown.
  pose proof (Hread DispatchSample.configured DispatchSample.slack_only
                "high_resource" DispatchSample.resource_data
                DispatchSample.quiet) as Hup.
  vm_compute in Hdown, Hup. rewrite Hdown in Hup. discriminate.
Qed.

End DispatchFacts.

(** ** Resolve *)

Module ResolveFacts.
Local Open Scope Q_scope.

Ltac db_simpl :=
  unfold Db.first, Db.commit, Db.refresh in *; py_simpl.

(** What the risk-management handler does, case by case. *)
Lemma risk_resolve_cases (db : Db.session) (now : Q) (id : Z)
    (risk : gmap Z RiskAlerts.RiskAlert) :
  RiskAlerts.resolve_alert db now id risk
  = match (if Db.query_works db then risk !! id else None) with
    | Some a =>
        if Db.commit_works db
        then (Py.Return (RiskAlerts.set_resolved_at a now),
              <[id := RiskAlerts.set_resolved_at a now]> risk)
        else (Py.Raise (Py.HTTPException 500 "Failed to resolve alert"),
              risk)
    | None =>
        (Py.Raise (Py.HTTPException 500 "Failed to resolve alert"), risk)
    end.
Proof.
  unfold RiskAlerts.resolve_alert. db_simpl.
  destruct (Db.query_works db); cbn; [|reflexivity].
  destruct (risk !! id); cbn; [|reflexivity].
  destruct (Db.commit_works db); reflexivity.
Qed.

Lemma monitoring_resolve_cases (db : Db.session) (id : Z)
    (alerts : gmap Z Monitoring.Alert) :
  Monitoring.resolve_alert db id alerts
  = match (if Db.query_works db then Some (alerts !! id) else None) with
    | Some (Some a) =>
        if Db.commit_works db
        then (Py.Return ("Alert " ++ pretty id ++ " resolved")%string,
              <[id := Monitoring.set_resolved a]> alerts)
        else (Py.Raise (Py.HTTPException 500 (Db.message db)), alerts)
    | Some None =>
        (Py.Raise (Py.HTTPException 500
                     (pretty 404%Z ++ ": " ++ "Alert not found")%string),
         alerts)
    | None => (Py.Raise (Py.HTTPException 500 (Db.message db)), alerts)
    end.
Proof.
  unfold Monitoring.resolve_alert. db_simpl.
  destruct (Db.query_works db); cbn; [|reflexivity].
  destruct (alerts !! id); cbn; [|reflexivity].
  destruct (Db.commit_works db); reflexivity.
Qed.

Lemma api_resolve_cases (db : Db.session) (now : Q) (id : Z)
    (who : string) (history : gmap Z AppApi.AlertHistory) :
  AppApi.resolve_alert db now id who history
  = match (if Db.query_works db then Some (history !! id) else None) with
    | Some (Some h) =>
        if Db.commit_works db
        then if Db.refresh_works db
             then (Py.Return (AppApi.resolve_row h who now),
                   <[id := AppApi.resolve_row h who now]> history)
             else (Py.Raise (Py.HTTPException 500 (Db.message db)),
                   <[id := AppApi.resolve_row h who now]> history)
        else (Py.Raise (Py.HTTPException 500 (Db.message db)), history)
    | Some None =>
        (Py.Raise (Py.HTTPException 404 "알림 이력을 찾을 수 없습니다."),
         history)
    | None => (Py.Raise Py.DatabaseError, history)
    end.
Proof.
  unfold AppApi.resolve_alert. db_simpl.
  destruct (Db.query_works db); cbn; [|reflexivity].
  destruct (history !! id); cbn; [|reflexivity].
  destruct (Db.commit_works db); cbn; [|reflexivity].
  destruct (Db.refresh_works db); reflexivity.
Qed.

(** C6, as the code has it.  With a database that works, resolving an
    alert that exists returns success, also when it is already
    resolved, and stamps it with the time of this call (and, where the
    handler records one, with the resolver of this call): a second
    resolve replaces the values of the first.  The handler of the
    monitoring service only raises a flag, and there a second resolve
    changes nothing.  A resolve fails when no alert with the id exists
    and when the query or the commit fails (in [app/api.py] also the
    refresh).  The two [main.py] handlers answer every failure, the
    missing alert included, with status 500; [app/api.py] answers 404
    exactly for a missing row. *)
Theorem resolve_again_succeeds_and_restamps
    (risk : gmap Z RiskAlerts.RiskAlert)
    (history : gmap Z AppApi.AlertHistory)
    (alerts : gmap Z Monitoring.Alert)
    (db : Db.session) (id : Z) (t1 t2 : Q) (who1 who2 : string) :
  (* risk-management-service *)
  (forall a, risk !! id = Some a ->
     let t := snd (RiskAlerts.resolve_alert Db.working t1 id risk) in
     RiskAlerts.resolve_alert Db.working t1 id risk
       = (Py.Return (RiskAlerts.set_resolved_at a t1),
          <[id := RiskAlerts.set_resolved_at a t1]> risk)
     /\ RiskAlerts.resolve_alert Db.working t2 id t
        = (Py.Return (RiskAlerts.set_resolved_at a t2),
           <[id := RiskAlerts.set_resolved_at a t2]> risk))
  /\ (Py.raises (fst (RiskAlerts.resolve_alert db t1 id risk)) = true
      <-> Db.query_works db = false \/ risk !! id = None
          \/ Db.commit_works db = false)
  /\ (Py.raises (fst (RiskAlerts.resolve_alert db t1 id risk)) = true ->
      fst (RiskAlerts.resolve_alert db t1 id risk)
      = Py.Raise (Py.HTTPException 500 "Failed to resolve alert"))
  (* monitoring-services/app/api.py *)
  /\ (forall h, history !! id = Some h ->
     let t := snd (AppApi.resolve_alert Db.working t1 id who1 history) in
     AppApi.resolve_alert Db.working t1 id who1 history
       = (Py.Return (AppApi.resolve_row h who1 t1),
          <[id := AppApi.resolve_row h who1 t1]> history)
     /\ AppApi.resolve_alert Db.working t2 id who2 t
        = (Py.Return (AppApi.resolve_row h who2 t2),
           <[id := AppApi.resolve_row h who2 t2]> history))
  /\ (Py.raises (fst (AppApi.resolve_alert db t1 id who1 history)) = true
      <-> Db.query_works db = false \/ history !! id = None
          \/ Db.commit_works db = false \/ Db.refresh_works db = false)
  /\ ((exists detail,
         fst (AppApi.resolve_alert db t1 id who1 history)
         = Py.Raise (Py.HTTPException 404 detail))
      <-> Db.query_works db = true /\ history !! id = None)
  (* monitoring-services/main.py *)
  /\ (forall a, alerts !! id = Some a ->
     let t := snd (Monitoring.resolve_alert Db.working id alerts) in
     Py.raises (fst (Monitoring.resolve_alert Db.working id alerts)) = false
     /\ Py.raises (fst (Monitoring.resolve_alert Db.working id t)) = false
     /\ snd (Monitoring.resolve_alert Db.working id t) = t)
  /\ (Py.raises (fst (Monitoring.resolve_alert db id alerts)) = true
      <-> Db.query_works db = false \/ alerts !! id = None
          \/ Db.commit_works db = false)
  /\ (Py.raises (fst (Monitoring.resolve_alert db id alerts)) = true ->
      exists detail,
        fst (Monitoring.resolve_alert db id alerts)
        = Py.Raise (Py.HTTPException 500 detail)).
Proof.
  split; [|split; [|split; [|split; [|split; [|split; [|split;
    [|split]]]]]]].
  - intros a Ha.
    assert (E : RiskAlerts.resolve_alert Db.working t1 id risk
                = (Py.Return (RiskAlerts.set_resolved_at a t1),
                   <[id := RiskAlerts.set_resolved_at a t1]> risk)).
    { rewrite risk_resolve_cases. cbn. rewrite Ha. reflexivity. }
    cbv zeta. rewrite E. cbn [snd]. split; [reflexivity|].
    rewrite risk_resolve_cases. cbn.
    rewrite lookup_insert_eq. rewrite insert_insert_eq. reflexivity.
  - rewrite risk_resolve_cases.
    destruct (Db.query_works db), (risk !! id), (Db.commit_works db);
      cbn; intuition congruence.
  - rewrite risk_resolve_cases.
    destruct (Db.query_works db), (risk !! id), (Db.commit_works db);
      cbn; intros H; first [reflexivity|discriminate H].
  - intros h Hh.
    assert (E : AppApi.resolve_alert Db.working t1 id who1 history
                = (Py.Return (AppApi.resolve_row h who1 t1),
                   <[id := AppApi.resolve_row h who1 t1]> history)).
    { rewrite api_resolve_cases. cbn. rewrite Hh. reflexivity. }
    cbv zeta. rewrite E. cbn [snd]. split; [reflexivity|].
    rewrite api_resolve_cases. cbn.
    rewrite lookup_insert_eq. rewrite insert_insert_eq. reflexivity.
  - rewrite api_resolve_cases.
    destruct (Db.query_works db), (history !! id), (Db.commit_works db),
      (Db.refresh_works db); cbn; intuition congruence.
  - rewrite api_resolve_cases.
    destruct (Db.query_works db), (history !! id), (Db.commit_works db),
      (Db.refresh_works db); cbn;
      (split; [intros [detail H]; first [discriminate H|split; congruence]
              |intros [H1 H2]; first [discriminate|eexists; reflexivity]]).
  - intros a Ha.
    assert (E : Monitoring.resolve_alert Db.working id alerts
                = (Py.Return ("Alert " ++ pretty id ++ " resolved")%string,
                   <[id := Monitoring.set_resolved a]> alerts)).
    { rewrite monitoring_resolve_cases. cbn. rewrite Ha. reflexivity. }
    cbv zeta. rewrite E. cbn [fst snd Py.raises].
    split; [reflexivity|].
    rewrite monitoring_resolve_cases. cbn.
    rewrite lookup_insert_eq. cbn. split; [reflexivity|].
    apply insert_insert_eq.
  - rewrite monitoring_resolve_cases.
    destruct (Db.query_works db), (alerts !! id), (Db.commit_works db);
      cbn; intuition congruence.
  - rewrite monitoring_resolve_cases.
    destruct (Db.query_works db), (alerts !! id), (Db.commit_works db);
      cbn; intros H; first [discriminate H|eexists; reflexivity].
Qed.

Lemma resolve_again_succeeds_and_restamps_witness :
  let t := snd (RiskAlerts.resolve_alert Db.working 10 1
                  ResolveSample.risk_alerts) in
  fst (RiskAlerts.resolve_alert Db.working 20 1 t)
  = Py.Return (RiskAlerts.set_resolved_at ResolveSample.drawdown_alert 20).
Proof.
  destruct (resolve_again_succeeds_and_restamps
              ResolveSample.risk_alerts ResolveSample.history
              ResolveSample.alerts Db.working 1 10 20 "alice" "bob")
    as (H & _).
  destruct (H ResolveSample.drawdown_alert) as (_ & H2).
  - vm_compute. reflexivity.
  - cbv zeta. rewrite H2. reflexivity.
Defined.

(** C6, as stated, fails: an alert resolved at time 10 and resolved
    again at time 20 carries the time of the second call; in the handler
    that records the resolver, the second resolver replaces the first. *)
Lemma second_resolve_replaces_first :
  let db1 := snd (RiskAlerts.resolve_alert Db.working 10 1
                    ResolveSample.risk_alerts) in
  let db2 := snd (RiskAlerts.resolve_alert Db.working 20 1 db1) in
  let h1 := snd (AppApi.resolve_alert Db.working 10 1 "alice"
                   ResolveSample.history) in
  let h2 := snd (AppApi.resolve_alert Db.working 20 1 "bob" h1) in
  (RiskAlerts.resolved_at <$> db1 !! 1%Z) = Some (Some 10)
  /\ (RiskAlerts.resolved_at <$> db2 !! 1%Z) = Some (Some 20)
  /\ (AppApi.resolved_by <$> h1 !! 1%Z) = Some (Some "alice")
  /\ (AppApi.resolved_by <$> h2 !! 1%Z) = Some (Some "bob")
  /\ (RiskAlerts.resolved_at <$> db2 !! 1%Z)
     <> (RiskAlerts.resolved_at <$> db1 !! 1%Z)
  /\ (AppApi.resolved_by <$> h2 !! 1%Z)
     <> (AppApi.resolved_by <$> h1 !! 1%Z).
Proof. vm_compute. repeat split; congruence. Qed.

(** A missing alert: the 404 of the two [main.py] handlers leaves as a
    500; an existing alert whose commit fails gets the same answer. *)
Example resolve_unknown_alert :
  fst (RiskAlerts.resolve_alert Db.working 10 2 ResolveSample.risk_alerts)
    = Py.Raise (Py.HTTPException 500 "Failed to resolve alert")
  /\ fst (Monitoring.resolve_alert Db.working 2 ResolveSample.alerts)
     = Py.Raise (Py.HTTPException 500 "404: Alert not found")
  /\ fst (AppApi.resolve_alert Db.working 10 2 "alice"
            ResolveSample.history)
     = Py.Raise (Py.HTTPException 404 "알림 이력을 찾을 수 없습니다.")
  /\ fst (RiskAlerts.resolve_alert ResolveSample.commit_fails 10 1
            ResolveSample.risk_alerts)
     = Py.Raise (Py.HTTPException 500 "Failed to resolve alert").
Proof. vm_compute. repeat split; reflexivity. Qed.

End ResolveFacts.

(** * Further properties of the code *)

(** ** Bounds on the Value at Risk and the Expected Shortfall *)

Module VarBounds.
Import RiskManagement.
Local Open Scope Q_scope.

Lemma rank_in_range (n : Z) (quant : Q) :
  (1 <= n)%Z -> 0 <= quant <= 1 ->
  0 <= inject_Z (n - 1) * quant <= inject_Z (n - 1).
Proof.
  intros Hn [H0 H1].
  assert (Hn0 : 0 <= inject_Z (n - 1)).
  { change 0 with (inject_Z 0). rewrite <- Zle_Qle. lia. }
  split; nra.
Qed.

Lemma In_nth_sorted (xs : list Q) (r : Q) :
  In r xs ->
  exists k, (k < List.length xs)%nat /\ nth k (Np.sort xs) 0 = r.
Proof.
  intros Hin. apply PercentileFacts.sort_In in Hin.
  destruct (In_nth _ _ 0 Hin) as (k & Hk & E).
  rewrite PercentileFacts.sort_length in Hk. eauto.
Qed.

(** The rank formula interpolates between two values of the series. *)
Lemma percentile_linear_bracket (xs : list Q) (p : Q) :
  xs <> [] -> 0 <= p / 100 <= 1 ->
  exists lo hi,
    In lo xs /\ In hi xs
    /\ lo <= RiskSpec.percentile_linear xs p <= hi.
Proof.
  intros Hne Hp. unfold RiskSpec.percentile_linear.
  set (n := Z.of_nat (List.length xs)).
  assert (Hn : (1 <= n)%Z).
  { subst n. destruct xs; [congruence|]. simpl List.length. lia. }
  set (h := inject_Z (n - 1) * (p / 100)).
  destruct (rank_in_range n (p / 100) Hn Hp) as [Hh0 Hh1]. fold h in Hh0, Hh1.
  assert (Hf0 : (0 <= Qfloor h)%Z).
  { change 0%Z with (Qfloor 0). apply Qfloor_resp_le, Hh0. }
  assert (Hc1 : (Qceiling h <= n - 1)%Z).
  { rewrite <- (Qceiling_Z (n - 1)). apply Qceiling_resp_le, Hh1. }
  assert (Hfc : (Qfloor h <= Qceiling h)%Z).
  { destruct (PercentileFacts.Qceiling_floor_cases h) as [E|[E _]]; lia. }
  pose proof (Qfloor_le h) as Ht0.
  pose proof (Qlt_floor h) as Ht1. rewrite inject_Z_plus in Ht1.
  pose proof (PercentileFacts.ascending_nth _
                (PercentileFacts.sort_ascending xs)
                (Z.to_nat (Qfloor h)) (Z.to_nat (Qceiling h))) as Hle.
  rewrite PercentileFacts.sort_length in Hle.
  specialize (Hle ltac:(lia) ltac:(subst n; lia)).
  exists (nth (Z.to_nat (Qfloor h)) (Np.sort xs) 0),
         (nth (Z.to_nat (Qceiling h)) (Np.sort xs) 0).
  split; [|split].
  - apply PercentileFacts.sort_In, nth_In.
    rewrite PercentileFacts.sort_length. subst n. lia.
  - apply PercentileFacts.sort_In, nth_In.
    rewrite PercentileFacts.sort_length. subst n. lia.
  - change (inject_Z 1) with 1 in Ht1. split; nra.
Qed.

(** X1.  The Value at Risk of a non-empty series lies between two
    returns of the series: it is never below the smallest return nor
    above the largest. *)
Theorem var_lies_between_returns
    (returns : list Q) (confidence : Q)
    (Hne : returns <> []) (Hc : 0 <= confidence <= 1) :
  exists v lo hi,
    calculate_var returns confidence = Py.Return v
    /\ In lo returns /\ In hi returns /\ lo <= v <= hi.
Proof.
  destruct (VarFacts.calculate_var_nonempty returns confidence Hne Hc)
    as (v & Hv & Ev).
  destruct (percentile_linear_bracket returns ((1 - confidence) * 100) Hne
              (VarFacts.confidence_quantile _ Hc))
    as (lo & hi & Hlo & Hhi & Hb).
  exists v, lo, hi.
  split; [exact Hv|]. split; [exact Hlo|]. split; [exact Hhi|].
  destruct Hb as [Hb1 Hb2]. split; rewrite Ev; assumption.
Qed.

Lemma var_lies_between_returns_witness :
  exists v lo hi,
    calculate_var SampleSeries.reference (95 # 100) = Py.Return v
    /\ In lo SampleSeries.reference /\ In hi SampleSeries.reference
    /\ lo <= v <= hi.
Proof.
  apply (var_lies_between_returns SampleSeries.reference (95 # 100)).
  - discriminate.
  - split; discriminate.
Defined.

Lemma sorted_first_is_least (xs : list Q) :
  Forall (fun r => nth 0 (Np.sort xs) 0 <= r) xs.
Proof.
  rewrite List.Forall_forall. intros r Hin.
  destruct (In_nth_sorted xs r Hin) as (k & Hk & <-).
  apply PercentileFacts.ascending_nth;
    [apply PercentileFacts.sort_ascending|lia|].
  now rewrite PercentileFacts.sort_length.
Qed.

Lemma sorted_last_is_greatest (xs : list Q) :
  Forall (fun r => r <= nth (List.length xs - 1) (Np.sort xs) 0) xs.
Proof.
  rewrite List.Forall_forall. intros r Hin.
  destruct (In_nth_sorted xs r Hin) as (k & Hk & <-).
  apply PercentileFacts.ascending_nth;
    [apply PercentileFacts.sort_ascending|lia|].
  rewrite PercentileFacts.sort_length. lia.
Qed.

(** X2.  At confidence 1 the Value at Risk is the smallest return of
    the series, at confidence 0 the largest. *)
Theorem var_at_extreme_confidence (returns : list Q) (Hne : returns <> []) :
  (exists v m,
     calculate_var returns 1 = Py.Return v
     /\ In m returns /\ v == m /\ Forall (fun r => v <= r) returns)
  /\ (exists v m,
        calculate_var returns 0 = Py.Return v
        /\ In m returns /\ v == m /\ Forall (fun r => r <= v) returns).
Proof.
  assert (Hlen : (0 < List.length returns)%nat).
  { destruct returns; [congruence|simpl; lia]. }
  split.
  - destruct (VarFacts.calculate_var_nonempty returns 1 Hne
                ltac:(split; discriminate)) as (v & Hv & Ev).
    assert (E : v == nth 0 (Np.sort returns) 0).
    { rewrite Ev. unfold RiskSpec.percentile_linear.
      set (h := inject_Z (Z.of_nat (List.length returns) - 1)
                * ((1 - 1) * 100 / 100)).
      assert (Eh : h == 0) by (subst h; field).
      rewrite (Qfloor_comp _ _ Eh), (Qceiling_comp _ _ Eh), Eh.
      change (Qfloor 0) with 0%Z. change (Qceiling 0) with 0%Z.
      change (Z.to_nat 0) with 0%nat. ring. }
    exists v, (nth 0 (Np.sort returns) 0).
    split; [exact Hv|]. split.
    { apply PercentileFacts.sort_In, nth_In.
      now rewrite PercentileFacts.sort_length. }
    split; [exact E|].
    eapply List.Forall_impl; [|apply sorted_first_is_least].
    intros r Hr. cbn beta in *. now rewrite E.
  - destruct (VarFacts.calculate_var_nonempty returns 0 Hne
                ltac:(split; discriminate)) as (v & Hv & Ev).
    set (n := Z.of_nat (List.length returns)).
    assert (E : v == nth (List.length returns - 1) (Np.sort returns) 0).
    { rewrite Ev. unfold RiskSpec.percentile_linear. fold n.
      set (h := inject_Z (n - 1) * ((1 - 0) * 100 / 100)).
      assert (Eh : h == inject_Z (n - 1)) by (subst h; field).
      rewrite (Qfloor_comp _ _ Eh), (Qceiling_comp _ _ Eh), Eh.
      rewrite Qfloor_Z, Qceiling_Z.
      replace (Z.to_nat (n - 1)) with (List.length returns - 1)%nat
        by (subst n; lia).
      ring. }
    exists v, (nth (List.length returns - 1) (Np.sort returns) 0).
    split; [exact Hv|]. split.
    { apply PercentileFacts.sort_In, nth_In.
      rewrite PercentileFacts.sort_length. lia. }
    split; [exact E|].
    eapply List.Forall_impl; [|apply sorted_last_is_greatest].
    intros r Hr. cbn beta in *. now rewrite E.
Qed.

Lemma var_at_extreme_confidence_witness :
  (exists v m,
     calculate_var SampleSeries.reference 1 = Py.Return v
     /\ In m SampleSeries.reference /\ v == m
     /\ Forall (fun r => v <= r) SampleSeries.reference)
  /\ (exists v m,
        calculate_var SampleSeries.reference 0 = Py.Return v
        /\ In m SampleSeries.reference /\ v == m
        /\ Forall (fun r => r <= v) SampleSeries.reference).
Proof.
  apply (var_at_extreme_confidence SampleSeries.reference). discriminate.
Defined.

(** X4.  A confidence level above [1], or below [0] by [10^-15] or
    more, makes [calculate_var] and [calculate_expected_shortfall]
    raise [ValueError] for every series, the empty one included.  (A
    negative level closer to [0] than the rounding of [1 - confidence]
    is not told from [0] by the binary64 numbers of the code.) *)
Theorem confidence_out_of_range_raises
    (returns : list Q) (confidence : Q)
    (Hc : confidence <= - (1 # 1000000000000000) \/ 1 < confidence) :
  calculate_var returns confidence = Py.Raise Py.ValueError
  /\ calculate_expected_shortfall returns confidence
     = Py.Raise Py.ValueError.
Proof.
  assert (E : (1 - confidence) * 100 / 100 == 1 - confidence)
    by (field; discriminate).
  assert (Hout : confidence < 0 \/ 1 < confidence).
  { destruct Hc as [Hc|Hc]; [left|right; exact Hc].
    eapply Qle_lt_trans; [exact Hc|reflexivity]. }
  clear Hc. rename Hout into Hc.
  assert (Hv : calculate_var returns confidence = Py.Raise Py.ValueError).
  { unfold calculate_var, Np.percentile.
    destruct Hc as [Hc|Hc].
    - replace (Qle_bool ((1 - confidence) * 100 / 100) 1) with false.
      + now rewrite andb_false_r.
      + symmetry. apply NpFacts.Qle_bool_false_iff. rewrite E. lra.
    - replace (Qle_bool 0 ((1 - confidence) * 100 / 100)) with false.
      + reflexivity.
      + symmetry. apply NpFacts.Qle_bool_false_iff. rewrite E. lra. }
  split; [exact Hv|].
  unfold calculate_expected_shortfall. now rewrite Hv.
Qed.

Lemma confidence_out_of_range_raises_witness :
  calculate_var SampleSeries.reference (95 # 1) = Py.Raise Py.ValueError
  /\ calculate_expected_shortfall SampleSeries.reference (95 # 1)
     = Py.Raise Py.ValueError.
Proof.
  apply (confidence_out_of_range_raises SampleSeries.reference (95 # 1)).
  right. reflexivity.
Defined.

(** X5.  On the empty series the expected shortfall raises the
    [IndexError] of the percentile, the maximum drawdown raises
    [ValueError], the Sharpe ratio is [nan] and the Sortino ratio is
    [0]; none of the five statistics returns a finite non-zero number. *)
Theorem statistics_of_empty_series
    (confidence risk_free_rate : Q) (Hc : 0 <= confidence <= 1) :
  calculate_expected_shortfall [] confidence = Py.Raise Py.IndexError
  /\ calculate_max_drawdown [] = Py.Raise Py.ValueError
  /\ calculate_sharpe_ratio [] risk_free_rate = Np.NaN
  /\ calculate_sortino_ratio [] risk_free_rate = Np.Fin 0.
Proof.
  split; [|repeat split].
  unfold calculate_expected_shortfall.
  now rewrite (VarFacts.calculate_var_empty _ Hc).
Qed.

Lemma statistics_of_empty_series_witness :
  calculate_expected_shortfall [] (95 # 100) = Py.Raise Py.IndexError
  /\ calculate_max_drawdown [] = Py.Raise Py.ValueError
  /\ calculate_sharpe_ratio [] 0 = Np.NaN
  /\ calculate_sortino_ratio [] 0 = Np.Fin 0.
Proof.
  apply (statistics_of_empty_series (95 # 100) 0). split; discriminate.
Defined.

End VarBounds.

(** ** Edges of the drawdown and of the two ratios *)

Module RatioEdges.
Import RiskManagement.
Local Open Scope Q_scope.

(** The value of [calculate_max_drawdown] on a series with every
    return above [-1]. *)
Lemma calculate_max_drawdown_value (returns : list Q) :
  returns <> [] -> Forall (fun r => -1 < r) returns ->
  exists q,
    calculate_max_drawdown returns = Py.Return (Np.Fin q)
    /\ q == RiskSpec.max_drawdown returns.
Proof.
  intros Hne Hgt. unfold calculate_max_drawdown.
  set (cumulative := Np.cumprod (List.map (fun r => 1 + r) returns)).
  set (D := zip_with (fun c m => Np.divide (Np.Fin (c - m)) (Np.Fin m))
              cumulative (Np.maximum_accumulate cumulative)).
  assert (HlenD : List.length D = List.length returns).
  { subst D. rewrite DrawdownFacts.zip_with_length_same.
    - subst cumulative.
      now rewrite DrawdownFacts.cumprod_length, List.length_map.
    - now rewrite DrawdownFacts.maximum_accumulate_length. }
  destruct D as [|d0 rest] eqn:ED.
  { destruct returns; [congruence|discriminate]. }
  simpl in HlenD.
  destruct (DrawdownFacts.running_minimum returns d0 rest Hgt ED
              (eq_sym HlenD) (List.length rest) (Nat.le_refl _))
    as (q & Hq & Eq).
  rewrite List.firstn_all in Hq.
  exists q. split; [cbn [Np.min]; now rewrite Hq|].
  unfold RiskSpec.max_drawdown. rewrite <- HlenD.
  replace (S (List.length rest) - 1)%nat with (List.length rest) by lia.
  exact Eq.
Qed.

Lemma drawdown_above_minus_one (returns : list Q) (i : nat) :
  Forall (fun r => -1 < r) returns ->
  (i < List.length returns)%nat -> -1 < RiskSpec.drawdown_at returns i.
Proof.
  intros Hgt Hi. unfold RiskSpec.drawdown_at.
  pose proof (DrawdownFacts.running_max_positive returns Hgt i Hi) as Hm.
  pose proof (DrawdownFacts.cumulative_positive returns Hgt i Hi) as Hc.
  apply Qlt_shift_div_l; [exact Hm|]. lra.
Qed.

Lemma min_drawdown_above_minus_one (returns : list Q) (k : nat) :
  Forall (fun r => -1 < r) returns ->
  (k < List.length returns)%nat ->
  -1 < RiskSpec.min_drawdown_upto returns k.
Proof.
  intros Hgt. induction k as [|k IH]; intros Hk;
    cbn [RiskSpec.min_drawdown_upto].
  - apply drawdown_above_minus_one; assumption.
  - apply Q.min_glb_lt.
    + apply IH. lia.
    + apply drawdown_above_minus_one; assumption.
Qed.

(** X6.  When every return is above [-1] and the running product
    stays within the range of binary64 numbers, the maximum drawdown is
    a finite number that is not below [-1]: a drawdown never exceeds
    100 percent. *)
Theorem max_drawdown_not_below_minus_one
    (returns : list Q)
    (Hne : returns <> []) (Hgt : Forall (fun r => -1 < r) returns)
    (Hrange : RiskSpec.in_float_range returns) :
  exists q,
    calculate_max_drawdown returns = Py.Return (Np.Fin q) /\ -1 <= q.
Proof.
  destruct (calculate_max_drawdown_value returns Hne Hgt) as (q & Hq & Eq).
  exists q. split; [exact Hq|]. rewrite Eq.
  apply Qlt_le_weak.
  apply min_drawdown_above_minus_one; [exact Hgt|].
  destruct returns; [congruence|simpl; lia].
Qed.

Lemma max_drawdown_not_below_minus_one_witness :
  exists q,
    calculate_max_drawdown SampleSeries.dip = Py.Return (Np.Fin q)
    /\ -1 <= q.
Proof.
  apply (max_drawdown_not_below_minus_one SampleSeries.dip).
  - discriminate.
  - repeat constructor.
  - intros [|[|[|i]]] Hi; [| | |cbn in Hi; lia];
      apply Qle_bool_iff; vm_compute; reflexivity.
Defined.

Lemma fold_minimum_nan (l : list Np.float64) :
  fold_left Np.minimum l Np.NaN = Np.NaN.
Proof. induction l as [|x l IH]; simpl; [reflexivity|exact IH]. Qed.

(** X7.  A series whose first return is [-1] (the whole stake lost in
    the first period) has the maximum drawdown [nan]: the first
    drawdown is [0 / 0] and [np.min] propagates it. *)
Theorem max_drawdown_after_total_loss_first
    (r0 : Q) (rest : list Q) (Hloss : r0 == -1) :
  calculate_max_drawdown (r0 :: rest) = Py.Return Np.NaN.
Proof.
  unfold calculate_max_drawdown. cbn [List.map Np.cumprod
    Np.maximum_accumulate zip_with Np.min].
  assert (E1 : Np.Qis_zero (1 + r0) = true).
  { apply NpFacts.Qis_zero_iff. rewrite Hloss. reflexivity. }
  assert (E2 : Np.Qis_zero (1 + r0 - (1 + r0)) = true).
  { apply NpFacts.Qis_zero_iff. ring. }
  unfold Np.divide at 2. rewrite E1, E2.
  now rewrite fold_minimum_nan.
Qed.

Lemma max_drawdown_after_total_loss_first_witness :
  calculate_max_drawdown [-1; 3 # 10] = Py.Return Np.NaN.
Proof.
  apply (max_drawdown_after_total_loss_first (-1) [3 # 10]). reflexivity.
Defined.

Lemma excess_nonempty_mean (returns : list Q) (rf : Q) :
  returns <> [] -> exists m, Np.mean (excess returns rf) = Np.Fin m.
Proof.
  intros Hne. rewrite MeanFacts.mean_nonempty; [eauto|].
  unfold excess. destruct returns; [congruence|discriminate].
Qed.

(** The quotient of a finite mean by a zero deviation. *)
Lemma divide_by_zero_deviation (m s : Q) :
  s == 0 ->
  Np.divide (Np.Fin m) (Np.Fin s)
  = if Np.Qis_zero m then Np.NaN
    else if Np.Qlt_bool 0 m then Np.PosInf else Np.NegInf.
Proof.
  intros Hs. unfold Np.divide.
  now rewrite (proj2 (NpFacts.Qis_zero_iff s) Hs).
Qed.

(** X8.  With exactly one negative excess return the Sortino ratio
    divides by the deviation of a single number, which is zero: the
    ratio is [nan], [inf] or [-inf], never a finite number. *)
Theorem sortino_ratio_single_downside
    (returns : list Q) (rf d : Q)
    (Hone : RiskSpec.negative_excess_returns returns rf = [d]) :
  (calculate_sortino_ratio returns rf = Np.NaN
   \/ calculate_sortino_ratio returns rf = Np.PosInf
   \/ calculate_sortino_ratio returns rf = Np.NegInf)
  /\ forall q, calculate_sortino_ratio returns rf <> Np.Fin q.
Proof.
  assert (Hne : returns <> []).
  { intros ->. discriminate Hone. }
  destruct (excess_nonempty_mean returns rf Hne) as (m & Hm).
  assert (Hsome : RiskSpec.negative_excess_returns returns rf <> []).
  { rewrite Hone. discriminate. }
  assert (Hall : Forall (fun x => x == d)
                   (RiskSpec.negative_excess_returns returns rf)).
  { rewrite Hone. constructor; [reflexivity|constructor]. }
  destruct (MeanFacts.std_all_equal d _ Hsome Hall) as (s & Hs & Es).
  assert (E : calculate_sortino_ratio returns rf
              = (if Np.Qis_zero m then Np.NaN
                 else if Np.Qlt_bool 0 m then Np.PosInf else Np.NegInf)).
  { unfold calculate_sortino_ratio.
    unfold RiskSpec.negative_excess_returns, RiskSpec.excess_returns in *.
    fold (excess returns rf) in *.
    destruct (List.filter (fun x => Np.Qlt_bool x 0) (excess returns rf))
      as [|x l] eqn:Ef; [congruence|].
    cbn [List.length Nat.eqb]. rewrite Hm, Hs.
    apply divide_by_zero_deviation, Es. }
  rewrite E.
  destruct (Np.Qis_zero m); [split; [tauto|discriminate]|].
  destruct (Np.Qlt_bool 0 m); split; try tauto; discriminate.
Qed.

Lemma sortino_ratio_single_downside_witness :
  (calculate_sortino_ratio [1 # 100; - (1 # 100); 1 # 100] 0 = Np.NaN
   \/ calculate_sortino_ratio [1 # 100; - (1 # 100); 1 # 100] 0
      = Np.PosInf
   \/ calculate_sortino_ratio [1 # 100; - (1 # 100); 1 # 100] 0
      = Np.NegInf)
  /\ forall q,
       calculate_sortino_ratio [1 # 100; - (1 # 100); 1 # 100] 0
       <> Np.Fin q.
Proof.
  apply (sortino_ratio_single_downside
           [1 # 100; - (1 # 100); 1 # 100] 0 (- (1 # 100) - 0)).
  reflexivity.
Defined.

End RatioEdges.

(** ** Threshold evaluators: every breach is reported, missing keys *)

Module ThresholdCoverage.
Local Open Scope Q_scope.

Lemma append_if_exceeds_keeps alerts name v limit a :
  In a alerts -> In a (AlertManager.append_if_exceeds alerts name v limit).
Proof.
  intros H. unfold AlertManager.append_if_exceeds.
  destruct (Np.Qlt_bool limit v); [apply in_or_app; left|]; exact H.
Qed.

Lemma check_one_complete self metrics name alerts alerts' :
  AlertManager.check_one self metrics name alerts = Py.Return alerts' ->
  (forall a, In a alerts -> In a alerts')
  /\ (forall v limit,
        metrics !! name = Some v -> self !! name = Some limit ->
        limit < v ->
        In {| AlertManager.type := name; AlertManager.value := v;
              AlertManager.threshold := limit |} alerts')
  /\ (List.length alerts' <= S (List.length alerts))%nat.
Proof.
  unfold AlertManager.check_one, AlertManager.getitem.
  destruct (metrics !! name) as [v|]; py_simpl; [|discriminate].
  destruct (self !! name) as [limit|]; py_simpl; [|discriminate].
  intros [= <-]. split; [|split].
  - intros a. apply append_if_exceeds_keeps.
  - intros v' limit' [= <-] [= <-] Hlt.
    unfold AlertManager.append_if_exceeds.
    rewrite (proj2 (NpFacts.Qlt_bool_iff _ _) Hlt).
    apply in_or_app. right. left. reflexivity.
  - unfold AlertManager.append_if_exceeds.
    destruct (Np.Qlt_bool limit v); [rewrite List.length_app; simpl|]; lia.
Qed.

(** X10.  [check_thresholds] reports every breach: each of the metrics
    cpu, memory and disk whose value is above its threshold has its
    alert, with that value and threshold, in the result; the result
    holds at most three alerts. *)
Theorem check_thresholds_reports_every_breach
    (self metrics : gmap string Q) (alerts : list AlertManager.alert)
    (Hret : AlertManager.check_thresholds self metrics = Py.Return alerts) :
  (forall name v limit,
     In name ["cpu"; "memory"; "disk"]%string ->
     metrics !! name = Some v -> self !! name = Some limit -> limit < v ->
     In {| AlertManager.type := name; AlertManager.value := v;
           AlertManager.threshold := limit |} alerts)
  /\ (List.length alerts <= 3)%nat.
Proof.
  unfold AlertManager.check_thresholds in Hret.
  destruct (AlertManager.check_one self metrics "cpu" []) as [l1|] eqn:E1;
    py_simpl; [|discriminate].
  destruct (AlertManager.check_one self metrics "memory" l1) as [l2|] eqn:E2;
    py_simpl; [|discriminate].
  destruct (AlertManager.check_one self metrics "disk" l2) as [l3|] eqn:E3;
    py_simpl; [|discriminate].
  injection Hret as <-.
  destruct (check_one_complete _ _ _ _ _ E1) as (_ & C1 & L1).
  destruct (check_one_complete _ _ _ _ _ E2) as (K2 & C2 & L2).
  destruct (check_one_complete _ _ _ _ _ E3) as (K3 & C3 & L3).
  split; [|simpl in L1; lia].
  intros name v limit Hname Hv Hl Hlt.
  destruct Hname as [<-|[<-|[<-|[]]]].
  - apply K3, K2, C1; assumption.
  - apply K3, C2; assumption.
  - apply C3; assumption.
Qed.

Lemma check_thresholds_reports_every_breach_witness :
  In {| AlertManager.type := "memory"; AlertManager.value := 90;
        AlertManager.threshold := 85 |} ThresholdSample.alerts.
Proof.
  destruct (check_thresholds_reports_every_breach
              ThresholdSample.self ThresholdSample.metrics
              ThresholdSample.alerts) as (H & _).
  - vm_compute. reflexivity.
  - apply (H "memory" 90 85).
    + right. left. reflexivity.
    + vm_compute. reflexivity.
    + vm_compute. reflexivity.
    + reflexivity.
Defined.

(** X11.  [check_thresholds] raises exactly when one of the keys cpu,
    memory, disk is missing from the metrics or from the thresholds,
    and the exception is then a [KeyError]. *)
Theorem check_thresholds_missing_key (self metrics : gmap string Q) :
  (Py.raises (AlertManager.check_thresholds self metrics) = false
   <-> forall name, In name ["cpu"; "memory"; "disk"]%string ->
         is_Some (metrics !! name) /\ is_Some (self !! name))
  /\ (Py.raises (AlertManager.check_thresholds self metrics) = true ->
      AlertManager.check_thresholds self metrics = Py.Raise Py.KeyError).
Proof.
  unfold AlertManager.check_thresholds, AlertManager.check_one,
    AlertManager.getitem.
  destruct (metrics !! "cpu") as [v1|] eqn:M1; py_simpl;
  [destruct (self !! "cpu") as [l1|] eqn:S1; py_simpl;
   [destruct (metrics !! "memory") as [v2|] eqn:M2; py_simpl;
    [destruct (self !! "memory") as [l2|] eqn:S2; py_simpl;
     [destruct (metrics !! "disk") as [v3|] eqn:M3; py_simpl;
      [destruct (self !! "disk") as [l3|] eqn:S3; py_simpl|]|]|]|]|].
  - split; [|discriminate]. split; [|reflexivity].
    intros _ name [<-|[<-|[<-|[]]]]; split; eauto.
  - split; [|reflexivity]. split; [discriminate|].
    intros H. destruct (H "disk") as [_ [x Hx]]; [simpl; auto|congruence].
  - split; [|reflexivity]. split; [discriminate|].
    intros H. destruct (H "disk") as [[x Hx] _]; [simpl; auto|congruence].
  - split; [|reflexivity]. split; [discriminate|].
    intros H. destruct (H "memory") as [_ [x Hx]]; [simpl; auto|congruence].
  - split; [|reflexivity]. split; [discriminate|].
    intros H. destruct (H "memory") as [[x Hx] _]; [simpl; auto|congruence].
  - split; [|reflexivity]. split; [discriminate|].
    intros H. destruct (H "cpu") as [_ [x Hx]]; [simpl; auto|congruence].
  - split; [|reflexivity]. split; [discriminate|].
    intros H. destruct (H "cpu") as [[x Hx] _]; [simpl; auto|congruence].
Qed.

Lemma check_thresholds_missing_key_witness :
  AlertManager.check_thresholds ThresholdSample.self
    (<["cpu" := 95]> ∅) = Py.Raise Py.KeyError.
Proof.
  apply (proj2 (check_thresholds_missing_key ThresholdSample.self
                  (<["cpu" := 95]> ∅))).
  vm_compute. reflexivity.
Defined.

End ThresholdCoverage.

(** ** AlertSender: what each send does *)

Module SenderFacts.
Import AlertSender.

Lemma mem_iff (k : string) (keys : list string) :
  mem k keys = true <-> In k keys.
Proof.
  unfold mem. rewrite List.existsb_exists. split.
  - intros (x & Hx & E). apply String.eqb_eq in E. now subst.
  - intros H. exists k. split; [exact H|apply String.eqb_refl].
Qed.

(** When the template is rendered and handed over without an error. *)
Lemma render_and_transmit_ok (template : string) (data : list string)
    (delivers : bool) :
  Py.raises (render_and_transmit template data delivers) = false
  <-> exists placeholders,
        templates template = Some placeholders
        /\ ~ In "timestamp"%string data
        /\ (forall k, In k placeholders -> In k data)
        /\ delivers = true.
Proof.
  unfold render_and_transmit, format.
  destruct (templates template) as [ph|]; cbn;
    [|split; [discriminate|intros (? & ? & _); discriminate]].
  destruct (mem "timestamp" data) eqn:Et; py_simpl.
  { split; [discriminate|]. intros (? & _ & Hn & _).
    exfalso. apply Hn, mem_iff, Et. }
  destruct (forallb (fun k => mem k data) ph) eqn:Ef; py_simpl.
  - destruct delivers; cbn.
    + split; [|reflexivity]. intros _. exists ph.
      split; [reflexivity|]. split.
      * intros Hin. apply mem_iff in Hin. congruence.
      * split; [|reflexivity]. intros k Hk. apply mem_iff.
        rewrite List.forallb_forall in Ef. apply Ef, Hk.
    + split; [discriminate|]. intros (? & _ & _ & _ & ?). discriminate.
  - split; [discriminate|]. intros (ph' & [= <-] & _ & Hall & _).
    assert (forallb (fun k => mem k data) ph = true); [|congruence].
    apply List.forallb_forall. intros k Hk. apply mem_iff, Hall, Hk.
Qed.

Lemma send_email_closed self net template data st :
  let ok := truthy (smtp_user self) && truthy (smtp_password self)
            && truthy (smtp_from self) && truthy (smtp_to self)
            && negb (Py.raises (render_and_transmit template data
                                  (smtp_delivers net))) in
  exists r,
    send_email self net template data st
    = (Py.Return ok,
       {| outbox := outbox st ++ (if ok then [(Email, template)] else []);
          log := log st ++ [r] |}).
Proof.
  unfold send_email.
  destruct (truthy (smtp_user self) && truthy (smtp_password self)
            && truthy (smtp_from self) && truthy (smtp_to self)); cbn.
  - py_simpl.
    destruct (render_and_transmit template data (smtp_delivers net));
      cbn; eexists; rewrite ?List.app_nil_r; try rewrite <- List.app_assoc;
      reflexivity.
  - eexists. rewrite List.app_nil_r. reflexivity.
Qed.

Lemma send_slack_closed self net template data st :
  let ok := truthy (slack_webhook_url self)
            && negb (Py.raises (render_and_transmit template data
                                  (webhook_delivers net))) in
  exists r,
    send_slack self net template data st
    = (Py.Return ok,
       {| outbox := outbox st ++ (if ok then [(Slack, template)] else []);
          log := log st ++ [r] |}).
Proof.
  unfold send_slack.
  destruct (truthy (slack_webhook_url self)); cbn.
  - py_simpl.
    destruct (render_and_transmit template data (webhook_delivers net));
      cbn; eexists; rewrite ?List.app_nil_r; try rewrite <- List.app_assoc;
      reflexivity.
  - eexists. rewrite List.app_nil_r. reflexivity.
Qed.

(** X13.  A channel send never raises.  [send_email] answers [True]
    exactly when the four SMTP settings are set, the template is known,
    [data] has every placeholder of the template and no [timestamp]
    key, and the SMTP session goes through; [send_slack] likewise with
    the webhook URL and the webhook request.  One message leaves on
    [True], none on [False], and each call writes one log record. *)
Theorem channel_send_answers
    (self : sender) (net : network) (template : string)
    (data : list string) (st : state) :
  (exists (ok : bool) (r : log_record),
     send_email self net template data st
     = (Py.Return ok,
        {| outbox := outbox st ++ (if ok then [(Email, template)] else []);
           log := log st ++ [r] |})
     /\ (ok = true <->
         (truthy (smtp_user self) = true
          /\ truthy (smtp_password self) = true
          /\ truthy (smtp_from self) = true
          /\ truthy (smtp_to self) = true)
         /\ exists placeholders,
              templates template = Some placeholders
              /\ ~ In "timestamp"%string data
              /\ (forall k, In k placeholders -> In k data)
              /\ smtp_delivers net = true))
  /\ (exists (ok : bool) (r : log_record),
        send_slack self net template data st
        = (Py.Return ok,
           {| outbox := outbox st ++ (if ok then [(Slack, template)] else []);
              log := log st ++ [r] |})
        /\ (ok = true <->
            truthy (slack_webhook_url self) = true
            /\ exists placeholders,
                 templates template = Some placeholders
                 /\ ~ In "timestamp"%string data
                 /\ (forall k, In k placeholders -> In k data)
                 /\ webhook_delivers net = true)).
Proof.
  split.
  - destruct (send_email_closed self net template data st) as (r & E).
    eexists. exists r. split; [exact E|].
    rewrite !andb_true_iff, negb_true_iff, render_and_transmit_ok.
    tauto.
  - destruct (send_slack_closed self net template data st) as (r & E).
    eexists. exists r. split; [exact E|].
    rewrite !andb_true_iff, negb_true_iff, render_and_transmit_ok.
    tauto.
Qed.

Lemma send_alert_known self net alert_type data st :
  templates alert_type <> None ->
  let e := truthy (smtp_user self) && truthy (smtp_password self)
           && truthy (smtp_from self) && truthy (smtp_to self)
           && negb (Py.raises (render_and_transmit alert_type data
                                 (smtp_delivers net))) in
  let s := truthy (slack_webhook_url self)
           && negb (Py.raises (render_and_transmit alert_type data
                                 (webhook_delivers net))) in
  exists r1 r2,
    send_alert self net alert_type data st
    = (Py.Return tt,
       {| outbox := outbox st ++ (if e then [(Email, alert_type)] else [])
                    ++ (if s then [(Slack, alert_type)] else []);
          log := log st ++ [r1; r2]
                 ++ (if negb e && negb s
                     then [(ERROR, "send_alert: all sends failed")]
                     else []) |}).
Proof.
  intros Hknown e s. unfold send_alert.
  destruct (templates alert_type) as [ph|] eqn:Et; [|congruence].
  destruct (send_email_closed self net alert_type data st) as (r1 & E1).
  fold e in E1.
  destruct (send_slack_closed self net alert_type data
              {| outbox := outbox st ++ (if e then [(Email, alert_type)] else []);
                 log := log st ++ [r1] |}) as (r2 & E2).
  fold s in E2. cbn [outbox log] in E2.
  py_simpl. rewrite E1, E2. exists r1, r2.
  destruct (negb e && negb s); unfold logger, Eff.modify, Eff.ret;
    cbn [outbox log]; rewrite ?List.app_nil_r, <- ?List.app_assoc;
    reflexivity.
Qed.

(** X14.  A dispatch for a known alert type sends at most one e-mail
    and one Slack message, in this order, each exactly when its
    channel send answers [True]; it writes the two log records of the
    channels and, when both answered [False], the record that all
    sends failed.  For an unknown alert type nothing leaves. *)
Theorem dispatch_outbox_and_log
    (self : sender) (net : network) (alert_type : string)
    (data : list string) (st : state) :
  let e := truthy (smtp_user self) && truthy (smtp_password self)
           && truthy (smtp_from self) && truthy (smtp_to self)
           && negb (Py.raises (render_and_transmit alert_type data
                                 (smtp_delivers net))) in
  let s := truthy (slack_webhook_url self)
           && negb (Py.raises (render_and_transmit alert_type data
                                 (webhook_delivers net))) in
  let st' := snd (send_alert self net alert_type data st) in
  (templates alert_type <> None ->
     outbox st' = outbox st ++ (if e then [(Email, alert_type)] else [])
                  ++ (if s then [(Slack, alert_type)] else [])
     /\ exists r1 r2,
          log st' = log st ++ [r1; r2]
                    ++ (if negb e && negb s
                        then [(ERROR, "send_alert: all sends failed")]
                        else []))
  /\ (templates alert_type = None -> outbox st' = outbox st).
Proof.
  intros e s st'. subst st'. split.
  - intros Hknown.
    destruct (send_alert_known self net alert_type data st Hknown)
      as (r1 & r2 & E).
    fold e s in E. rewrite E. cbn [snd outbox log]. eauto.
  - intros Hnone. unfold send_alert. rewrite Hnone. reflexivity.
Qed.

Lemma dispatch_outbox_and_log_witness :
  outbox (snd (send_alert DispatchSample.configured DispatchSample.slack_only
                 "high_resource" DispatchSample.resource_data
                 DispatchSample.quiet))
  = [(Slack, "high_resource")].
Proof.
  destruct (dispatch_outbox_and_log DispatchSample.configured
              DispatchSample.slack_only "high_resource"
              DispatchSample.resource_data DispatchSample.quiet)
    as (H & _).
  destruct H as (Ho & _); [vm_compute; discriminate|].
  rewrite Ho. reflexivity.
Defined.

(** X15.  The two convenience calls always supply complete data, so
    what leaves depends on the settings and the network alone: the
    e-mail leaves when the four SMTP settings are set and the SMTP
    session goes through, the Slack message when the webhook URL is
    set and the request goes through. *)
Theorem convenience_calls_deliver
    (self : sender) (net : network) (st : state) :
  let e := truthy (smtp_user self) && truthy (smtp_password self)
           && truthy (smtp_from self) && truthy (smtp_to self)
           && smtp_delivers net in
  let s := truthy (slack_webhook_url self) && webhook_delivers net in
  outbox (snd (send_resource_alert self net st))
  = outbox st ++ (if e then [(Email, "high_resource")] else [])
    ++ (if s then [(Slack, "high_resource")] else [])
  /\ outbox (snd (send_service_down_alert self net st))
     = outbox st ++ (if e then [(Email, "service_down")] else [])
       ++ (if s then [(Slack, "service_down")] else [])
  /\ fst (send_resource_alert self net st) = Py.Return tt
  /\ fst (send_service_down_alert self net st) = Py.Return tt.
Proof.
  intros e s.
  assert (R1 : forall d, negb (Py.raises (render_and_transmit "high_resource"
               ["resource_type"; "usage"; "threshold"] d)) = d)
    by (intros []; reflexivity).
  assert (R2 : forall d, negb (Py.raises (render_and_transmit "service_down"
               ["service_name"; "details"] d)) = d)
    by (intros []; reflexivity).
  unfold send_resource_alert, send_service_down_alert.
  destruct (send_alert_known self net "high_resource"
              ["resource_type"; "usage"; "threshold"] st ltac:(discriminate))
    as (r1 & r2 & E1).
  destruct (send_alert_known self net "service_down"
              ["service_name"; "details"] st ltac:(discriminate))
    as (r3 & r4 & E2).
  rewrite !R1 in E1. rewrite !R2 in E2. rewrite E1, E2.
  repeat split; reflexivity.
Qed.

End SenderFacts.

(** ** Resolve: the other rows *)

Module ResolveFrame.
Local Open Scope Q_scope.

(** X16.  A resolve touches the row of its id and nothing else,
    whatever the database does: the other rows and the set of ids are
    as before; a failed resolve leaves the table unchanged (in
    [app/api.py] unless the commit went through and only the refresh
    failed); after a successful one the row of the id is the old row
    marked resolved.  This holds for the handlers of the
    risk-management service, of [app/api.py] and of the monitoring
    service. *)
Theorem resolve_touches_only_its_row
    (risk : gmap Z RiskAlerts.RiskAlert)
    (history : gmap Z AppApi.AlertHistory)
    (alerts : gmap Z Monitoring.Alert)
    (db : Db.session) (id : Z) (now : Q) (who : string) :
  (let r := RiskAlerts.resolve_alert db now id risk in
   (forall id', id' <> id -> snd r !! id' = risk !! id')
   /\ dom (snd r) = dom risk
   /\ (Py.raises (fst r) = true -> snd r = risk)
   /\ (Py.raises (fst r) = false ->
       exists a, risk !! id = Some a
                 /\ snd r !! id = Some (RiskAlerts.set_resolved_at a now)))
  /\ (let r := AppApi.resolve_alert db now id who history in
      (forall id', id' <> id -> snd r !! id' = history !! id')
      /\ dom (snd r) = dom history
      /\ (Py.raises (fst r) = true ->
          Db.commit_works db && negb (Db.refresh_works db) = false ->
          snd r = history)
      /\ (Py.raises (fst r) = false ->
          exists h, history !! id = Some h
                    /\ snd r !! id = Some (AppApi.resolve_row h who now)))
  /\ (let r := Monitoring.resolve_alert db id alerts in
      (forall id', id' <> id -> snd r !! id' = alerts !! id')
      /\ dom (snd r) = dom alerts
      /\ (Py.raises (fst r) = true -> snd r = alerts)
      /\ (Py.raises (fst r) = false ->
          exists a, alerts !! id = Some a
                    /\ snd r !! id = Some (Monitoring.set_resolved a))).
Proof.
  split; [|split]; cbv zeta.
  - rewrite ResolveFacts.risk_resolve_cases.
    destruct (Db.query_works db), (risk !! id) as [a|] eqn:E,
      (Db.commit_works db); cbn;
      (split;
       [intros id' Hne; try reflexivity; now rewrite lookup_insert_ne|]);
      (split; [try reflexivity; apply dom_insert_lookup_L; eauto|]);
      (split; [intros H; first [reflexivity|discriminate H]|]);
      intros H; try discriminate H.
    exists a. split; [reflexivity|apply lookup_insert_eq].
  - rewrite ResolveFacts.api_resolve_cases.
    destruct (Db.query_works db), (history !! id) as [h|] eqn:E,
      (Db.commit_works db), (Db.refresh_works db); cbn;
      (split;
       [intros id' Hne; try reflexivity; now rewrite lookup_insert_ne|]);
      (split; [try reflexivity; apply dom_insert_lookup_L; eauto|]);
      (split; [intros H H'; first [reflexivity|discriminate H
                                  |discriminate H']|]);
      intros H; try discriminate H.
    exists h. split; [reflexivity|apply lookup_insert_eq].
  - rewrite ResolveFacts.monitoring_resolve_cases.
    destruct (Db.query_works db), (alerts !! id) as [a|] eqn:E,
      (Db.commit_works db); cbn;
      (split;
       [intros id' Hne; try reflexivity; now rewrite lookup_insert_ne|]);
      (split; [try reflexivity; apply dom_insert_lookup_L; eauto|]);
      (split; [intros H; first [reflexivity|discriminate H]|]);
      intros H; try discriminate H.
    exists a. split; [reflexivity|apply lookup_insert_eq].
Qed.

End ResolveFrame.

(** ** The alert manager: what goes out and what is stored *)

Module ManagerFacts.
Import App.
Local Open Scope Q_scope.

Lemma check_cooldown_value (now : Q) (ty : string) (st : state) :
  _check_cooldown now ty st = (Py.Return (AppSpec.cooled_down st now ty), st).
Proof. reflexivity. Qed.

Lemma send_email_alert_effect e ty sev msg recipients st :
  exists r,
    _send_email_alert e ty sev msg recipients st
    = (Py.Return tt,
       {| cooldown_period := cooldown_period st;
          last_alert_time := last_alert_time st;
          sent := sent st
                  ++ (if bool_decide (is_Some recipients) && smtp e
                      then [email_alert ty sev msg] else []);
          alert_history := alert_history st;
          log := log st ++ [r] |}).
Proof.
  unfold _send_email_alert. destruct recipients as [x|]; cbn.
  - destruct (smtp e); cbn; eexists; rewrite ?List.app_nil_r; reflexivity.
  - eexists. rewrite List.app_nil_r. reflexivity.
Qed.

Lemma send_slack_alert_effect e ty sev msg st :
  exists r,
    _send_slack_alert e ty sev msg st
    = (Py.Return tt,
       {| cooldown_period := cooldown_period st;
          last_alert_time := last_alert_time st;
          sent := sent st
                  ++ (if AlertSender.truthy (slack_webhook_url e) && webhook e
                      then [slack_alert ty sev msg] else []);
          alert_history := alert_history st;
          log := log st ++ [r] |}).
Proof.
  unfold _send_slack_alert.
  destruct (AlertSender.truthy (slack_webhook_url e)); cbn.
  - destruct (webhook e); cbn; eexists; rewrite ?List.app_nil_r; reflexivity.
  - eexists. rewrite List.app_nil_r. reflexivity.
Qed.

(** An alert that is held back: the cooldown is not over, or no
    enabled configuration can be read. *)
Lemma send_alert_held_back e now later ty sev msg st :
  (if AppSpec.cooled_down st now ty then AppSpec.enabled_config e else None)
  = None ->
  let st' := snd (send_alert e now later ty sev msg st) in
  fst (send_alert e now later ty sev msg st) = Py.Return tt
  /\ last_alert_time st' = last_alert_time st
  /\ sent st' = sent st
  /\ alert_history st' = alert_history st
  /\ cooldown_period st' = cooldown_period st.
Proof.
  intros H. unfold send_alert. py_simpl.
  rewrite check_cooldown_value. cbn [fst snd].
  destruct (AppSpec.cooled_down st now ty); [|cbn; auto].
  unfold AppSpec.enabled_config in H. unfold _get_alert_config. cbn.
  destruct (session e); cbn; [|auto].
  destruct (first_config e) as [[c|]|ex]; cbn; [|auto|auto].
  cbn in H. destruct (enabled c); [discriminate|]. cbn. auto.
Qed.

(** An alert that goes out. *)
Lemma send_alert_goes_out e now later ty sev msg st c :
  AppSpec.cooled_down st now ty = true ->
  AppSpec.enabled_config e = Some c ->
  let st' := snd (send_alert e now later ty sev msg st) in
  fst (send_alert e now later ty sev msg st) = Py.Return tt
  /\ last_alert_time st' = <[ty := later]> (last_alert_time st)
  /\ sent st' = sent st ++ AppSpec.notifications e c ty sev msg
  /\ alert_history st'
     = alert_history st
       ++ (if commit e
           then [{| h_alert_type := ty; h_severity := sev;
                    h_message := msg |}]
           else [])
  /\ cooldown_period st' = cooldown_period st.
Proof.
  intros Hcool Hcfg. unfold send_alert. py_simpl.
  rewrite check_cooldown_value. cbn [fst snd]. rewrite Hcool. cbn [negb].
  unfold AppSpec.enabled_config in Hcfg. unfold _get_alert_config.
  destruct (first_config e) as [[c'|]|ex]; try discriminate.
  destruct (session e) eqn:Es; [|discriminate]. cbn in Hcfg.
  destruct (enabled c') eqn:Een; [|discriminate].
  injection Hcfg as ->. cbn. rewrite Een. cbn.
  unfold AppSpec.notifications.
  destruct (email_enabled c).
  - destruct (send_email_alert_effect e ty sev msg (email_recipients c) st)
      as (r1 & E1). rewrite E1.
    destruct (slack_enabled c).
    + match goal with
      | |- context [_send_slack_alert e ty sev msg ?s] =>
          destruct (send_slack_alert_effect e ty sev msg s) as (r2 & E2)
      end.
      rewrite E2. unfold _save_alert_history. rewrite Es.
      destruct (commit e); cbn;
        rewrite ?List.app_nil_r, <- ?List.app_assoc; auto.
    + cbn. unfold _save_alert_history. rewrite Es.
      destruct (commit e); cbn;
        rewrite ?List.app_nil_r, <- ?List.app_assoc; auto.
  - cbn. destruct (slack_enabled c).
    + destruct (send_slack_alert_effect e ty sev msg st) as (r2 & E2).
      rewrite E2. unfold _save_alert_history. rewrite Es.
      destruct (commit e); cbn;
        rewrite ?List.app_nil_r, <- ?List.app_assoc; auto.
    + cbn. unfold _save_alert_history. rewrite Es.
      destruct (commit e); cbn;
        rewrite ?List.app_nil_r, <- ?List.app_assoc; auto.
Qed.

(** X17.  [send_alert] never raises and leaves the cooldown period
    alone.  When the cooldown of the alert type is over and an enabled
    configuration row is read through a session, the alert goes out:
    the enabled channels that work are notified, a history row is
    added when the commit goes through, and the firing time of the
    alert type becomes the clock reading at the end of the call.  In
    every other case nothing goes out and nothing is stored. *)
Theorem send_alert_effects
    (e : env) (now later : Q) (ty sev msg : string) (st : state) :
  let st' := snd (send_alert e now later ty sev msg st) in
  fst (send_alert e now later ty sev msg st) = Py.Return tt
  /\ cooldown_period st' = cooldown_period st
  /\ match (if AppSpec.cooled_down st now ty
            then AppSpec.enabled_config e else None) with
     | Some c =>
         last_alert_time st' = <[ty := later]> (last_alert_time st)
         /\ sent st' = sent st ++ AppSpec.notifications e c ty sev msg
         /\ alert_history st'
            = alert_history st
              ++ (if commit e
                  then [{| h_alert_type := ty; h_severity := sev;
                           h_message := msg |}]
                  else [])
     | None =>
         last_alert_time st' = last_alert_time st
         /\ sent st' = sent st
         /\ alert_history st' = alert_history st
     end.
Proof.
  intros st'. subst st'.
  destruct (if AppSpec.cooled_down st now ty
            then AppSpec.enabled_config e else None) as [c|] eqn:E.
  - destruct (AppSpec.cooled_down st now ty) eqn:Hc; [|discriminate].
    destruct (send_alert_goes_out e now later ty sev msg st c Hc E)
      as (H1 & H2 & H3 & H4 & H5). auto.
  - destruct (send_alert_held_back e now later ty sev msg st E)
      as (H1 & H2 & H3 & H4 & H5). auto.
Qed.

Lemma send_alert_dict_effect e now later a st :
  let st' := snd (_send_alert e now later a st) in
  fst (_send_alert e now later a st) = Py.Return tt
  /\ last_alert_time st' = last_alert_time st
  /\ alert_history st' = alert_history st
  /\ cooldown_period st' = cooldown_period st
  /\ (sent st' = sent st
      \/ exists call,
           sent st' = sent st ++ [via_sender call]
           /\ ((String.eqb (type a) "service_down" = true
                /\ exists name, service_name a = Some name
                                /\ call = send_service_down_alert name)
               \/ (String.eqb (type a) "service_down" = false
                   /\ exists v t, value a = Some v /\ threshold a = Some t
                                  /\ call = send_resource_alert (type a) v t))).
Proof.
  unfold _send_alert, call_sender, getitem. py_simpl. unfold id.
  destruct (match last_alert_time st !! alert_key a with
            | Some last =>
                Np.Qlt_bool (now - last) (inject_Z (cooldown_period st))
            | None => false
            end); [cbn; auto 6|].
  destruct (String.eqb (type a) "service_down") eqn:Et.
  - destruct (service_name a) as [name|]; [|cbn; auto 6].
    destruct (alert_sender e (send_service_down_alert name));
      cbn; [|auto 6].
    repeat (split; [reflexivity|]). right. eexists.
    split; [reflexivity|]. left. eauto.
  - destruct (value a) as [v|]; [|cbn; auto 6].
    destruct (threshold a) as [t|]; [|cbn; auto 6].
    destruct (alert_sender e (send_resource_alert (type a) v t));
      cbn; [|auto 6].
    repeat (split; [reflexivity|]). right. eexists.
    split; [reflexivity|]. right. eauto 6.
Qed.

Lemma send_all_effect e clock metrics c alerts :
  forall i st,
  Forall (ThresholdSpec.app_breach c metrics) alerts ->
  let st' := snd (send_all e clock i alerts st) in
  fst (send_all e clock i alerts st) = Py.Return tt
  /\ last_alert_time st' = last_alert_time st
  /\ alert_history st' = alert_history st
  /\ cooldown_period st' = cooldown_period st
  /\ exists new, sent st' = sent st ++ new
                 /\ Forall (AppSpec.breach_notification metrics) new.
Proof.
  induction alerts as [|a rest IH]; intros i st Hall.
  - cbn. repeat (split; [reflexivity|]). exists [].
    split; [now rewrite List.app_nil_r|constructor].
  - inversion Hall as [|? ? Ha Hrest]; subst.
    cbn [send_all]. py_simpl.
    destruct (send_alert_dict_effect e (fst (clock i)) (snd (clock i)) a st)
      as (F1 & F2 & F3 & F4 & F5).
    destruct (_send_alert e (fst (clock i)) (snd (clock i)) a st)
      as [r st1] eqn:E1.
    cbn [fst snd] in F1, F2, F3, F4, F5. subst r.
    destruct (IH (S i) st1 Hrest) as (G1 & G2 & G3 & G4 & new & G5 & G6).
    split; [exact G1|]. split; [congruence|]. split; [congruence|].
    split; [congruence|].
    destruct F5 as [F5|(call & F5 & Hcall)].
    + exists new. split; [congruence|exact G6].
    + exists (via_sender call :: new). split.
      * rewrite G5, F5, <- List.app_assoc. reflexivity.
      * constructor; [|exact G6].
        destruct Ha as (v & limit & Hv & Ht & Hm & Hl & Hlt).
        destruct Hcall as [(Esd & _)|(_ & v' & t' & Hv' & Ht' & ->)].
        { apply String.eqb_eq in Esd. rewrite Esd in Hl. discriminate. }
        exists (type a), v, limit.
        rewrite Hv in Hv'. rewrite Ht in Ht'.
        injection Hv' as <-. injection Ht' as <-. auto.
Qed.

(** X19.  [check_metrics] and [check_service_status] never raise, and
    neither stores a firing time, adds a history row or changes the
    cooldown period; a healthy service leaves the whole state as it
    was. *)
Theorem monitoring_passes_store_nothing
    (e : env) (clock : nat -> Q * Q) (metrics : gmap string Q)
    (now later : Q) (name : string) (is_healthy : bool) (st : state) :
  (let st' := snd (check_metrics e clock metrics st) in
   fst (check_metrics e clock metrics st) = Py.Return tt
   /\ last_alert_time st' = last_alert_time st
   /\ alert_history st' = alert_history st
   /\ cooldown_period st' = cooldown_period st)
  /\ (let st' := snd (check_service_status e now later name is_healthy st) in
      fst (check_service_status e now later name is_healthy st)
        = Py.Return tt
      /\ last_alert_time st' = last_alert_time st
      /\ alert_history st' = alert_history st
      /\ cooldown_period st' = cooldown_period st
      /\ (is_healthy = true -> st' = st)).
Proof.
  split.
  - unfold check_metrics, _get_alert_config, _create_default_config.
    py_simpl.
    destruct (session e); cbn; [|auto].
    destruct (first_config e) as [[c|]|ex]; cbn;
      try (destruct (commit e); cbn; [|auto]);
      match goal with
      | |- context [candidates ?c metrics] =>
          destruct (candidates c metrics) as [alerts|ex'] eqn:Ec;
          cbn; [|auto];
          match goal with
          | |- context [send_all e clock 0 alerts ?s0] =>
              destruct (send_all_effect e clock metrics c alerts 0 s0
                          (ThresholdFacts.candidates_breach _ _ _ Ec))
                as (G1 & G2 & G3 & G4 & _);
              destruct (send_all e clock 0 alerts s0) as [r s'];
              cbn [fst snd last_alert_time alert_history cooldown_period]
                in *; subst r; cbn; auto
          end
      end.
  - unfold check_service_status. py_simpl.
    destruct is_healthy; cbn; [auto 6|].
    match goal with
    | |- context [_send_alert e now later ?a st] =>
        destruct (send_alert_dict_effect e now later a st)
          as (F1 & F2 & F3 & F4 & _);
        destruct (_send_alert e now later a st) as [r s']
    end.
    cbn [fst snd] in *. subst r. cbn.
    split; [reflexivity|]. split; [exact F2|]. split; [exact F3|].
    split; [exact F4|]. intros H. discriminate H.
Qed.

(** X20.  Every notification that [check_metrics] adds is a resource
    alert for a metric of this pass whose value is strictly above the
    limit it carries; earlier notifications stay in place. *)
Theorem check_metrics_notifies_breaches_only
    (e : env) (clock : nat -> Q * Q) (metrics : gmap string Q) (st : state) :
  exists new,
    sent (snd (check_metrics e clock metrics st)) = sent st ++ new
    /\ Forall (AppSpec.breach_notification metrics) new.
Proof.
  assert (Hnone : exists new : list notification,
            sent st = sent st ++ new
            /\ Forall (AppSpec.breach_notification metrics) new).
  { exists []. split; [now rewrite List.app_nil_r|constructor]. }
  unfold check_metrics, _get_alert_config, _create_default_config.
  py_simpl.
  destruct (session e); cbn; [|exact Hnone].
  destruct (first_config e) as [[c|]|ex]; cbn;
    try (destruct (commit e); cbn; [|exact Hnone]);
    match goal with
    | |- context [candidates ?c metrics] =>
        destruct (candidates c metrics) as [alerts|ex'] eqn:Ec;
        cbn; [|exact Hnone];
        match goal with
        | |- context [send_all e clock 0 alerts ?s0] =>
            destruct (send_all_effect e clock metrics c alerts 0 s0
                        (ThresholdFacts.candidates_breach _ _ _ Ec))
              as (G1 & _ & _ & _ & new & G5 & G6);
            destruct (send_all e clock 0 alerts s0) as [r s'];
            cbn [fst snd sent] in *; subst r; cbn; eauto
        end
    end.
Qed.

(** X21.  The cooldown test only opens with time: an alert type that
    [_check_cooldown] lets through at one instant is let through at
    every later instant; and with a cooldown period of zero or less no
    alert type whose stored firing time is not in the future is ever
    held back. *)
Theorem cooldown_test_opens_with_time
    (st : state) (ty : string) (now now' : Q) (Hlater : now <= now') :
  (fst (_check_cooldown now ty st) = Py.Return true ->
   fst (_check_cooldown now' ty st) = Py.Return true)
  /\ ((cooldown_period st <= 0)%Z ->
      (forall last, last_alert_time st !! ty = Some last -> last <= now) ->
      fst (_check_cooldown now ty st) = Py.Return true).
Proof.
  unfold _check_cooldown. cbn.
  destruct (last_alert_time st !! ty) as [last|]; [|auto].
  split.
  - intros [= H]. f_equal. apply Qle_bool_iff in H. apply Qle_bool_iff. lra.
  - intros Hz Hpast. f_equal. apply Qle_bool_iff.
    specialize (Hpast last eq_refl).
    assert (inject_Z (cooldown_period st) <= 0).
    { change 0 with (inject_Z 0). now rewrite <- Zle_Qle. }
    lra.
Qed.

Lemma cooldown_test_opens_with_time_witness :
  fst (_check_cooldown 400 "cpu_usage_" CooldownSample.fired_at_zero)
    = Py.Return true.
Proof.
  refine (proj1 (cooldown_test_opens_with_time
                   CooldownSample.fired_at_zero "cpu_usage_" 300 400 _) _).
  - discriminate.
  - reflexivity.
Defined.

End ManagerFacts.

(** ** The health check *)

Ltac health_simpl :=
  unfold mbind, mret, HealthCheck.health_bind, HealthCheck.health_ret in *;
  unfold HealthCheck.bind, HealthCheck.ret, HealthCheck.raise,
    HealthCheck.gets, HealthCheck.modify in *.

Module HealthFacts.
Import HealthCheck.
Local Open Scope Q_scope.

Lemma timedelta_in_range (window : Z) (now : Q) (st : state) :
  0 <= now <= datetime_max ->
  HealthSpec.cutoff_in_range window now ->
  timedelta window st = (Return (inject_Z window), st).
Proof.
  unfold HealthSpec.cutoff_in_range, timedelta, datetime_max.
  intros [Hn0 Hn1] [Hc0 Hc1].
  assert (Hw : (-315537897600 <= window <= 315537897600)%Z).
  { assert (H1 : inject_Z window <= 315537897600) by lra.
    assert (H2 : -315537897600 <= inject_Z window) by lra.
    unfold Qle in H1, H2. cbn in H1, H2. lia. }
  assert (Hd : (999999999 <? Z.abs (window / 86400))%Z = false).
  { apply Z.ltb_ge. 
    assert (-3652060 <= window / 86400 <= 3652060)%Z.
    { split.
      - apply Z.div_le_lower_bound; lia.
      - apply Z.div_le_upper_bound; lia. }
    lia. }
  rewrite Hd. reflexivity.
Qed.

Lemma datetime_sub_in_range (window : Z) (now : Q) (st : state) :
  HealthSpec.cutoff_in_range window now ->
  datetime_sub now (inject_Z window) st
  = (Return (now - inject_Z window), st).
Proof.
  unfold HealthSpec.cutoff_in_range, datetime_sub. intros [H0 H1].
  apply Qle_bool_iff in H0, H1. rewrite H0, H1. reflexivity.
Qed.

Lemma record_failure_in_range (self : settings) (now : Q)
    (service : string) (st : state) :
  0 <= now <= datetime_max ->
  HealthSpec.cutoff_in_range (failure_window self) now ->
  record_failure self now service st
  = (Return tt,
     {| failure_history :=
          <[service :=
              List.filter
                (fun t =>
                   Np.Qlt_bool (now - inject_Z (failure_window self)) t)
                (default [] (failure_history st !! service) ++ [now])]>
            (failure_history st);
        log := log st |}).
Proof.
  intros Hnow Hcut. unfold record_failure, setitem. health_simpl.
  cbn [failure_history log].
  destruct (failure_history st !! service) as [old|] eqn:E.
  - rewrite bool_decide_true by eauto. rewrite E.
    rewrite (timedelta_in_range _ now) by assumption.
    rewrite datetime_sub_in_range by assumption.
    cbn [failure_history log]. rewrite lookup_insert_eq.
    rewrite insert_insert_eq. reflexivity.
  - rewrite bool_decide_false by (intros [? ?]; discriminate).
    cbn [failure_history log]. rewrite lookup_insert_eq.
    rewrite (timedelta_in_range _ now) by assumption.
    rewrite datetime_sub_in_range by assumption.
    cbn [failure_history log]. rewrite lookup_insert_eq.
    rewrite !insert_insert_eq. reflexivity.
Qed.

Lemma record_failure_out_of_range (self : settings) (now : Q)
    (service : string) (st : state) :
  ~ HealthSpec.cutoff_in_range (failure_window self) now ->
  record_failure self now service st
  = (Raise OverflowError,
     {| failure_history :=
          <[service := default [] (failure_history st !! service) ++ [now]]>
            (failure_history st);
        log := log st |}).
Proof.
  intros Hcut.
  assert (Hsub : forall s,
    datetime_sub now (inject_Z (failure_window self)) s
    = (Raise OverflowError, s)).
  { intros s. unfold datetime_sub.
    destruct (Qle_bool 0 (now - inject_Z (failure_window self))
              && Qle_bool (now - inject_Z (failure_window self))
                   datetime_max) eqn:E; [|reflexivity].
    exfalso. apply Hcut. apply andb_true_iff in E as [E0 E1].
    apply Qle_bool_iff in E0, E1. split; assumption. }
  unfold record_failure, setitem, timedelta. health_simpl.
  cbn [failure_history log].
  destruct (failure_history st !! service) as [old|] eqn:E.
  - rewrite bool_decide_true by eauto. rewrite E.
    destruct (999999999 <? Z.abs (failure_window self / 86400))%Z;
      [reflexivity|].
    rewrite Hsub. reflexivity.
  - rewrite bool_decide_false by (intros [? ?]; discriminate).
    cbn [failure_history log]. rewrite lookup_insert_eq.
    rewrite insert_insert_eq.
    destruct (999999999 <? Z.abs (failure_window self / 86400))%Z;
      [reflexivity|].
    rewrite Hsub. reflexivity.
Qed.

Lemma send_alert_failure (self : settings) (now : Q) (service : string)
    (st : state) :
  0 <= now <= datetime_max ->
  HealthSpec.cutoff_in_range (failure_window self) now ->
  send_alert self now service false st
  = (Return tt,
     let kept :=
       List.filter
         (fun t => Np.Qlt_bool (now - inject_Z (failure_window self)) t)
         (default [] (failure_history st !! service) ++ [now]) in
     {| failure_history := <[service := kept]> (failure_history st);
        log := log st
               ++ (if (failure_threshold self <=? Z.of_nat (length kept))%Z
                   then [HealthSpec.warning] else []) |}).
Proof.
  intros Hnow Hcut. unfold send_alert. cbn [negb]. health_simpl.
  rewrite record_failure_in_range by assumption.
  unfold should_alert. health_simpl. cbn [failure_history log].
  rewrite lookup_insert_eq.
  destruct (failure_threshold self <=? _)%Z.
  - reflexivity.
  - rewrite app_nil_r. reflexivity.
Qed.

Lemma send_alert_recovery (self : settings) (now : Q) (service : string)
    (st : state) :
  send_alert self now service true st
  = (Return tt,
     {| failure_history := delete service (failure_history st);
        log := log st |}).
Proof.
  unfold send_alert, delitem. cbn [negb]. health_simpl.
  destruct (failure_history st !! service) as [old|] eqn:E.
  - rewrite bool_decide_true by eauto. reflexivity.
  - rewrite bool_decide_false by (intros [? ?]; discriminate).
    rewrite delete_id by assumption. destruct st; reflexivity.
Qed.

Lemma filter_keeps_all {A} (f : A -> bool) (l : list A) :
  (forall x, In x l -> f x = true) -> List.filter f l = l.
Proof.
  induction l as [|x l IH]; intros H; [reflexivity|].
  cbn. rewrite H by (left; reflexivity).
  rewrite IH; [reflexivity|]. intros y Hy. apply H. right. exact Hy.
Qed.

Lemma filter_keeps_none {A} (f : A -> bool) (l : list A) :
  (forall x, In x l -> f x = false) -> List.filter f l = [].
Proof.
  induction l as [|x l IH]; intros H; [reflexivity|].
  cbn. rewrite H by (left; reflexivity).
  apply IH. intros y Hy. apply H. right. exact Hy.
Qed.

Lemma for_each_app {A} (body : A -> M unit) (l1 l2 : list A) (st : state) :
  for_each body (l1 ++ l2) st
  = match for_each body l1 st with
    | (Return _, st') => for_each body l2 st'
    | (Raise e, st') => (Raise e, st')
    end.
Proof.
  revert st. induction l1 as [|x l1 IH]; intros st.
  - reflexivity.
  - cbn [for_each app]. health_simpl.
    destruct (body x st) as [[[]|e] st1]; [apply IH|reflexivity].
Qed.


(** X22. [record_failure] keeps exactly the failures younger than the
    window.  When the cutoff [now - failure_window] is a [datetime],
    the call returns, changes only the entry of [service], and that
    entry then holds the earlier failures and [now], each kept if and
    only if it is later than the cutoff. *)
Theorem record_failure_keeps_window (self : settings) (now : Q)
    (service : string) (st : state) :
  0 <= now <= datetime_max ->
  HealthSpec.cutoff_in_range (failure_window self) now ->
  exists kept,
    record_failure self now service st
    = (Return tt,
       {| failure_history := <[service := kept]> (failure_history st);
          log := log st |})
    /\ forall t,
         In t kept
         <-> (In t (default [] (failure_history st !! service)) \/ t = now)
             /\ now - inject_Z (failure_window self) < t.
Proof.
  intros Hnow Hcut. eexists. split.
  - apply record_failure_in_range; assumption.
  - intros t. rewrite filter_In, in_app_iff. cbn [In].
    rewrite NpFacts.Qlt_bool_iff. intuition.
Qed.

Lemma record_failure_keeps_window_witness :
  exists kept,
    record_failure HealthSample.self HealthSample.new_year "api"
      HealthSample.fresh
    = (Return tt,
       {| failure_history := <[ "api"%string := kept ]> ∅; log := [] |})
    /\ forall t,
         In t kept
         <-> (In t [] \/ t = HealthSample.new_year)
             /\ HealthSample.new_year - inject_Z 300 < t.
Proof.
  apply (record_failure_keeps_window HealthSample.self
           HealthSample.new_year "api" HealthSample.fresh).
  - split; apply Qle_bool_iff; reflexivity.
  - split; apply Qle_bool_iff; reflexivity.
Defined.


Lemma repeat_grows {A} (x : A) (n k : nat) (b : bool) :
  (b = true <-> (k <= n)%nat) ->
  repeat x (n - k) ++ (if b then [x] else []) = repeat x (S n - k).
Proof.
  intros H. destruct b.
  - assert (Hk : (k <= n)%nat) by (apply H; reflexivity).
    replace (S n - k)%nat with (S (n - k)) by lia.
    rewrite <- repeat_cons. reflexivity.
  - assert (Hk : ~ (k <= n)%nat) by (intros Hk; apply H in Hk; discriminate).
    replace (S n - k)%nat with (n - k)%nat by lia.
    rewrite app_nil_r. reflexivity.
Qed.

(** X23. Failures that lie within one window of each other are all
    counted.  For a service without an entry that fails at [times], any
    two of them less than [failure_window] apart, the entry ends as
    [times] itself, and the warning is logged at every failure from the
    [failure_threshold]-th on: [length times - (failure_threshold - 1)]
    times in all. *)
Theorem failures_in_one_window_accumulate (self : settings)
    (service : string) (times : list Q) (st : state) :
  failure_history st !! service = None ->
  (forall t, In t times ->
     0 <= t <= datetime_max
     /\ HealthSpec.cutoff_in_range (failure_window self) t) ->
  (forall t u, In t times -> In u times ->
     u - inject_Z (failure_window self) < t) ->
  HealthSpec.failures self service times st
  = (Return tt,
     {| failure_history :=
          match times with
          | [] => failure_history st
          | _ => <[service := times]> (failure_history st)
          end;
        log := log st
               ++ repeat HealthSpec.warning
                    (length times
                     - Z.to_nat (failure_threshold self - 1)) |}).
Proof.
  intros Hnone. unfold HealthSpec.failures.
  induction times as [|now init IH] using rev_ind; intros Hrange Hnear.
  - cbn. rewrite app_nil_r. destruct st; reflexivity.
  - rewrite for_each_app. rewrite IH; clear IH.
    + cbn [for_each]. health_simpl.
      assert (Hin : In now (init ++ [now]))
        by (apply in_app_iff; right; left; reflexivity).
      destruct (Hrange now Hin) as [Hnow Hcut].
      rewrite send_alert_failure by assumption.
      cbn [failure_history log].
      assert (Hold :
        default []
          (match init with
           | [] => failure_history st
           | _ => <[service := init]> (failure_history st)
           end !! service) = init).
      { destruct init; [rewrite Hnone; reflexivity|].
        rewrite lookup_insert_eq. reflexivity. }
      rewrite Hold.
      rewrite filter_keeps_all.
      2:{ intros t Ht. apply NpFacts.Qlt_bool_iff.
          apply Hnear; assumption. }
      f_equal. f_equal.
      * destruct init; cbn [app]; [reflexivity|].
        rewrite insert_insert_eq. reflexivity.
      * rewrite <- app_assoc. f_equal.
        rewrite !length_app. cbn [length].
        replace (length init + 1)%nat with (S (length init)) by lia.
        apply repeat_grows.
        rewrite Z.leb_le. lia.
    + intros t Ht. apply Hrange. apply in_app_iff. left. exact Ht.
    + intros t u Ht Hu. apply Hnear; apply in_app_iff; left; assumption.
Qed.


Lemma failures_in_one_window_accumulate_witness :
  HealthSpec.failures HealthSample.self "api" HealthSample.outage
    HealthSample.fresh
  = (Return tt,
     {| failure_history :=
          <[ "api"%string := HealthSample.outage ]> ∅;
        log := [HealthSpec.warning] |}).
Proof.
  apply (failures_in_one_window_accumulate HealthSample.self "api"
           HealthSample.outage HealthSample.fresh).
  - reflexivity.
  - intros t [<-|[<-|[<-|[]]]]; split; split; apply Qle_bool_iff;
      reflexivity.
  - intros t u [<-|[<-|[<-|[]]]] [<-|[<-|[<-|[]]]];
      apply NpFacts.Qlt_bool_iff; reflexivity.
Defined.

(** X24. A success wipes the failures counted so far.  After
    [send_alert] with a good status the next failure starts the count
    again: whatever the entry of [service] held, it then holds that one
    failure, and the warning is logged only if [failure_threshold] is at
    most 1. *)
Theorem recovery_restarts_the_count (self : settings) (recovered now : Q)
    (service : string) (st : state) :
  0 <= now <= datetime_max ->
  HealthSpec.cutoff_in_range (failure_window self) now ->
  (0 < failure_window self)%Z ->
  (_ ← send_alert self recovered service true;
   send_alert self now service false) st
  = (Return tt,
     {| failure_history := <[service := [now]]> (failure_history st);
        log := log st
               ++ (if (failure_threshold self <=? 1)%Z
                   then [HealthSpec.warning] else []) |}).
Proof.
  intros Hnow Hcut Hwindow. health_simpl.
  rewrite send_alert_recovery.
  rewrite send_alert_failure by assumption.
  cbn [failure_history log]. rewrite lookup_delete_eq.
  cbn [default app List.filter].
  assert (Hkeep :
    Np.Qlt_bool (now - inject_Z (failure_window self)) now = true).
  { apply NpFacts.Qlt_bool_iff.
    assert (0 < inject_Z (failure_window self))
      by (unfold Qlt; cbn; lia).
    lra. }
  rewrite Hkeep. cbn [length]. rewrite insert_delete_eq. reflexivity.
Qed.

Lemma recovery_restarts_the_count_witness :
  (_ ← send_alert HealthSample.self 0 "api" true;
   send_alert HealthSample.self HealthSample.new_year "api" false)
    HealthSample.fresh
  = (Return tt,
     {| failure_history :=
          <[ "api"%string := [HealthSample.new_year] ]> ∅;
        log := [] |}).
Proof.
  apply (recovery_restarts_the_count HealthSample.self 0
           HealthSample.new_year "api" HealthSample.fresh).
  - split; apply Qle_bool_iff; reflexivity.
  - split; apply Qle_bool_iff; reflexivity.
  - reflexivity.
Defined.

(** X25. With a window of zero or less nothing is ever counted.  A
    failure recorded at [now], no earlier failure being later than
    [now], leaves the entry of [service] empty, so for a positive
    [failure_threshold] no warning is logged, however many failures
    came before. *)
Theorem empty_window_never_alerts (self : settings) (now : Q)
    (service : string) (st : state) :
  0 <= now <= datetime_max ->
  HealthSpec.cutoff_in_range (failure_window self) now ->
  (failure_window self <= 0)%Z ->
  (0 < failure_threshold self)%Z ->
  (forall t, In t (default [] (failure_history st !! service)) ->
     t <= now) ->
  send_alert self now service false st
  = (Return tt,
     {| failure_history := <[service := []]> (failure_history st);
        log := log st |}).
Proof.
  intros Hnow Hcut Hwindow Hthreshold Hpast.
  rewrite send_alert_failure by assumption. cbv zeta.
  rewrite filter_keeps_none.
  - cbn [length]. change (Z.of_nat 0) with 0%Z.
    destruct (failure_threshold self <=? 0)%Z eqn:E.
    + apply Z.leb_le in E. lia.
    + rewrite app_nil_r. reflexivity.
  - intros t Ht.
    assert (Hle : t <= now).
    { apply in_app_iff in Ht as [Ht|[<-|[]]];
        [apply Hpast; exact Ht|apply Qle_refl]. }
    assert (Hw : inject_Z (failure_window self) <= 0)
      by (unfold Qle; cbn; lia).
    destruct (Np.Qlt_bool _ t) eqn:E; [|reflexivity].
    apply NpFacts.Qlt_bool_iff in E. lra.
Qed.


Lemma empty_window_never_alerts_witness :
  send_alert (HealthSample.with_window 0) HealthSample.new_year "api"
    false
    {| failure_history :=
         <[ "api"%string := [HealthSample.new_year - 60] ]> ∅;
       log := [] |}
  = (Return tt,
     {| failure_history :=
          <[ "api"%string := [] ]>
            (<[ "api"%string := [HealthSample.new_year - 60] ]> ∅);
        log := [] |}).
Proof.
  apply (empty_window_never_alerts (HealthSample.with_window 0)
           HealthSample.new_year "api").
  - split; apply Qle_bool_iff; reflexivity.
  - split; apply Qle_bool_iff; reflexivity.
  - cbn. lia.
  - cbn. lia.
  - intros t [<-|[]]. apply Qle_bool_iff. reflexivity.
Defined.

(** X26. A window that reaches back before [datetime.min] makes every
    failure raise.  When the cutoff [now - failure_window] is not a
    [datetime], [send_alert] on a failure raises [OverflowError]; the
    failure has been appended by then, nothing has been pruned and no
    warning is logged. *)
Theorem cutoff_out_of_range_raises (self : settings) (now : Q)
    (service : string) (st : state) :
  ~ HealthSpec.cutoff_in_range (failure_window self) now ->
  send_alert self now service false st
  = (Raise OverflowError,
     {| failure_history :=
          <[service := default [] (failure_history st !! service) ++ [now]]>
            (failure_history st);
        log := log st |}).
Proof.
  intros Hcut. unfold send_alert. cbn [negb]. health_simpl.
  rewrite record_failure_out_of_range by assumption. reflexivity.
Qed.

Lemma cutoff_out_of_range_raises_witness :
  send_alert (HealthSample.with_window 100000000000)
    HealthSample.new_year "api" false HealthSample.fresh
  = (Raise OverflowError,
     {| failure_history :=
          <[ "api"%string := [HealthSample.new_year] ]> ∅;
        log := [] |}).
Proof.
  apply (cutoff_out_of_range_raises
           (HealthSample.with_window 100000000000)
           HealthSample.new_year "api" HealthSample.fresh).
  intros [H _]. apply Qle_bool_iff in H. discriminate H.
Defined.

Lemma retry_status (delay : Z) (site : string) (probe : nat -> response)
    (count : nat) :
  (0 <= delay)%Z \/ count = O ->
  forall (attempt : nat) (st : state),
  exists errors,
    retry delay (fun k => check site (probe k)) count attempt st
    = (Return (HealthSpec.answers probe count attempt),
       {| failure_history := failure_history st;
          log := log st ++ errors |}).
Proof.
  intros Hdelay.
  assert (Hd : count = O \/ (0 <= delay)%Z) by tauto. clear Hdelay.
  induction count as [|count IH]; intros attempt st.
  - exists []. cbn. health_simpl. rewrite app_nil_r.
    destruct st; reflexivity.
  - destruct Hd as [Hd|Hd]; [discriminate Hd|].
    assert (Hsleep : forall s, sleep delay s = (Return tt, s)).
    { intros s. unfold sleep.
      destruct (delay <? 0)%Z eqn:E; [|reflexivity].
      apply Z.ltb_lt in E. lia. }
    cbn [retry HealthSpec.answers]. health_simpl.
    destruct (probe attempt) as [code|]; cbn [check HealthSpec.ok].
    + health_simpl. destruct (code =? 200)%Z.
      * exists []. rewrite app_nil_r. destruct st; reflexivity.
      * rewrite Hsleep.
        destruct (IH (or_intror Hd) (S attempt) st) as [errors ->].
        exists errors. reflexivity.
    + unfold logger. health_simpl. rewrite Hsleep.
      match goal with
      | |- context [retry _ _ _ _ ?s] =>
          destruct (IH (or_intror Hd) (S attempt) s) as [errors ->]
      end.
      cbn [failure_history log].
      exists ((ERROR, site) :: errors).
      rewrite <- app_assoc. reflexivity.
Qed.


Lemma check_service_effect (self : settings) (w : world)
    (name site : string) (st : state) :
  (0 <= retry_delay self)%Z \/ (retry_count self <= 0)%Z ->
  (HealthSpec.answers (probe w name) (Z.to_nat (retry_count self)) 0
   = false ->
   0 <= clock w name <= datetime_max
   /\ HealthSpec.cutoff_in_range (failure_window self) (clock w name)) ->
  exists st',
    check_service self w (name, check site) st = (Return tt, st')
    /\ (failure_history st' !! name = None
        <-> HealthSpec.answers (probe w name)
              (Z.to_nat (retry_count self)) 0 = true)
    /\ forall other, other <> name ->
         failure_history st' !! other = failure_history st !! other.
Proof.
  intros Hdelay Hrange. unfold check_service. health_simpl.
  destruct (retry_status (retry_delay self) site (probe w name)
              (Z.to_nat (retry_count self))) with (attempt := O) (st := st)
    as [errors ->]; [destruct Hdelay; [left; assumption|right; lia]|].
  destruct (HealthSpec.answers (probe w name)
              (Z.to_nat (retry_count self)) 0) eqn:E.
  - rewrite send_alert_recovery. unfold logger. health_simpl.
    cbn [failure_history log]. eexists. split; [reflexivity|].
    cbn [failure_history]. split.
    + rewrite lookup_delete_eq. tauto.
    + intros other Hother. apply lookup_delete_ne. congruence.
  - destruct (Hrange eq_refl) as [Hnow Hcut].
    rewrite send_alert_failure by assumption. unfold logger.
    health_simpl. cbn [failure_history log]. eexists.
    split; [reflexivity|]. cbn [failure_history]. split.
    + rewrite lookup_insert_eq. split; discriminate.
    + intros other Hother. apply lookup_insert_ne. congruence.
Qed.

Lemma pass_effect (self : settings) (w : world)
    (items : list (string * (response -> M bool))) :
  List.NoDup (map fst items) ->
  (forall item, In item items -> exists site, snd item = check site) ->
  (0 <= retry_delay self)%Z \/ (retry_count self <= 0)%Z ->
  (forall name, In name (map fst items) ->
     HealthSpec.answers (probe w name) (Z.to_nat (retry_count self)) 0
     = false ->
     0 <= clock w name <= datetime_max
     /\ HealthSpec.cutoff_in_range (failure_window self) (clock w name)) ->
  forall st,
  exists st',
    for_each (check_service self w) items st = (Return tt, st')
    /\ (forall name, In name (map fst items) ->
          (failure_history st' !! name = None
           <-> HealthSpec.answers (probe w name)
                 (Z.to_nat (retry_count self)) 0 = true))
    /\ forall name, ~ In name (map fst items) ->
         failure_history st' !! name = failure_history st !! name.
Proof.
  intros Hnodup Hcheck Hdelay.
  induction items as [|[name check_func] items IH]; intros Hrange st.
  - exists st. split; [reflexivity|]. split; [intros name []|reflexivity].
  - cbn [map fst] in Hnodup, Hrange. inversion Hnodup as [|? ? Hfresh Hrest].
    subst.
    destruct (Hcheck (name, check_func)) as [site Hsite];
      [left; reflexivity|].
    cbn [snd] in Hsite. subst check_func.
    destruct (check_service_effect self w name site st Hdelay)
      as (st1 & Hrun & Hname & Hframe);
      [apply Hrange; left; reflexivity|].
    destruct (IH Hrest) with (st := st1) as (st' & Hrun' & Hnames & Hframe').
    { intros item Hitem. apply Hcheck. right. exact Hitem. }
    { intros other Hother. apply Hrange. right. exact Hother. }
    exists st'. cbn [for_each]. health_simpl. rewrite Hrun.
    split; [exact Hrun'|]. split.
    + intros other [<-|Hother].
      * rewrite Hframe' by exact Hfresh. exact Hname.
      * apply Hnames. exact Hother.
    + intros other Hother. cbn [map fst In] in Hother.
      rewrite Hframe' by tauto. apply Hframe. intros ->. tauto.
Qed.

Lemma services_distinct : List.NoDup (map fst services).
Proof.
  cbn. repeat (constructor; [cbn; intuition discriminate|]). constructor.
Qed.

Lemma services_check (item : string * (response -> M bool)) :
  In item services -> exists site, snd item = check site.
Proof.
  cbn. intros [<-|[<-|[<-|[<-|[<-|[]]]]]]; eexists; reflexivity.
Qed.

(** X27. After a pass the failure history names exactly the services
    that did not answer.  With a sleep length that is not negative and
    representable cutoffs, [check_all_services] returns, and each of
    the five services is left without an entry if and only if one of
    its [retry_count] requests was answered with status 200; entries
    of other names are not touched. *)
Theorem pass_records_the_failing_services (self : settings) (w : world)
    (st : state) :
  (0 <= retry_delay self)%Z ->
  (forall name, In name (map fst services) ->
     HealthSpec.answers (probe w name) (Z.to_nat (retry_count self)) 0
     = false ->
     0 <= clock w name <= datetime_max
     /\ HealthSpec.cutoff_in_range (failure_window self) (clock w name)) ->
  exists st',
    check_all_services self w st = (Return tt, st')
    /\ (forall name, In name (map fst services) ->
          (failure_history st' !! name = None
           <-> HealthSpec.answers (probe w name)
                 (Z.to_nat (retry_count self)) 0 = true))
    /\ forall name, ~ In name (map fst services) ->
         failure_history st' !! name = failure_history st !! name.
Proof.
  intros Hdelay Hrange. unfold check_all_services.
  apply pass_effect.
  - exact services_distinct.
  - exact services_check.
  - left. exact Hdelay.
  - exact Hrange.
Qed.

Lemma pass_records_the_failing_services_witness :
  exists st',
    check_all_services HealthSample.self HealthSample.api_down
      HealthSample.fresh
    = (Return tt, st')
    /\ (forall name, In name (map fst services) ->
          (failure_history st' !! name = None
           <-> HealthSpec.answers (probe HealthSample.api_down name)
                 (Z.to_nat (retry_count HealthSample.self)) 0 = true))
    /\ forall name, ~ In name (map fst services) ->
         failure_history st' !! name
         = failure_history HealthSample.fresh !! name.
Proof.
  apply (pass_records_the_failing_services HealthSample.self
           HealthSample.api_down HealthSample.fresh).
  - cbn. lia.
  - intros name _ _. split; split; apply Qle_bool_iff; reflexivity.
Defined.

(** X28. Without retries every service counts as failed.  With
    [retry_count] zero or less the pass returns whatever the services
    would answer and whatever the sleep length, and each of the five
    services has an entry in the failure history afterwards. *)
Theorem no_retries_fail_every_service (self : settings) (w : world)
    (st : state) :
  (retry_count self <= 0)%Z ->
  (forall name, In name (map fst services) ->
     0 <= clock w name <= datetime_max
     /\ HealthSpec.cutoff_in_range (failure_window self) (clock w name)) ->
  exists st',
    check_all_services self w st = (Return tt, st')
    /\ forall name, In name (map fst services) ->
         is_Some (failure_history st' !! name).
Proof.
  intros Hcount Hrange. unfold check_all_services.
  destruct (pass_effect self w services services_distinct services_check)
    with (st := st) as (st' & Hrun & Hnames & _).
  - right. exact Hcount.
  - intros name Hname _. apply Hrange. exact Hname.
  - exists st'. split; [exact Hrun|]. intros name Hname.
    destruct (failure_history st' !! name) eqn:E; [eauto|].
    apply (Hnames name Hname) in E.
    replace (Z.to_nat (retry_count self)) with O in E by lia.
    discriminate E.
Qed.

Lemma no_retries_fail_every_service_witness :
  exists st',
    check_all_services (HealthSample.with_retries 0 5)
      HealthSample.api_down HealthSample.fresh
    = (Return tt, st')
    /\ forall name, In name (map fst services) ->
         is_Some (failure_history st' !! name).
Proof.
  apply (no_retries_fail_every_service (HealthSample.with_retries 0 5)
           HealthSample.api_down HealthSample.fresh).
  - cbn. lia.
  - intros name _. split; split; apply Qle_bool_iff; reflexivity.
Defined.

(** X29. A negative sleep length stops the pass at the first request
    that fails.  If [retry_delay] is negative and the first request to
    the API is not answered with status 200, [check_all_services]
    raises [ValueError] before anything is recorded: the failure
    history is as it was. *)
Theorem negative_delay_stops_the_pass (self : settings) (w : world)
    (st : state) :
  (retry_delay self < 0)%Z ->
  (0 < retry_count self)%Z ->
  HealthSpec.ok (probe w "api" 0) = false ->
  exists st',
    check_all_services self w st = (Raise ValueError, st')
    /\ failure_history st' = failure_history st.
Proof.
  intros Hdelay Hcount Hdown.
  assert (Hapi : exists st',
    check_service self w ("api"%string, check_api) st
    = (Raise ValueError, st')
    /\ failure_history st' = failure_history st).
  { unfold check_service. health_simpl.
    destruct (Z.to_nat (retry_count self)) as [|count] eqn:E; [lia|].
    cbn [retry]. health_simpl. unfold sleep.
    apply Z.ltb_lt in Hdelay. rewrite Hdelay. unfold check_api.
    destruct (probe w "api" 0%nat) as [code|];
      cbn [check HealthSpec.ok] in *.
    - health_simpl. rewrite Hdown. eexists. split; reflexivity.
    - unfold logger. health_simpl. eexists. split; reflexivity. }
  destruct Hapi as (st' & Hrun & Hsame). exists st'.
  split; [|exact Hsame].
  unfold check_all_services, services. cbn [for_each]. health_simpl.
  rewrite Hrun. reflexivity.
Qed.

Lemma negative_delay_stops_the_pass_witness :
  exists st',
    check_all_services (HealthSample.with_retries 3 (-1))
      HealthSample.api_down HealthSample.fresh
    = (Raise ValueError, st')
    /\ failure_history st' = failure_history HealthSample.fresh.
Proof.
  apply (negative_delay_stops_the_pass (HealthSample.with_retries 3 (-1))
           HealthSample.api_down HealthSample.fresh).
  - cbn. lia.
  - cbn. lia.
  - reflexivity.
Defined.

End HealthFacts.
